(** * TaskSpec generation and enrichment (sidecar/app)

    A shallow embedding of the decision logic of
    [sidecar/app/spec_generator.py], [sidecar/app/rag_system.py] and
    [sidecar/app/models.py], followed by theorems about it.

    Conventions of the embedding:
    - Python [int] is [Z]; a Python number that may be a float (the
      complexity score, the coverage ratio) is a rational [Q], compared
      exactly;
    - Python [str] is [string], read as a sequence of code points below 256;
    - a Python [dict] whose keys are data is a [gmap string _]; a [dict]
      with a fixed set of optional keys is a record of [option]s, so that
      [d.get(k, default)] is a [match] with the default in the [None] case;
    - a Python call that may raise is a function into [outcome]. *)

From Stdlib Require Import ZArith QArith Qround String Ascii List Lia Lqa.
From stdpp Require Import base option gmap strings list.

Open Scope string_scope.
Open Scope list_scope.
Open Scope Z_scope.

(** ** Analysis signals *)

(** [analysis_data.get("complexity", {})]: the nested dictionaries only
    contribute the one key the generator reads. *)
Record ComplexityInfo := { complexity_score : option Q }.
Record TestGapInfo := { test_coverage_ratio : option Q }.
Record TodoInfo := { todos : option Z }.

(** The [analysis_data] dictionary; every key may be missing. *)
Record AnalysisData := {
  filepath : option string;
  prompt : option string;
  duplication : option Z;
  complexity : option ComplexityInfo;
  test_gap : option TestGapInfo;
  todos_dead_code : option TodoInfo
}.

Module Signals.

(** [analysis_data.get("duplication", 0)] *)
Definition get_duplication (a : AnalysisData) : Z :=
  default 0 (duplication a).

(** [analysis_data.get("complexity", {}).get("complexity_score", 0)] *)
Definition get_complexity_score (a : AnalysisData) : Q :=
  match complexity a with
  | Some c => default (0 : Q) (complexity_score c)
  | None => 0
  end.

(** [analysis_data.get("test_gap", {}).get("test_coverage_ratio", 1.0)] *)
Definition get_test_coverage_ratio (a : AnalysisData) : Q :=
  match test_gap a with
  | Some t => default (1 : Q) (test_coverage_ratio t)
  | None => 1
  end.

(** [analysis_data.get("todos_dead_code", {}).get("todos", 0)] *)
Definition get_todos (a : AnalysisData) : Z :=
  match todos_dead_code a with
  | Some t => default 0 (todos t)
  | None => 0
  end.

(** Python's [x > y] and [x < y] on numbers. *)
Definition Qgtb (x y : Q) : bool := negb (Qle_bool x y).
Definition Qltb (x y : Q) : bool := negb (Qle_bool y x).

(** A full set of signals, as a caller that supplies every metric
    builds it. *)
Definition mk_signals (dup : Z) (cs cov : Q) (td : Z) : AnalysisData :=
  {| filepath := None; prompt := None;
     duplication := Some dup;
     complexity := Some {| complexity_score := Some cs |};
     test_gap := Some {| test_coverage_ratio := Some cov |};
     todos_dead_code := Some {| todos := Some td |} |}.

(** [analysis_data = {}]: every key is missing. *)
Definition no_signals : AnalysisData :=
  {| filepath := None; prompt := None; duplication := None;
     complexity := None; test_gap := None; todos_dead_code := None |}.

(** The three nested dictionaries are there and empty:
    [{"complexity": {}, "test_gap": {}, "todos_dead_code": {}}]. *)
Definition empty_metrics : AnalysisData :=
  {| filepath := None; prompt := None; duplication := None;
     complexity := Some {| complexity_score := None |};
     test_gap := Some {| test_coverage_ratio := None |};
     todos_dead_code := Some {| todos := None |} |}.

End Signals.

(** ** The signal scorer ([SpecGenerator._calculate_*], [_estimate_cost]) *)

Module SpecGenerator_score.
Import Signals.

Definition _calculate_risk (analysis_data : AnalysisData) : string :=
  let risk_score := 0 in
  let risk_score :=
    if Qgtb (get_complexity_score analysis_data) 100 then risk_score + 3
    else if Qgtb (get_complexity_score analysis_data) 50 then risk_score + 2
    else risk_score in
  let test_ratio := get_test_coverage_ratio analysis_data in
  let risk_score :=
    if Qltb test_ratio (3 # 10) then risk_score + 3
    else if Qltb test_ratio (5 # 10) then risk_score + 2
    else risk_score in
  let risk_score :=
    if get_todos analysis_data >? 5 then risk_score + 2 else risk_score in
  if risk_score >=? 5 then "high"
  else if risk_score >=? 3 then "medium"
  else "low".

Definition _calculate_priority (analysis_data : AnalysisData) : string :=
  let priority_score := 0 in
  let priority_score :=
    if get_duplication analysis_data >? 10
    then priority_score + 3 else priority_score in
  let priority_score :=
    if Qgtb (get_complexity_score analysis_data) 100
    then priority_score + 3 else priority_score in
  let priority_score :=
    if Qltb (get_test_coverage_ratio analysis_data) (2 # 10)
    then priority_score + 3 else priority_score in
  let priority_score :=
    if get_duplication analysis_data >? 5
    then priority_score + 2 else priority_score in
  let priority_score :=
    if Qgtb (get_complexity_score analysis_data) 50
    then priority_score + 2 else priority_score in
  if priority_score >=? 6 then "high"
  else if priority_score >=? 3 then "medium"
  else "low".

(** [complexity_score // 10] is floor division, on an [int] as on a
    [float]; [duplication // 2] likewise ([Z.div] rounds down). *)
Definition _estimate_cost (analysis_data : AnalysisData) : string :=
  let cost_score := 0 in
  let complexity_score := get_complexity_score analysis_data in
  let cost_score := cost_score + Qfloor (complexity_score / 10) in
  let cost_score := cost_score + get_duplication analysis_data / 2 in
  let test_ratio := get_test_coverage_ratio analysis_data in
  let cost_score :=
    if Qltb test_ratio (5 # 10) then cost_score + 2 else cost_score in
  if cost_score >? 10 then "high"
  else if cost_score >? 5 then "medium"
  else "low".

End SpecGenerator_score.

(** ** The scoring rules in the words of the specification *)

Module ScoreSpec.

(** "add 3 if complexity_score>100 else add 2 if complexity_score>50" *)
Definition risk_complexity_points (cs : Q) : Z :=
  if Qlt_le_dec 100 cs then 3 else if Qlt_le_dec 50 cs then 2 else 0.

(** "add 3 if test_coverage_ratio<0.3 else add 2 if <0.5" *)
Definition risk_coverage_points (cov : Q) : Z :=
  if Qlt_le_dec cov (3 # 10) then 3
  else if Qlt_le_dec cov (1 # 2) then 2 else 0.

(** "add 2 if todo_count>5" *)
Definition risk_todo_points (td : Z) : Z :=
  if Z_lt_dec 5 td then 2 else 0.

Definition risk_score (cs cov : Q) (td : Z) : Z :=
  risk_complexity_points cs + risk_coverage_points cov + risk_todo_points td.

(** "Map total: >=5 -> high, >=3 -> medium, else low" *)
Definition risk_level (score : Z) : string :=
  if Z_le_dec 5 score then "high"
  else if Z_le_dec 3 score then "medium" else "low".

(** Priority: five independent contributions. *)
Definition priority_score (dup : Z) (cs cov : Q) : Z :=
  (if Z_lt_dec 10 dup then 3 else 0)
  + (if Qlt_le_dec 100 cs then 3 else 0)
  + (if Qlt_le_dec cov (2 # 10) then 3 else 0)
  + (if Z_lt_dec 5 dup then 2 else 0)
  + (if Qlt_le_dec 50 cs then 2 else 0).

(** "Map total: >=6 -> high, >=3 -> medium, else low" *)
Definition priority_level (score : Z) : string :=
  if Z_le_dec 6 score then "high"
  else if Z_le_dec 3 score then "medium" else "low".

(** "cost = floor(complexity_score/10) + floor(duplication_count/2)
    + (2 if test_coverage_ratio<0.5 else 0)" *)
Definition cost (dup : Z) (cs cov : Q) : Z :=
  Qfloor (cs / 10) + dup / 2 + (if Qlt_le_dec cov (1 # 2) then 2 else 0).

(** "Map: >10 -> high, >5 -> medium, else low" *)
Definition cost_level (c : Z) : string :=
  if Z_lt_dec 10 c then "high"
  else if Z_lt_dec 5 c then "medium" else "low".

End ScoreSpec.

(** ** Python string operations

    A [string] is read as a sequence of code points below 256; the
    operations below are Python's [str] methods restricted to that
    range. *)

Module PyStr.

(** [str.isspace] of one character, which is also what [\s] matches:
    code points 9-13, 28-32, 133 and 160. *)
Definition is_space (c : ascii) : bool :=
  let n := N_of_ascii c in
  ((9 <=? n) && (n <=? 13) || (28 <=? n) && (n <=? 32)
   || (n =? 133) || (n =? 160))%N.

(** [str.lower] of one character: A-Z, and 192-222 except 215. *)
Definition lower_char (c : ascii) : ascii :=
  let n := N_of_ascii c in
  if ((65 <=? n) && (n <=? 90)
      || (192 <=? n) && (n <=? 222) && negb (n =? 215))%N
  then ascii_of_N (n + 32) else c.

(** [s.lower()] *)
Fixpoint lower (s : string) : string :=
  match s with
  | EmptyString => EmptyString
  | String c s' => String (lower_char c) (lower s')
  end.

(** [s.startswith(p)] *)
Fixpoint startswith (p s : string) : bool :=
  match p, s with
  | EmptyString, _ => true
  | String a p', String b s' => Ascii.eqb a b && startswith p' s'
  | String _ _, EmptyString => false
  end.

(** [sub in s] *)
Fixpoint contains (sub s : string) : bool :=
  startswith sub s ||
  match s with
  | EmptyString => false
  | String _ s' => contains sub s'
  end.

(** [all(p(c) for c in s)] *)
Fixpoint all_chars (p : ascii -> bool) (s : string) : bool :=
  match s with
  | EmptyString => true
  | String c s' => p c && all_chars p s'
  end.

(** [0 <= s.find(sub) < n]: [sub] occurs in [s] at a position below
    [n]. *)
Fixpoint occurs_before (n : nat) (sub s : string) : bool :=
  match n with
  | O => false
  | S n' =>
      startswith sub s ||
      match s with
      | EmptyString => false
      | String _ s' => occurs_before n' sub s'
      end
  end.

(** [s.split()]: the maximal runs of non-whitespace characters. *)
Fixpoint split (s : string) : list string :=
  match s with
  | EmptyString => []
  | String c s' =>
      if is_space c then split s'
      else match s' with
           | EmptyString => [String c EmptyString]
           | String c' _ =>
               if is_space c' then String c EmptyString :: split s'
               else match split s' with
                    | w :: ws => String c w :: ws
                    | [] => [String c EmptyString]
                    end
           end
  end.

(** [s.split(sep)] for a one-character separator: never empty. *)
Fixpoint split_on (sep : ascii) (s : string) : list string :=
  match s with
  | EmptyString => [EmptyString]
  | String c s' =>
      if Ascii.eqb c sep then EmptyString :: split_on sep s'
      else match split_on sep s' with
           | w :: ws => String c w :: ws
           | [] => [String c EmptyString]
           end
  end.

(** [s.lstrip()], [s.rstrip()] and [s.strip()] *)
Fixpoint lstrip (s : string) : string :=
  match s with
  | EmptyString => EmptyString
  | String c s' => if is_space c then lstrip s' else s
  end.

Fixpoint rstrip (s : string) : string :=
  match s with
  | EmptyString => EmptyString
  | String c s' =>
      match rstrip s' with
      | EmptyString => if is_space c then EmptyString else String c EmptyString
      | r => String c r
      end
  end.

Definition strip (s : string) : string := rstrip (lstrip s).

(** [sep.join(l)] *)
Fixpoint join (sep : string) (l : list string) : string :=
  match l with
  | [] => EmptyString
  | [x] => x
  | x :: rest => (x ++ sep ++ join sep rest)%string
  end.

(** [x in l] for a list of strings *)
Definition mem (x : string) (l : list string) : bool :=
  existsb (String.eqb x) l.

(** [os.path.basename(p)] on a POSIX path: what follows the last
    slash. *)
Fixpoint basename (p : string) : string :=
  match p with
  | EmptyString => EmptyString
  | String c p' =>
      if contains "/" p then basename p'
      else p
  end.

End PyStr.

(** ** The regular expressions of the constraint parser

    The fragment of Python's [re] that [parse_explicit_constraints]
    uses: literals, a greedy one-or-more of a character class, a greedy
    optional group, alternation, and one capturing group. Matching is by
    backtracking, leftmost alternative and longest repetition first, as [re]
    does. *)

Module Re.
Import PyStr.

Inductive regex : Type :=
| Lit (s : string)
| Plus (cls : ascii -> bool)
| Seq (r1 r2 : regex)
| Alt (r1 r2 : regex)
| Opt (r : regex)
| Group (r : regex).

(** The text a match attempt returns: the captured group and the
    unread rest of the subject. *)
Definition found : Type := (string * string)%type.

(** The remainder of [s] after the literal [l], if [s] starts with it. *)
Fixpoint eat (l s : string) : option string :=
  match l, s with
  | EmptyString, _ => Some s
  | String a l', String b s' => if Ascii.eqb a b then eat l' s' else None
  | String _ _, EmptyString => None
  end.

(** The first [length s - length rest] characters of [s]: what was
    read between two positions of the subject. *)
Definition consumed (s rest : string) : string :=
  substring 0 (String.length s - String.length rest) s.

(** Zero or more characters of the class, longest first. *)
Fixpoint star (cls : ascii -> bool) (s : string)
    (k : string -> option found) : option found :=
  match s with
  | String c s' =>
      if cls c then
        match star cls s' k with
        | Some r => Some r
        | None => k s
        end
      else k s
  | EmptyString => k s
  end.

Definition plus (cls : ascii -> bool) (s : string)
    (k : string -> option found) : option found :=
  match s with
  | String c s' => if cls c then star cls s' k else None
  | EmptyString => None
  end.

(** One match attempt at the start of [s], in continuation-passing
    style: [cap] is the text of the group so far, [k] the rest of the
    pattern. *)
Fixpoint run (r : regex) (s : string) (cap : option string)
    (k : string -> option string -> option found) : option found :=
  match r with
  | Lit l =>
      match eat l s with
      | Some s' => k s' cap
      | None => None
      end
  | Plus cls => plus cls s (fun s' => k s' cap)
  | Seq r1 r2 => run r1 s cap (fun s' cap' => run r2 s' cap' k)
  | Alt r1 r2 =>
      match run r1 s cap k with
      | Some x => Some x
      | None => run r2 s cap k
      end
  | Opt r1 =>
      match run r1 s cap k with
      | Some x => Some x
      | None => k s cap
      end
  | Group r1 => run r1 s cap (fun s' _ => k s' (Some (consumed s s')))
  end.

(** [pattern.match] anchored at the start of [s]; a group that did
    not take part reads as the empty string, as in [findall]. *)
Definition match_at (r : regex) (s : string) : option found :=
  run r s None (fun rest cap => Some (default EmptyString cap, rest)).

(** [re.findall] for a pattern with one group: scan left to right,
    collect the group of every match, resume after the match. The
    patterns of this module contain a literal, so a match is never
    empty; were one empty the scan would step one character. *)
Fixpoint findall_from (fuel : nat) (r : regex) (s : string) : list string :=
  match fuel with
  | O => []
  | S fuel' =>
      match match_at r s with
      | Some (cap, rest) =>
          if (String.length rest <? String.length s)%nat
          then cap :: findall_from fuel' r rest
          else cap :: match s with
                      | String _ s' => findall_from fuel' r s'
                      | EmptyString => []
                      end
      | None =>
          match s with
          | String _ s' => findall_from fuel' r s'
          | EmptyString => []
          end
      end
  end.

Definition findall (r : regex) (s : string) : list string :=
  findall_from (S (String.length s)) r s.

(** [\s+] and [([^\s,.]+)] *)
Definition is_token_char (c : ascii) : bool :=
  negb (is_space c || Ascii.eqb c "," || Ascii.eqb c ".").

(** A token ends where the text ends or a character outside the
    class follows. *)
Definition token_end (rest : string) : bool :=
  match rest with
  | EmptyString => true
  | String c _ => negb (is_token_char c)
  end.

Definition ws : regex := Plus is_space.
Definition token : regex := Group (Plus is_token_char).

(** Sequencing of a whole pattern. *)
Fixpoint cat (rs : list regex) : regex :=
  match rs with
  | [] => Lit EmptyString
  | [r] => r
  | r :: rest => Seq r (cat rest)
  end.

End Re.

(** ** The constraint parser ([SpecGenerator.parse_explicit_constraints]) *)

Record ParsedConstraints := {
  pc_constraints_explicit : list string;
  pc_libraries_forbidden : list string;
  pc_libraries_preferred : list string
}.

Module SpecGenerator_parse.
Import PyStr Re.

(** [avoid\s+(?:using\s+)?([^\s,.]+)] *)
Definition avoid_re : regex :=
  cat [Lit "avoid"; ws; Opt (Seq (Lit "using") ws); token].
(** [don\'t\s+use\s+([^\s,.]+)] *)
Definition dont_use_re : regex :=
  cat [Lit "don't"; ws; Lit "use"; ws; token].
(** [forbid\s+([^\s,.]+)] *)
Definition forbid_re : regex := cat [Lit "forbid"; ws; token].
(** [no\s+([^\s,.]+)] *)
Definition no_re : regex := cat [Lit "no"; ws; token].
(** [without\s+([^\s,.]+)] *)
Definition without_re : regex := cat [Lit "without"; ws; token].

Definition avoid_patterns : list regex :=
  [avoid_re; dont_use_re; forbid_re; no_re; without_re].

(** [(?:prefer|use)\s+(?:the\s+)?([^\s,.]+)] *)
Definition prefer_re : regex :=
  cat [Alt (Lit "prefer") (Lit "use"); ws; Opt (Seq (Lit "the") ws); token].
(** [(?:must|should)\s+use\s+([^\s,.]+)] *)
Definition must_use_re : regex :=
  cat [Alt (Lit "must") (Lit "should"); ws; Lit "use"; ws; token].
(** [with\s+([^\s,.]+)] *)
Definition with_re : regex := cat [Lit "with"; ws; token].
(** [using\s+([^\s,.]+)] *)
Definition using_re : regex := cat [Lit "using"; ws; token].

Definition prefer_patterns : list regex :=
  [prefer_re; must_use_re; with_re; using_re].

Definition stop_words : list string := ["the"; "a"; "an"; "to"; "and"; "or"].

(** The inner loop: [for match in matches: if match not in [...]:
    libs.append(match.strip())]. *)
Definition append_matches (libs : list string) (matches : list string)
    : list string :=
  fold_left
    (fun libs m =>
       if mem m stop_words then libs else (libs ++ [strip m])%list)
    matches libs.

(** The outer loop: [for pattern in patterns: matches =
    re.findall(pattern, lower_prompt); ...]. *)
Definition collect (patterns : list regex) (lower_prompt : string)
    : list string :=
  fold_left
    (fun libs pattern => append_matches libs (findall pattern lower_prompt))
    patterns [].

(** [if cond: constraints_explicit.append(text)] *)
Definition append_if (cond : bool) (text : string) (l : list string)
    : list string :=
  if cond then (l ++ [text])%list else l.

Definition parse_explicit_constraints (prompt : string) : ParsedConstraints :=
  let lower_prompt := lower prompt in
  let libraries_forbidden := collect avoid_patterns lower_prompt in
  let libraries_preferred := collect prefer_patterns lower_prompt in
  let constraints_explicit := [] in
  let constraints_explicit :=
    append_if (contains "no dependencies" lower_prompt
               || contains "no external deps" lower_prompt)
      "Minimize external dependencies" constraints_explicit in
  let constraints_explicit :=
    append_if (contains "performance" lower_prompt)
      "Optimize for performance" constraints_explicit in
  let constraints_explicit :=
    append_if (contains "security" lower_prompt
               || contains "secure" lower_prompt)
      "Follow security best practices" constraints_explicit in
  let constraints_explicit :=
    append_if (contains "async" lower_prompt
               || contains "asynchronous" lower_prompt)
      "Use asynchronous programming" constraints_explicit in
  let constraints_explicit :=
    append_if (contains "type" lower_prompt && contains "hint" lower_prompt)
      "Use type hints" constraints_explicit in
  let constraints_explicit :=
    append_if (contains "test" lower_prompt)
      "Include comprehensive tests" constraints_explicit in
  {| pc_constraints_explicit := constraints_explicit;
     pc_libraries_forbidden := libraries_forbidden;
     pc_libraries_preferred := libraries_preferred |}.

End SpecGenerator_parse.

(** ** Where the scan of [re.findall] makes its attempts *)

Module ParseSpec.
Import PyStr Re.

(** The scan of [re.findall] for [r] over [pre +:+ hit] makes a
    match attempt at [hit]. It attempts a match at the start of the
    text; after a match it resumes where the match ended, after a
    failed attempt (or an empty match) one character further on. [skip]
    is the number of characters still to pass over inside the match
    found last: the scan arrives at [hit] when [pre] is used up with
    nothing left to pass over. *)
Fixpoint scan_arrives (r : regex) (skip : nat) (pre hit : string) : bool :=
  match pre with
  | EmptyString => Nat.eqb skip 0
  | String _ pre' =>
      match skip with
      | S skip' => scan_arrives r skip' pre' hit
      | O =>
          match match_at r (pre +:+ hit) with
          | Some (_, rest) =>
              let matched :=
                (String.length (pre +:+ hit) - String.length rest)%nat in
              scan_arrives r (Nat.pred matched) pre' hit
          | None => scan_arrives r 0 pre' hit
          end
      end
  end.

(** The occurrence [hit] after [pre] is not inside an earlier match
    of the scan. *)
Definition attempted_at (r : regex) (pre hit : string) : bool :=
  scan_arrives r 0 pre hit.

End ParseSpec.

(** ** Outcomes of calls that may raise *)

Inductive exception : Type :=
| TypeError
| AttributeError
| ValidationError.

Inductive outcome (A : Type) : Type :=
| Returns (a : A)
| Raises (e : exception).

Arguments Returns {A} a.
Arguments Raises {A} e.

#[global] Instance outcome_ret : MRet outcome := fun A a => Returns a.

#[global] Instance outcome_bind : MBind outcome := fun A B f m =>
  match m with
  | Returns a => f a
  | Raises e => Raises e
  end.

(** ** The data model ([models.py]) *)

(** [Literal["minimal", "normal", "verbose"]] *)
Inductive Verbosity : Type := Minimal | Normal | Verbose.

(** [class TaskSpec(BaseModel)]: [verbosity] is a [Literal], while
    [risk], [priority] and [estimated_cost] are declared [str]. *)
Record TaskSpec := {
  goal : string;
  inputs : list string;
  outputs : list string;
  constraints_explicit : list string;
  constraints_inferred : list string;
  libraries_preferred : list string;
  libraries_forbidden : list string;
  style_guides : list string;
  naming_conventions : list string;
  design_patterns : list string;
  testing_strategy : string;
  edge_cases : list string;
  verbosity : Verbosity;
  open_questions : list string;
  risk : string;
  priority : string;
  estimated_cost : string
}.

(** The values of a TaskSpec in dictionary form ([Dict[str, Any]]): text,
    lists of text, and the two other JSON scalars a request may carry
    in their place. *)
Inductive value : Type :=
| VStr (s : string)
| VList (l : list string)
| VNum (z : Z)
| VNull.

Module Model.

Definition verbosity_text (v : Verbosity) : string :=
  match v with
  | Minimal => "minimal"
  | Normal => "normal"
  | Verbose => "verbose"
  end.

Definition verbosity_of_text (s : string) : option Verbosity :=
  if String.eqb s "minimal" then Some Minimal
  else if String.eqb s "normal" then Some Normal
  else if String.eqb s "verbose" then Some Verbose
  else None.

(** [taskspec.dict()] *)
Definition dict (t : TaskSpec) : gmap string value :=
  list_to_map [
    ("goal", VStr (goal t));
    ("inputs", VList (inputs t));
    ("outputs", VList (outputs t));
    ("constraints_explicit", VList (constraints_explicit t));
    ("constraints_inferred", VList (constraints_inferred t));
    ("libraries_preferred", VList (libraries_preferred t));
    ("libraries_forbidden", VList (libraries_forbidden t));
    ("style_guides", VList (style_guides t));
    ("naming_conventions", VList (naming_conventions t));
    ("design_patterns", VList (design_patterns t));
    ("testing_strategy", VStr (testing_strategy t));
    ("edge_cases", VList (edge_cases t));
    ("verbosity", VStr (verbosity_text (verbosity t)));
    ("open_questions", VList (open_questions t));
    ("risk", VStr (risk t));
    ("priority", VStr (priority t));
    ("estimated_cost", VStr (estimated_cost t))
  ].

(** Validation of one field: a [str] field with a default, a
    [list[str]] field with a default. A value of another type is
    rejected. *)
Definition str_field (d : gmap string value) (k dflt : string)
    : outcome string :=
  match d !! k with
  | None => Returns dflt
  | Some (VStr s) => Returns s
  | Some _ => Raises ValidationError
  end.

Definition list_field (d : gmap string value) (k : string)
    : outcome (list string) :=
  match d !! k with
  | None => Returns []
  | Some (VList l) => Returns l
  | Some _ => Raises ValidationError
  end.

Definition required_str (d : gmap string value) (k : string)
    : outcome string :=
  match d !! k with
  | Some (VStr s) => Returns s
  | _ => Raises ValidationError
  end.

Definition verbosity_field (d : gmap string value) : outcome Verbosity :=
  match d !! "verbosity" with
  | None => Returns Normal
  | Some (VStr s) =>
      match verbosity_of_text s with
      | Some v => Returns v
      | None => Raises ValidationError
      end
  | Some _ => Raises ValidationError
  end.

(** The constructor call that unpacks the dictionary [d] into
    [TaskSpec]: [goal] is required, the other fields have the
    defaults of the class, keys that are not fields are ignored. *)
Definition of_dict (d : gmap string value) : outcome TaskSpec :=
  g ← required_str d "goal";
  i ← list_field d "inputs";
  o ← list_field d "outputs";
  ce ← list_field d "constraints_explicit";
  ci ← list_field d "constraints_inferred";
  lp ← list_field d "libraries_preferred";
  lf ← list_field d "libraries_forbidden";
  sg ← list_field d "style_guides";
  nc ← list_field d "naming_conventions";
  dp ← list_field d "design_patterns";
  ts ← str_field d "testing_strategy" "";
  ec ← list_field d "edge_cases";
  v ← verbosity_field d;
  oq ← list_field d "open_questions";
  r ← str_field d "risk" "medium";
  p ← str_field d "priority" "medium";
  c ← str_field d "estimated_cost" "medium";
  Returns {| goal := g; inputs := i; outputs := o;
             constraints_explicit := ce; constraints_inferred := ci;
             libraries_preferred := lp; libraries_forbidden := lf;
             style_guides := sg; naming_conventions := nc;
             design_patterns := dp; testing_strategy := ts;
             edge_cases := ec; verbosity := v; open_questions := oq;
             risk := r; priority := p; estimated_cost := c |}.

(** The list a key of a dictionary holds; empty when the key is
    missing or holds no list. *)
Definition list_at (d : gmap string value) (k : string) : list string :=
  match d !! k with
  | Some (VList l) => l
  | _ => []
  end.

(** The enumerations of the specification. *)
Definition levels : list string := ["low"; "medium"; "high"].
Definition verbosities : list string := ["minimal"; "normal"; "verbose"].

Definition enumerated (t : TaskSpec) : Prop :=
  In (verbosity_text (verbosity t)) verbosities
  /\ In (risk t) levels
  /\ In (priority t) levels
  /\ In (estimated_cost t) levels.

End Model.

(** ** Retrieval ([rag_system.RAGPolicy]) *)

(** A stored decision's [spec]: the keys enrichment reads, each
    possibly missing, and [spec_json], the text [json.dumps(spec)]
    produces for it. Rows are modelled with the types a stored
    TaskSpec has: [goal] a text, [constraints_inferred] and
    [edge_cases] lists of texts. The store itself accepts any JSON
    object; a row holding [null] or a number under one of the two list
    keys makes the loops of extraction raise [TypeError], and such
    rows are outside this model. Every statement about a store below
    is a statement about stores of typed rows. *)
Record DecisionSpec := {
  ds_goal : option string;
  ds_constraints_inferred : option (list string);
  ds_edge_cases : option (list string);
  spec_json : string
}.

(** One row of [MemoryStore.get_decisions]; [item_json] is the text
    [json.dumps(item)] produces for the whole row. *)
Record Decision := {
  d_id : Z;
  d_timestamp : Z;
  d_spec : DecisionSpec;
  d_pinned : bool;
  item_json : string
}.

(** The context dictionary; [similar_items] holds rows of the same
    shape. *)
Record Context := {
  decisions : option (list Decision);
  similar_items : option (list Decision);
  total_tokens : option Z
}.

Module RAGPolicy.
Import PyStr.

(** [l[:n]] *)
Definition slice_to {A : Type} (n : Z) (l : list A) : list A :=
  if n <? 0 then firstn (Z.to_nat (Z.of_nat (length l) + n)) l
  else firstn (Z.to_nat n) l.

(** [for item in items: total += len(json.dumps(item)) // 4] *)
Definition _estimate_tokens (items : list Decision) : Z :=
  fold_left
    (fun total item => total + Z.of_nat (String.length (item_json item)) / 4)
    items 0.

(** [any(keyword in spec_text for keyword in query_lower.split())] *)
Definition matches_query (query_lower : string) (decision : Decision) : bool :=
  let spec_text := lower (spec_json (d_spec decision)) in
  existsb (fun keyword => contains keyword spec_text) (split query_lower).

(** The loop over the stored decisions, with its [break]. *)
Fixpoint scan (query_lower : string) (max_items : Z)
    (store : list Decision) (relevant_decisions : list Decision)
    : list Decision :=
  match store with
  | [] => relevant_decisions
  | decision :: rest =>
      if matches_query query_lower decision then
        let relevant_decisions := relevant_decisions ++ [decision] in
        if Z.of_nat (length relevant_decisions) >=? max_items
        then relevant_decisions
        else scan query_lower max_items rest relevant_decisions
      else scan query_lower max_items rest relevant_decisions
  end.

(** [store] is what [memory_store.get_decisions("current_project",
    limit=20)] returns at the time of the call. *)
Definition retrieve_context (store : list Decision) (query : string)
    (context_type : string) (max_items : Z) : Context :=
  let query_lower := lower query in
  let relevant_decisions := scan query_lower max_items store [] in
  let similar_items := [] in
  {| decisions := Some (slice_to max_items relevant_decisions);
     similar_items := Some similar_items;
     total_tokens :=
       Some (_estimate_tokens (relevant_decisions ++ similar_items)) |}.

Definition get_decisions (c : Context) : list Decision :=
  default [] (decisions c).
Definition get_similar_items (c : Context) : list Decision :=
  default [] (similar_items c).
Definition get_total_tokens (c : Context) : Z :=
  default 0 (total_tokens c).

Definition summarize_overflow (context : Context) (max_tokens : Z) : Context :=
  let current_tokens := get_total_tokens context in
  if current_tokens <=? max_tokens then context
  else
    let summarized := context in
    let summarized :=
      if Z.of_nat (length (get_decisions summarized)) >? 2
      then {| decisions := Some (slice_to 2 (get_decisions summarized));
              similar_items := similar_items summarized;
              total_tokens := total_tokens summarized |}
      else summarized in
    {| decisions := decisions summarized;
       similar_items := similar_items summarized;
       total_tokens :=
         Some (_estimate_tokens
                 (get_decisions summarized ++ get_similar_items summarized)) |}.

End RAGPolicy.

(** ** Enrichment ([rag_system.RAGEnrichment]) *)

Module RAGEnrichment.
Import PyStr RAGPolicy.

(** [constraint_counts[c] = constraint_counts.get(c, 0) + 1] on a
    dictionary that keeps its keys in insertion order. *)
Fixpoint bump (c : string) (counts : list (string * Z)) : list (string * Z) :=
  match counts with
  | [] => [(c, 1)]
  | (k, n) :: rest =>
      if String.eqb k c then (k, n + 1) :: rest
      else (k, n) :: bump c rest
  end.

Definition _extract_patterns_from_context (context : Context) : list string :=
  let patterns := [] in
  let decisions := get_decisions context in
  if Z.of_nat (length decisions) <? 2 then patterns
  else
    let constraint_counts :=
      fold_left
        (fun counts decision =>
           let constraints :=
             default [] (ds_constraints_inferred (d_spec decision)) in
           fold_left (fun counts constraint => bump constraint counts)
             constraints counts)
        decisions [] in
    fold_left
      (fun patterns '(constraint, count) =>
         if count >=? 2 then patterns ++ ["Pattern: " +:+ constraint]
         else patterns)
      constraint_counts patterns.

Definition _extract_edge_cases_from_context (context : Context) : list string :=
  let edge_cases :=
    fold_left
      (fun edge_cases decision =>
         let cases := default [] (ds_edge_cases (d_spec decision)) in
         fold_left
           (fun edge_cases case =>
              if mem case edge_cases then edge_cases
              else edge_cases ++ [case])
           cases edge_cases)
      (get_decisions context) [] in
  slice_to 5 edge_cases.

Definition _extract_examples_from_context (context : Context) : list string :=
  let examples :=
    fold_left
      (fun examples decision =>
         let goal := default "" (ds_goal (d_spec decision)) in
         if String.eqb goal "" then examples
         else examples ++ ["Similar task: " +:+ goal])
      (get_decisions context) [] in
  slice_to 3 examples.

(** Truth value of a Python object. *)
Definition truthy (v : value) : bool :=
  match v with
  | VStr s => negb (String.eqb s "")
  | VList l => negb (Nat.eqb (length l) 0)
  | VNum z => negb (z =? 0)
  | VNull => false
  end.

(** [existing + more] with [more] a list: defined on lists only. *)
Definition list_add (existing : value) (more : list string) : outcome value :=
  match existing with
  | VList l => Returns (VList (l ++ more))
  | _ => Raises TypeError
  end.

(** [if more: existing = enriched.get(key, []); enriched[key] =
    existing + more], the step taken for [constraints_inferred] and
    for [edge_cases]. *)
Definition extend (enriched : gmap string value) (key : string)
    (more : list string) : outcome (gmap string value) :=
  if negb (Nat.eqb (length more) 0) then
    let existing := default (VList []) (enriched !! key) in
    v ← list_add existing more;
    mret (<[key := v]> enriched)
  else mret enriched.

(** The part of [enrich_taskspec] that follows retrieval. *)
Definition merge_context (enriched : gmap string value) (context : Context)
    : outcome (gmap string value) :=
  let patterns := _extract_patterns_from_context context in
  enriched ← extend enriched "constraints_inferred" patterns;
  let edge_cases := _extract_edge_cases_from_context context in
  enriched ← extend enriched "edge_cases" edge_cases;
  let examples := _extract_examples_from_context context in
  let enriched :=
    if negb (Nat.eqb (length examples) 0)
    then <["examples" := VList examples]> enriched
    else enriched in
  mret enriched.

(** [enrich_taskspec(taskspec, project_context)]; [store] is the
    answer of the memory store during the call. The copy [enriched]
    is a fresh dictionary, so the argument is left as it was. *)
Definition enrich_taskspec (store : list Decision)
    (taskspec : gmap string value) (project_context : string)
    : outcome (gmap string value) :=
  let enriched := taskspec in
  let query := default (VStr "") (taskspec !! "goal") in
  if negb (truthy query) then mret enriched
  else
    match query with
    | VStr query =>
        let context := retrieve_context store query "taskspec" 5 in
        merge_context enriched context
    | _ => Raises AttributeError  (* [query.lower()] *)
    end.

End RAGEnrichment.

(** ** The assembler ([spec_generator.SpecGenerator]) *)

(** The style profile dictionary; every key may be missing. *)
Record StyleProfile := {
  sp_naming_conventions : option (list string);
  sp_testing_strategy : option string;
  sp_style_guides : option (list string);
  sp_design_patterns : option (list string);
  sp_libraries_preferred : option (list string);
  sp_libraries_forbidden : option (list string)
}.

Module SpecGenerator.
Import PyStr Signals SpecGenerator_score SpecGenerator_parse.

Definition _get_default_style_profile : StyleProfile :=
  {| sp_naming_conventions :=
       Some ["functions: snake_case"; "classes: PascalCase"];
     sp_testing_strategy := Some "pytest; arrange-act-assert";
     sp_style_guides := Some ["google docstrings"];
     sp_design_patterns :=
       Some ["dependency_injection"; "pure_functions_first"];
     sp_libraries_preferred := Some [];
     sp_libraries_forbidden := Some [] |}.

Definition _infer_goal_from_analysis (analysis_data : AnalysisData)
    (filename : string) : string :=
  let issues := [] in
  let issues :=
    if get_duplication analysis_data >? 3
    then issues ++ ["refactor duplicated code"] else issues in
  let issues :=
    if Qgtb (get_complexity_score analysis_data) 50
    then issues ++ ["simplify complex functions"] else issues in
  let issues :=
    if Qltb (get_test_coverage_ratio analysis_data) (5 # 10)
    then issues ++ ["add missing tests"] else issues in
  let issues :=
    if get_todos analysis_data >? 2
    then issues ++ ["address TODO items"] else issues in
  if negb (Nat.eqb (length issues) 0)
  then "Improve code quality in " +:+ filename +:+ ": " +:+ join ", " issues
  else "Maintain code quality in " +:+ filename.

(** The pairs [(constraints_inferred, open_questions)] after the four
    issue checks of [cluster_signals_to_taskspec]. *)
Definition issue_checks (analysis_data : AnalysisData)
    : list string * list string :=
  let constraints_inferred := [] in
  let open_questions := [] in
  let '(constraints_inferred, open_questions) :=
    if get_duplication analysis_data >? 3
    then (constraints_inferred ++ ["Address code duplication"],
          open_questions ++
            ["Which duplicated sections should be refactored into shared functions?"])
    else (constraints_inferred, open_questions) in
  let '(constraints_inferred, open_questions) :=
    if Qgtb (get_complexity_score analysis_data) 50
    then (constraints_inferred ++ ["Reduce function complexity"],
          open_questions ++ ["How can this complex function be broken down?"])
    else (constraints_inferred, open_questions) in
  let '(constraints_inferred, open_questions) :=
    if Qltb (get_test_coverage_ratio analysis_data) (5 # 10)
    then (constraints_inferred ++ ["Improve test coverage"],
          open_questions ++ ["Which functions need test cases?"])
    else (constraints_inferred, open_questions) in
  let '(constraints_inferred, open_questions) :=
    if get_todos analysis_data >? 2
    then (constraints_inferred ++ ["Address outstanding TODO items"],
          open_questions ++ ["Which TODO items should be prioritized?"])
    else (constraints_inferred, open_questions) in
  (constraints_inferred, open_questions).

(** [list_of_set l] stands for [list(set(l))]: Python leaves the
    order of the result open, so it is a parameter. [style_profile] is
    [self.style_profile], [store] the answer of the memory store. *)
Definition cluster_signals_to_taskspec
    (list_of_set : list string -> list string)
    (style_profile : StyleProfile) (store : list Decision)
    (analysis_data : AnalysisData) : outcome TaskSpec :=
  let filepath := default "" (filepath analysis_data) in
  let filename :=
    if String.eqb filepath "" then "unknown" else basename filepath in
  let goal := _infer_goal_from_analysis analysis_data filename in
  let prompt := default "" (prompt analysis_data) in
  let parsed_constraints :=
    if String.eqb prompt ""
    then {| pc_constraints_explicit := [];
            pc_libraries_forbidden := [];
            pc_libraries_preferred := [] |}
    else parse_explicit_constraints prompt in
  let constraints_explicit := pc_constraints_explicit parsed_constraints in
  let '(constraints_inferred, open_questions) := issue_checks analysis_data in
  let constraints_inferred :=
    constraints_inferred ++
    map (fun guide => "Follow " +:+ guide)
        (default [] (sp_style_guides style_profile)) in
  let all_preferred :=
    list_of_set (pc_libraries_preferred parsed_constraints ++
                 default [] (sp_libraries_preferred style_profile)) in
  let all_forbidden :=
    list_of_set (pc_libraries_forbidden parsed_constraints ++
                 default [] (sp_libraries_forbidden style_profile)) in
  let risk_level := _calculate_risk analysis_data in
  let priority := _calculate_priority analysis_data in
  let taskspec :=
    {| goal := goal;
       inputs := if String.eqb filepath "" then [] else [filepath];
       outputs := [];
       constraints_explicit := constraints_explicit;
       constraints_inferred := constraints_inferred;
       libraries_preferred := all_preferred;
       libraries_forbidden := all_forbidden;
       style_guides := default [] (sp_style_guides style_profile);
       naming_conventions := default [] (sp_naming_conventions style_profile);
       design_patterns := default [] (sp_design_patterns style_profile);
       testing_strategy := default "" (sp_testing_strategy style_profile);
       edge_cases := [];
       verbosity := Normal;
       open_questions := open_questions;
       risk := risk_level;
       priority := priority;
       estimated_cost := _estimate_cost analysis_data |} in
  enriched_taskspec ←
    RAGEnrichment.enrich_taskspec store (Model.dict taskspec) "current_project";
  Model.of_dict enriched_taskspec.

(** The seven questions, in the order of the checks. *)
Definition q_inputs := "What are the main inputs this code should handle?".
Definition q_outputs := "What outputs should this code produce?".
Definition q_goal :=
  "Can you provide more details about what this code should accomplish?".
Definition q_testing :=
  "What testing approach should be used (unit tests, integration tests, etc.)?".
Definition q_constraints :=
  "Are there any specific requirements or constraints I should follow?".
Definition q_edge_cases :=
  "What edge cases or error conditions should be considered?".
Definition q_libraries :=
  "Are there any preferred or forbidden libraries/frameworks?".

(** [not l] for a list *)
Definition is_empty {A : Type} (l : list A) : bool :=
  match l with [] => true | _ => false end.

Definition generate_clarifying_questions (taskspec : TaskSpec) : list string :=
  let questions := [] in
  let questions :=
    if is_empty (inputs taskspec)
    then questions ++ [q_inputs] else questions in
  let questions :=
    if is_empty (outputs taskspec)
    then questions ++ [q_outputs] else questions in
  let questions :=
    if Z.of_nat (length (split (goal taskspec))) <? 5
    then questions ++ [q_goal] else questions in
  let questions :=
    if String.eqb (testing_strategy taskspec) ""
       || String.eqb (testing_strategy taskspec) ""
    then questions ++ [q_testing] else questions in
  let questions :=
    if is_empty (constraints_explicit taskspec)
    then questions ++ [q_constraints] else questions in
  let questions :=
    if is_empty (edge_cases taskspec)
    then questions ++ [q_edge_cases] else questions in
  let questions :=
    if is_empty (libraries_preferred taskspec)
       && is_empty (libraries_forbidden taskspec)
    then questions ++ [q_libraries] else questions in
  questions.

(** Field assignments [enhanced.f = v]. *)
Definition set_inputs (t : TaskSpec) (v : list string) : TaskSpec :=
  {| goal := goal t; inputs := v; outputs := outputs t;
     constraints_explicit := constraints_explicit t;
     constraints_inferred := constraints_inferred t;
     libraries_preferred := libraries_preferred t;
     libraries_forbidden := libraries_forbidden t;
     style_guides := style_guides t;
     naming_conventions := naming_conventions t;
     design_patterns := design_patterns t;
     testing_strategy := testing_strategy t;
     edge_cases := edge_cases t; verbosity := verbosity t;
     open_questions := open_questions t; risk := risk t;
     priority := priority t; estimated_cost := estimated_cost t |}.

Definition set_outputs (t : TaskSpec) (v : list string) : TaskSpec :=
  {| goal := goal t; inputs := inputs t; outputs := v;
     constraints_explicit := constraints_explicit t;
     constraints_inferred := constraints_inferred t;
     libraries_preferred := libraries_preferred t;
     libraries_forbidden := libraries_forbidden t;
     style_guides := style_guides t;
     naming_conventions := naming_conventions t;
     design_patterns := design_patterns t;
     testing_strategy := testing_strategy t;
     edge_cases := edge_cases t; verbosity := verbosity t;
     open_questions := open_questions t; risk := risk t;
     priority := priority t; estimated_cost := estimated_cost t |}.

Definition set_testing_strategy (t : TaskSpec) (v : string) : TaskSpec :=
  {| goal := goal t; inputs := inputs t; outputs := outputs t;
     constraints_explicit := constraints_explicit t;
     constraints_inferred := constraints_inferred t;
     libraries_preferred := libraries_preferred t;
     libraries_forbidden := libraries_forbidden t;
     style_guides := style_guides t;
     naming_conventions := naming_conventions t;
     design_patterns := design_patterns t;
     testing_strategy := v;
     edge_cases := edge_cases t; verbosity := verbosity t;
     open_questions := open_questions t; risk := risk t;
     priority := priority t; estimated_cost := estimated_cost t |}.

Definition set_constraints_explicit (t : TaskSpec) (v : list string)
    : TaskSpec :=
  {| goal := goal t; inputs := inputs t; outputs := outputs t;
     constraints_explicit := v;
     constraints_inferred := constraints_inferred t;
     libraries_preferred := libraries_preferred t;
     libraries_forbidden := libraries_forbidden t;
     style_guides := style_guides t;
     naming_conventions := naming_conventions t;
     design_patterns := design_patterns t;
     testing_strategy := testing_strategy t;
     edge_cases := edge_cases t; verbosity := verbosity t;
     open_questions := open_questions t; risk := risk t;
     priority := priority t; estimated_cost := estimated_cost t |}.

Definition set_edge_cases (t : TaskSpec) (v : list string) : TaskSpec :=
  {| goal := goal t; inputs := inputs t; outputs := outputs t;
     constraints_explicit := constraints_explicit t;
     constraints_inferred := constraints_inferred t;
     libraries_preferred := libraries_preferred t;
     libraries_forbidden := libraries_forbidden t;
     style_guides := style_guides t;
     naming_conventions := naming_conventions t;
     design_patterns := design_patterns t;
     testing_strategy := testing_strategy t;
     edge_cases := v; verbosity := verbosity t;
     open_questions := open_questions t; risk := risk t;
     priority := priority t; estimated_cost := estimated_cost t |}.

Definition set_libraries_preferred (t : TaskSpec) (v : list string)
    : TaskSpec :=
  {| goal := goal t; inputs := inputs t; outputs := outputs t;
     constraints_explicit := constraints_explicit t;
     constraints_inferred := constraints_inferred t;
     libraries_preferred := v;
     libraries_forbidden := libraries_forbidden t;
     style_guides := style_guides t;
     naming_conventions := naming_conventions t;
     design_patterns := design_patterns t;
     testing_strategy := testing_strategy t;
     edge_cases := edge_cases t; verbosity := verbosity t;
     open_questions := open_questions t; risk := risk t;
     priority := priority t; estimated_cost := estimated_cost t |}.

Definition set_libraries_forbidden (t : TaskSpec) (v : list string)
    : TaskSpec :=
  {| goal := goal t; inputs := inputs t; outputs := outputs t;
     constraints_explicit := constraints_explicit t;
     constraints_inferred := constraints_inferred t;
     libraries_preferred := libraries_preferred t;
     libraries_forbidden := v;
     style_guides := style_guides t;
     naming_conventions := naming_conventions t;
     design_patterns := design_patterns t;
     testing_strategy := testing_strategy t;
     edge_cases := edge_cases t; verbosity := verbosity t;
     open_questions := open_questions t; risk := risk t;
     priority := priority t; estimated_cost := estimated_cost t |}.

(** [[item.strip() for item in answer.split(",")]] *)
Definition split_items (answer : string) : list string :=
  map strip (split_on "," answer).

(** One turn of [for question, answer in answers.items()]. *)
Definition apply_answer (enhanced : TaskSpec) (qa : string * string)
    : TaskSpec :=
  let '(question, answer) := qa in
  let q := lower question in
  if contains "inputs" q then set_inputs enhanced (split_items answer)
  else if contains "outputs" q then set_outputs enhanced (split_items answer)
  else if contains "testing" q then set_testing_strategy enhanced answer
  else if contains "requirements" q || contains "constraints" q
  then set_constraints_explicit enhanced
         (constraints_explicit enhanced ++ [answer])
  else if contains "edge cases" q
  then set_edge_cases enhanced (split_items answer)
  else if contains "libraries" q then
    if contains "preferred" q
    then set_libraries_preferred enhanced (split_items answer)
    else if contains "forbidden" q
    then set_libraries_forbidden enhanced (split_items answer)
    else enhanced
  else enhanced.

(** [answers] lists the items of the dictionary in its order. The
    model returns the enhanced copy; the [append] on
    [constraints_explicit] also reaches the caller's object, which
    shares that list, and is not followed here. *)
Definition enhance_taskspec_with_answers (taskspec : TaskSpec)
    (answers : list (string * string)) : TaskSpec :=
  fold_left apply_answer answers taskspec.

End SpecGenerator.

(** ** Retrieval and questions in the words of the specification *)

Module RetrievalSpec.

(** "sum over records of (serialized-length / 4)" *)
Definition token_sum (items : list Decision) : Z :=
  fold_right Z.add 0
    (map (fun item => Z.of_nat (String.length (item_json item)) / 4) items).

End RetrievalSpec.

Module QuestionSpec.
Import SpecGenerator.

(** The fixed documented order: inputs, outputs, goal detail, testing,
    constraints, edge cases, libraries. *)
Definition all_questions : list string :=
  [q_inputs; q_outputs; q_goal; q_testing; q_constraints; q_edge_cases;
   q_libraries].

(** "one question per missing/weak field", "only fires the checks
    whose condition holds": the questions selected by seven flags, in
    that order. *)
Definition pick (b : bool) (q : string) : list string :=
  if b then [q] else [].

Definition selected (b1 b2 b3 b4 b5 b6 b7 : bool) : list string :=
  pick b1 q_inputs ++ pick b2 q_outputs ++ pick b3 q_goal
  ++ pick b4 q_testing ++ pick b5 q_constraints ++ pick b6 q_edge_cases
  ++ pick b7 q_libraries.

(** The words of a text are its maximal runs of characters other
    than whitespace; they are counted where they begin. [in_word]
    tells whether the character before was part of a word. *)
Fixpoint count_words (in_word : bool) (s : string) : nat :=
  match s with
  | EmptyString => O
  | String c s' =>
      if PyStr.is_space c then count_words false s'
      else if in_word then count_words true s'
      else S (count_words true s')
  end.

Definition word_count (s : string) : nat := count_words false s.

(** The goal is weak when it has fewer than 5 words. *)
Definition goal_is_short (t : TaskSpec) : Prop :=
  (word_count (goal t) < 5)%nat.

End QuestionSpec.

(** ** Sample data *)

Module Samples.
Import PyStr.

(** The text [json.dumps] gives for a string without special
    characters, and for a list of such strings. *)
Definition dq : string := String (ascii_of_nat 34) EmptyString.
Definition json_str (s : string) : string := dq +:+ s +:+ dq.
Definition json_list (l : list string) : string :=
  "[" +:+ join ", " (map json_str l) +:+ "]".

Definition spec_text (g : string) (ci ec : list string) : string :=
  "{" +:+ json_str "goal" +:+ ": " +:+ json_str g +:+ ", "
  +:+ json_str "constraints_inferred" +:+ ": " +:+ json_list ci +:+ ", "
  +:+ json_str "edge_cases" +:+ ": " +:+ json_list ec +:+ "}".

Definition stored (id : Z) (id_text : string) (g : string)
    (ci ec : list string) : Decision :=
  {| d_id := id;
     d_timestamp := 1700000000;
     d_spec := {| ds_goal := Some g;
                  ds_constraints_inferred := Some ci;
                  ds_edge_cases := Some ec;
                  spec_json := spec_text g ci ec |};
     d_pinned := false;
     item_json :=
       "{" +:+ json_str "id" +:+ ": " +:+ id_text +:+ ", "
       +:+ json_str "timestamp" +:+ ": 1700000000, "
       +:+ json_str "spec" +:+ ": " +:+ spec_text g ci ec +:+ ", "
       +:+ json_str "pinned" +:+ ": false}" |}.

Definition decision_1 : Decision :=
  stored 1 "1" "Parse config files" ["Validate input"] ["empty file"].
Definition decision_2 : Decision :=
  stored 2 "2" "Parse log files" ["Validate input"; "Stream large files"]
    ["empty file"; "binary file"].
Definition decision_3 : Decision :=
  stored 3 "3" "Render a report" [] ["no data"].

Definition store : list Decision := [decision_1; decision_2; decision_3].

(** A context over its budget and one within it. *)
Definition context_large : Context :=
  {| decisions := Some [decision_1; decision_2; decision_3];
     similar_items := Some [];
     total_tokens :=
       Some (RAGPolicy._estimate_tokens [decision_1; decision_2; decision_3]) |}.


(** The TaskSpec of [test_generate_clarifying_questions]. *)
Definition bare_taskspec : TaskSpec :=
  {| goal := "Create a function"; inputs := []; outputs := [];
     constraints_explicit := []; constraints_inferred := [];
     libraries_preferred := []; libraries_forbidden := [];
     style_guides := []; naming_conventions := []; design_patterns := [];
     testing_strategy := ""; edge_cases := []; verbosity := Normal;
     open_questions := []; risk := "medium"; priority := "medium";
     estimated_cost := "medium" |}.

(** The same TaskSpec with another goal. *)
Definition bare_with_goal (g : string) : TaskSpec :=
  {| goal := g; inputs := []; outputs := [];
     constraints_explicit := []; constraints_inferred := [];
     libraries_preferred := []; libraries_forbidden := [];
     style_guides := []; naming_conventions := []; design_patterns := [];
     testing_strategy := ""; edge_cases := []; verbosity := Normal;
     open_questions := []; risk := "medium"; priority := "medium";
     estimated_cost := "medium" |}.

(** Four words, set apart by two blanks, a tab and a line feed. *)
Definition four_words : string :=
  "Sort  the" +:+ String (ascii_of_nat 9) "records"
  +:+ String (ascii_of_nat 10) "now ".

(** A request body for [/enrich_taskspec] with an empty goal. *)
Definition no_goal_dict : gmap string value :=
  list_to_map [("goal", VStr ""); ("inputs", VList ["a.py"]);
               ("risk", VStr "high")].

(** An enriched dictionary sent for enrichment once more: it carries
    the [examples] of the first round. *)
Definition enriched_once : gmap string value :=
  list_to_map [("goal", VStr "parse files");
               ("constraints_inferred", VList ["Keep it small"]);
               ("edge_cases", VList ["empty file"]);
               ("examples", VList ["Similar task: Read a CSV"]);
               ("risk", VStr "high")].

(** What the second round returns for it with [store] in the memory
    store. *)
Definition enriched_twice : gmap string value :=
  list_to_map [("goal", VStr "parse files");
               ("constraints_inferred",
                VList ["Keep it small"; "Pattern: Validate input"]);
               ("edge_cases",
                VList ["empty file"; "empty file"; "binary file"]);
               ("examples",
                VList ["Similar task: Parse config files";
                       "Similar task: Parse log files"]);
               ("risk", VStr "high")].

(** A request body for [/enhance_taskspec] whose [risk] is none of
    low, medium, high; the class accepts it, [risk] being a [str]. *)
Definition urgent_dict : gmap string value :=
  list_to_map [("goal", VStr "Create a function"); ("risk", VStr "urgent")].

Definition urgent_taskspec : TaskSpec :=
  {| goal := "Create a function"; inputs := []; outputs := [];
     constraints_explicit := []; constraints_inferred := [];
     libraries_preferred := []; libraries_forbidden := [];
     style_guides := []; naming_conventions := []; design_patterns := [];
     testing_strategy := ""; edge_cases := []; verbosity := Normal;
     open_questions := []; risk := "urgent"; priority := "medium";
     estimated_cost := "medium" |}.

Definition answers : list (string * string) :=
  [("What outputs should this code produce?", "result object, error message")].

End Samples.


(** ** Further definitions *)

Module Counts.

(** [constraint_counts.get(c, 0)] on the insertion-ordered
    dictionary of [RAGEnrichment.bump]. *)
Fixpoint counts_get (c : string) (counts : list (string * Z)) : Z :=
  match counts with
  | [] => 0
  | (k, n) :: rest => if String.eqb k c then n else counts_get c rest
  end.

(** All constraints of the retrieved decisions, in the order the
    loops visit them. *)
Definition all_constraints (decisions : list Decision) : list string :=
  concat (map (fun d => default [] (ds_constraints_inferred (d_spec d)))
            decisions).

(** All edge cases of the retrieved decisions, in that order. *)
Definition all_edge_cases (decisions : list Decision) : list string :=
  concat (map (fun d => default [] (ds_edge_cases (d_spec d))) decisions).

(** The dictionary has one entry per key, each with a positive
    count. *)
Definition well_formed (counts : list (string * Z)) : Prop :=
  NoDup (map fst counts) /\ Forall (fun kn => 0 < snd kn) counts.

End Counts.

Module Assembly.

(** A TaskSpec with entries added at the end of its two enriched
    lists. *)
Definition enriched_by (t : TaskSpec) (patterns cases : list string)
    : TaskSpec :=
  {| goal := goal t; inputs := inputs t; outputs := outputs t;
     constraints_explicit := constraints_explicit t;
     constraints_inferred := constraints_inferred t ++ patterns;
     libraries_preferred := libraries_preferred t;
     libraries_forbidden := libraries_forbidden t;
     style_guides := style_guides t;
     naming_conventions := naming_conventions t;
     design_patterns := design_patterns t;
     testing_strategy := testing_strategy t;
     edge_cases := edge_cases t ++ cases;
     verbosity := verbosity t;
     open_questions := open_questions t; risk := risk t;
     priority := priority t; estimated_cost := estimated_cost t |}.

(** [os.path.basename(filepath) if filepath else "unknown"] *)
Definition filename_of (analysis_data : AnalysisData) : string :=
  let filepath := default "" (filepath analysis_data) in
  if String.eqb filepath "" then "unknown" else PyStr.basename filepath.

End Assembly.

Module Patterns.
Import Re.

(** A pattern whose last element is the capturing group
    [([^\s,.]+)], as all nine patterns of the parser are. *)
Inductive token_last : regex -> Prop :=
| token_last_here : token_last token
| token_last_seq (r1 r2 : regex) : token_last r2 -> token_last (Seq r1 r2).

(** The six categorical constraints, in the order of their checks. *)
Definition categorical : list string :=
  ["Minimize external dependencies"; "Optimize for performance";
   "Follow security best practices"; "Use asynchronous programming";
   "Use type hints"; "Include comprehensive tests"].

End Patterns.

(** ** The transcoder ([spec.py]) *)

(** [class TranscodeRequest(BaseModel)]; the class rejects an empty
    [prompt] ([min_length=1]). *)
Record TranscodeRequest := {
  req_prompt : string;
  req_verbosity : Verbosity;
  req_style_profile : option StyleProfile
}.

(** The dictionary [_infer_defaults] returns. *)
Record Defaults := {
  df_naming_conventions : list string;
  df_testing_strategy : string;
  df_style_guides : list string;
  df_design_patterns : list string
}.

Module Spec.
Import PyStr.

Definition _infer_defaults (style_profile : option StyleProfile) : Defaults :=
  let naming := ["functions: snake_case"; "classes: PascalCase"] in
  let testing := "pytest; arrange-act-assert" in
  let style_guides := ["google docstrings"] in
  let design_patterns := ["dependency_injection"; "pure_functions_first"] in
  match style_profile with
  | Some style_profile =>
      {| df_naming_conventions :=
           default naming (sp_naming_conventions style_profile);
         df_testing_strategy :=
           default testing (sp_testing_strategy style_profile);
         df_style_guides := default style_guides (sp_style_guides style_profile);
         df_design_patterns :=
           default design_patterns (sp_design_patterns style_profile) |}
  | None =>
      {| df_naming_conventions := naming;
         df_testing_strategy := testing;
         df_style_guides := style_guides;
         df_design_patterns := design_patterns |}
  end.

Definition generate_spec (req : TranscodeRequest) : gmap string value :=
  let goal := strip (req_prompt req) in
  let inferred :=
    ["follow personal style profile";
     "enforce explicit error handling policy";
     "prefer small, pure functions where possible"] in
  let defaults := _infer_defaults (req_style_profile req) in
  list_to_map [
    ("goal", VStr goal);
    ("inputs", VList []);
    ("outputs", VList []);
    ("constraints_explicit", VList []);
    ("constraints_inferred", VList inferred);
    ("libraries_preferred", VList []);
    ("libraries_forbidden", VList []);
    ("style_guides", VList (df_style_guides defaults));
    ("naming_conventions", VList (df_naming_conventions defaults));
    ("design_patterns", VList (df_design_patterns defaults));
    ("testing_strategy", VStr (df_testing_strategy defaults));
    ("edge_cases", VList []);
    ("verbosity", VStr (Model.verbosity_text (req_verbosity req)));
    ("open_questions", VList [])
  ].

End Spec.

Module MoreSamples.

(** A request whose prompt is one blank: it has length 1. *)
Definition blank_request : TranscodeRequest :=
  {| req_prompt := " "; req_verbosity := Normal; req_style_profile := None |}.

Definition sort_request : TranscodeRequest :=
  {| req_prompt := "  Sort the records by date  ";
     req_verbosity := Verbose; req_style_profile := None |}.

End MoreSamples.

(** * Theorems *)

(** ** Comparisons: the tests of the code against the propositions *)

Module CompareFacts.
Import Signals.

Lemma Qgtb_dec (x y : Q) :
  Qgtb x y = if Qlt_le_dec y x then true else false.
Proof.
  unfold Qgtb. destruct (Qlt_le_dec y x) as [Hlt | Hle].
  - destruct (Qle_bool x y) eqn:E; [|reflexivity].
    apply Qle_bool_iff in E. exfalso. exact (Qlt_not_le _ _ Hlt E).
  - apply Qle_bool_iff in Hle. rewrite Hle. reflexivity.
Qed.

Lemma Qltb_dec (x y : Q) :
  Qltb x y = if Qlt_le_dec x y then true else false.
Proof. unfold Qltb. apply (Qgtb_dec y x). Qed.

Lemma Zgtb_dec (x y : Z) :
  (x >? y) = if Z_lt_dec y x then true else false.
Proof. destruct (Z_lt_dec y x); lia. Qed.

(** Thresholds written two ways. *)
Lemma half_eq : (5 # 10 == 1 # 2)%Q.
Proof. reflexivity. Qed.

Lemma Qltb_half (x : Q) : Qltb x (5 # 10) = Qltb x (1 # 2).
Proof. unfold Qltb. now rewrite half_eq. Qed.

End CompareFacts.

Module ScoreFacts.
Import Signals SpecGenerator_score.

(** The risk of the code is the level of the score of the
    specification. *)
Lemma calculate_risk_refines (a : AnalysisData) :
  _calculate_risk a =
  ScoreSpec.risk_level
    (ScoreSpec.risk_score (get_complexity_score a)
       (get_test_coverage_ratio a) (get_todos a)).
Proof.
  unfold _calculate_risk, ScoreSpec.risk_level, ScoreSpec.risk_score,
    ScoreSpec.risk_complexity_points, ScoreSpec.risk_coverage_points,
    ScoreSpec.risk_todo_points.
  cbv zeta.
  rewrite ?CompareFacts.Qltb_half.
  rewrite ?CompareFacts.Qgtb_dec, ?CompareFacts.Qltb_dec,
    ?CompareFacts.Zgtb_dec.
  destruct (Qlt_le_dec 100 (get_complexity_score a));
    destruct (Qlt_le_dec 50 (get_complexity_score a));
    destruct (Qlt_le_dec (get_test_coverage_ratio a) (3 # 10));
    destruct (Qlt_le_dec (get_test_coverage_ratio a) (1 # 2));
    destruct (Z_lt_dec 5 (get_todos a)); reflexivity.
Qed.

Lemma calculate_priority_refines (a : AnalysisData) :
  _calculate_priority a =
  ScoreSpec.priority_level
    (ScoreSpec.priority_score (get_duplication a) (get_complexity_score a)
       (get_test_coverage_ratio a)).
Proof.
  unfold _calculate_priority, ScoreSpec.priority_level,
    ScoreSpec.priority_score.
  cbv zeta.
  rewrite ?CompareFacts.Qgtb_dec, ?CompareFacts.Qltb_dec,
    ?CompareFacts.Zgtb_dec.
  destruct (Z_lt_dec 10 (get_duplication a));
    destruct (Qlt_le_dec 100 (get_complexity_score a));
    destruct (Qlt_le_dec (get_test_coverage_ratio a) (2 # 10));
    destruct (Z_lt_dec 5 (get_duplication a));
    destruct (Qlt_le_dec 50 (get_complexity_score a)); reflexivity.
Qed.

Lemma estimate_cost_refines (a : AnalysisData) :
  _estimate_cost a =
  ScoreSpec.cost_level
    (ScoreSpec.cost (get_duplication a) (get_complexity_score a)
       (get_test_coverage_ratio a)).
Proof.
  unfold _estimate_cost, ScoreSpec.cost_level, ScoreSpec.cost.
  cbv zeta.
  rewrite CompareFacts.Qltb_half, CompareFacts.Qltb_dec, Z.add_0_l.
  destruct (Qlt_le_dec (get_test_coverage_ratio a) (1 # 2));
    rewrite ?Z.add_0_r, !CompareFacts.Zgtb_dec;
    repeat match goal with
           | |- context [Z_lt_dec ?x ?y] => destruct (Z_lt_dec x y)
           end; reflexivity.
Qed.

(** Both priority thresholds of one metric add up. *)
Lemma priority_score_split (dup : Z) (cs cov : Q) :
  ScoreSpec.priority_score dup cs cov =
  (if Z_lt_dec 10 dup then 5 else if Z_lt_dec 5 dup then 2 else 0)
  + (if Qlt_le_dec 100 cs then 5 else if Qlt_le_dec 50 cs then 2 else 0)
  + (if Qlt_le_dec cov (2 # 10) then 3 else 0).
Proof.
  unfold ScoreSpec.priority_score.
  destruct (Z_lt_dec 10 dup), (Z_lt_dec 5 dup); try lia;
    destruct (Qlt_le_dec 100 cs), (Qlt_le_dec 50 cs);
    destruct (Qlt_le_dec cov (2 # 10)); try reflexivity; exfalso; lra.
Qed.

End ScoreFacts.

Module ScoreClaims.
Import Signals SpecGenerator_score.


(** C2. For every analysis input the priority of the scorer is the
    level ("high" from 6, "medium" from 3, else "low") of the sum of
    five independent contributions: 3 for duplication above 10, 3 for
    complexity above 100, 3 for coverage below 0.2, 2 for duplication
    above 5 and 2 for complexity above 50. The two checks of one
    metric add up: duplication above 10 counts 5, complexity above 100
    counts 5. On signals that supply every metric the score is taken
    of the supplied numbers themselves; a coverage of 0 alone gives
    "medium", one of exactly 0.2 adds nothing; and missing keys count
    as duplication 0, complexity 0 and coverage 1. *)
Theorem priority_follows_score :
  (forall a : AnalysisData,
     _calculate_priority a =
     ScoreSpec.priority_level
       (ScoreSpec.priority_score (get_duplication a)
          (get_complexity_score a) (get_test_coverage_ratio a)))
  /\ (forall (dup : Z) (cs cov : Q),
        ScoreSpec.priority_score dup cs cov =
        (if Z_lt_dec 10 dup then 5 else if Z_lt_dec 5 dup then 2 else 0)
        + (if Qlt_le_dec 100 cs then 5
           else if Qlt_le_dec 50 cs then 2 else 0)
        + (if Qlt_le_dec cov (2 # 10) then 3 else 0))
  /\ _calculate_priority (mk_signals 11 51 1 0) = "high"
  /\ _calculate_priority (mk_signals 6 101 1 0) = "high"
  /\ (forall (dup : Z) (cs cov : Q) (td : Z),
        _calculate_priority (mk_signals dup cs cov td) =
        ScoreSpec.priority_level (ScoreSpec.priority_score dup cs cov))
  /\ _calculate_priority (mk_signals 0 0 0 0) = "medium"
  /\ _calculate_priority (mk_signals 0 0 (19 # 100) 0) = "medium"
  /\ _calculate_priority (mk_signals 0 0 (2 # 10) 0) = "low"
  /\ _calculate_priority (mk_signals 6 0 1 0) = "low"
  /\ _calculate_priority (mk_signals 6 0 0 0) = "medium"
  /\ _calculate_priority (mk_signals 11 0 1 0) = "medium"
  /\ _calculate_priority (mk_signals 11 0 0 0) = "high"
  /\ _calculate_priority (mk_signals 0 51 1 0) = "low"
  /\ _calculate_priority (mk_signals 0 101 1 0) = "medium"
  /\ _calculate_priority (mk_signals 0 101 0 0) = "high"
  /\ _calculate_priority no_signals = "low"
  /\ _calculate_priority empty_metrics = "low".
Proof.
  split; [exact ScoreFacts.calculate_priority_refines|].
  split; [exact ScoreFacts.priority_score_split|].
  do 2 (split; [reflexivity|]).
  split.
  { intros dup cs cov td.
    now rewrite ScoreFacts.calculate_priority_refines. }
  do 11 (split; [reflexivity|]). reflexivity.
Qed.


End ScoreClaims.


(** ** Strings *)

Module StrFacts.
Import PyStr.

Lemma app_nil (s : string) : "" +:+ s = s.
Proof. reflexivity. Qed.

Lemma app_cons (c : ascii) (a b : string) :
  String c a +:+ b = String c (a +:+ b).
Proof. reflexivity. Qed.

Lemma app_nil_r (s : string) : s +:+ "" = s.
Proof.
  induction s as [|c s IH]; [reflexivity|]. now rewrite app_cons, IH.
Qed.

Lemma length_app (a b : string) :
  String.length (a +:+ b) = (String.length a + String.length b)%nat.
Proof.
  induction a as [|c a IH]; [reflexivity|].
  rewrite app_cons. cbn. now rewrite IH.
Qed.

Lemma substring_all (a b : string) :
  substring 0 (String.length a) (a +:+ b) = a.
Proof.
  induction a as [|c a IH]; [now destruct b|].
  rewrite app_cons. cbn. now rewrite IH.
Qed.

Lemma lower_app (a b : string) : lower (a +:+ b) = lower a +:+ lower b.
Proof.
  induction a as [|c a IH]; [reflexivity|].
  rewrite app_cons. cbn [lower]. now rewrite IH, app_cons.
Qed.

Lemma token_char_not_space (c : ascii) :
  Re.is_token_char c = true -> is_space c = false.
Proof.
  unfold Re.is_token_char. destruct (is_space c); [discriminate|reflexivity].
Qed.

(** Lower-casing maps no character into or out of the token class. *)
Lemma token_char_lower (c : ascii) :
  Re.is_token_char (lower_char c) = Re.is_token_char c.
Proof. destruct c as [[] [] [] [] [] [] [] []]; reflexivity. Qed.

Lemma all_token_lower (s : string) :
  all_chars Re.is_token_char (lower s) = all_chars Re.is_token_char s.
Proof.
  induction s as [|c s IH]; [reflexivity|].
  cbn. now rewrite token_char_lower, IH.
Qed.

Lemma rstrip_token (s : string) :
  all_chars Re.is_token_char s = true -> rstrip s = s.
Proof.
  induction s as [|c s IH]; [reflexivity|].
  cbn. intros H. apply andb_true_iff in H as [Hc Hs].
  rewrite (IH Hs). destruct s; [|reflexivity].
  now rewrite (token_char_not_space _ Hc).
Qed.

(** [strip] leaves a text without whitespace as it is. *)
Lemma strip_token (s : string) :
  all_chars Re.is_token_char s = true -> strip s = s.
Proof.
  intros H. unfold strip.
  assert (lstrip s = s) as ->; [|now apply rstrip_token].
  destruct s as [|c s]; [reflexivity|].
  cbn in *. apply andb_true_iff in H as [Hc _].
  now rewrite (token_char_not_space _ Hc).
Qed.

End StrFacts.

(** ** The matcher *)

Module ReFacts.
Import PyStr Re.

Lemma consumed_app (a b : string) : consumed (a +:+ b) b = a.
Proof.
  unfold consumed. rewrite StrFacts.length_app.
  replace (String.length a + String.length b - String.length b)%nat
    with (String.length a) by lia.
  apply StrFacts.substring_all.
Qed.

Lemma eat_startswith (l s : string) :
  startswith l s = false -> eat l s = None.
Proof.
  revert s. induction l as [|a l IH]; intros s H; [discriminate|].
  destruct s as [|b s]; [reflexivity|]. cbn in *.
  destruct (Ascii.eqb a b); [now apply IH|reflexivity].
Qed.

(** Where the class stops, the repetition stops. *)
Lemma star_stops (cls : ascii -> bool) (rest : string)
    (k : string -> option found) :
  match rest with
  | EmptyString => True
  | String c _ => cls c = false
  end ->
  star cls rest k = k rest.
Proof. destruct rest as [|c rest]; cbn; [reflexivity|]. now intros ->. Qed.

(** The repetition is greedy: when the continuation accepts after the
    longest run, that is the match. *)
Lemma star_greedy (cls : ascii -> bool) (a rest : string)
    (k : string -> option found) (x : found) :
  all_chars cls a = true ->
  match rest with
  | EmptyString => True
  | String c _ => cls c = false
  end ->
  k rest = Some x ->
  star cls (a +:+ rest) k = Some x.
Proof.
  intros Ha Hrest Hk. induction a as [|c a IH].
  - rewrite StrFacts.app_nil. now rewrite star_stops.
  - rewrite StrFacts.app_cons. cbn in *.
    apply andb_true_iff in Ha as [-> Ha].
    now rewrite (IH Ha).
Qed.

Lemma plus_greedy (cls : ascii -> bool) (a rest : string)
    (k : string -> option found) (x : found) :
  a <> "" ->
  all_chars cls a = true ->
  match rest with
  | EmptyString => True
  | String c _ => cls c = false
  end ->
  k rest = Some x ->
  plus cls (a +:+ rest) k = Some x.
Proof.
  intros Hne Ha Hrest Hk. destruct a as [|c a]; [congruence|].
  rewrite StrFacts.app_cons. cbn in *.
  apply andb_true_iff in Ha as [-> Ha].
  now apply star_greedy.
Qed.

Lemma token_end_stops (rest : string) :
  token_end rest = true ->
  match rest with
  | EmptyString => True
  | String c _ => is_token_char c = false
  end.
Proof.
  destruct rest as [|c rest]; [trivial|]. cbn.
  now destruct (is_token_char c).
Qed.

(** The group at the end of a pattern captures a whole token. *)
Lemma run_token (tok rest : string) (cap : option string) :
  tok <> "" ->
  all_chars is_token_char tok = true ->
  token_end rest = true ->
  run token (tok +:+ rest) cap
    (fun rest cap => Some (default EmptyString cap, rest))
  = Some (tok, rest).
Proof.
  intros Hne Htok Hend. unfold token. cbn [run].
  apply plus_greedy; [assumption | assumption | |].
  - now apply token_end_stops.
  - now rewrite consumed_app.
Qed.

(** No whitespace run starts inside a token. *)
Lemma plus_space_token (s : string) (k : string -> option found) :
  all_chars is_token_char s = true -> plus is_space s k = None.
Proof.
  destruct s as [|c s]; [reflexivity|]. cbn.
  intros H. apply andb_true_iff in H as [Hc _].
  now rewrite (StrFacts.token_char_not_space _ Hc).
Qed.

Lemma eat_all_chars (cls : ascii -> bool) (l s s' : string) :
  eat l s = Some s' -> all_chars cls s = true -> all_chars cls s' = true.
Proof.
  revert s. induction l as [|a l IH]; intros s He Hs.
  - cbn in He. congruence.
  - destruct s as [|b s]; [discriminate|]. cbn in *.
    apply andb_true_iff in Hs as [_ Hs].
    destruct (Ascii.eqb a b); [eauto|discriminate].
Qed.

(** The scan steps over a prefix at no position of which the pattern
    matches. *)
Lemma findall_from_skip (r : regex) (pre rest : string) (fuel : nat) :
  (forall a b, pre = a +:+ b -> b <> "" -> match_at r (b +:+ rest) = None) ->
  findall_from (String.length pre + fuel) r (pre +:+ rest)
  = findall_from fuel r rest.
Proof.
  induction pre as [|c pre IH]; intros Hno; [reflexivity|].
  cbn [String.length Nat.add findall_from].
  rewrite (Hno "" (String c pre) eq_refl) by discriminate.
  rewrite StrFacts.app_cons. apply IH. intros a b -> Hb.
  apply (Hno (String c a) b); [reflexivity|assumption].
Qed.

(** More fuel than the length of the subject changes nothing. *)
Lemma findall_from_fuel (r : regex) (s : string) (fuel : nat) :
  (String.length s < fuel)%nat ->
  findall_from fuel r s = findall r s.
Proof.
  unfold findall. remember (String.length s) as n eqn:Hn.
  assert (String.length s <= n)%nat as Hle by lia. clear Hn.
  revert s fuel Hle.
  induction n as [|n IH]; intros s fuel Hle Hlt.
  - destruct s; [|cbn in Hle; lia].
    destruct fuel as [|fuel]; [lia|]. cbn.
    destruct (match_at r ""), fuel; reflexivity.
  - destruct fuel as [|fuel]; [lia|].
    cbn [findall_from].
    destruct (match_at r s) as [[cap rest]|].
    + destruct (String.length rest <? String.length s)%nat eqn:E.
      * apply Nat.ltb_lt in E.
        rewrite (IH rest fuel) by lia. reflexivity.
      * destruct s as [|c s]; [reflexivity|]. cbn in Hle.
        rewrite (IH s fuel) by lia. reflexivity.
    + destruct s as [|c s]; [reflexivity|]. cbn in Hle.
      rewrite (IH s fuel) by lia. reflexivity.
Qed.

Lemma app_assoc_str (a b c : string) : (a +:+ b) +:+ c = a +:+ (b +:+ c).
Proof.
  induction a as [|x a IH]; [reflexivity|].
  now rewrite !StrFacts.app_cons, IH.
Qed.

Lemma eat_result (l s s' : string) : eat l s = Some s' -> s = l +:+ s'.
Proof.
  revert s. induction l as [|a l IH]; intros s H.
  - cbn in H. now injection H as ->.
  - destruct s as [|b s]; [discriminate|]. cbn in H.
    destruct (Ascii.eqb_spec a b) as [-> | _]; [|discriminate].
    rewrite StrFacts.app_cons. f_equal. now apply IH.
Qed.

(** What a repetition hands to its continuation. *)
Lemma star_result (cls : ascii -> bool) (s : string)
    (k : string -> option found) (x : found) :
  star cls s k = Some x ->
  exists a s', s = a +:+ s' /\ all_chars cls a = true /\ k s' = Some x.
Proof.
  induction s as [|c s IH]; cbn.
  - intros H. exists "", "". auto.
  - destruct (cls c) eqn:Hc.
    + destruct (star cls s k) as [r|] eqn:E; intros H.
      * injection H as ->. destruct (IH eq_refl) as (a & s' & -> & Ha & Hk).
        exists (String c a), s'. cbn. rewrite Hc, Ha. auto.
      * exists "", (String c s). auto.
    + intros H. exists "", (String c s). auto.
Qed.

Lemma plus_result (cls : ascii -> bool) (s : string)
    (k : string -> option found) (x : found) :
  plus cls s k = Some x ->
  exists a s', s = a +:+ s' /\ a <> "" /\ all_chars cls a = true
               /\ k s' = Some x.
Proof.
  destruct s as [|c s]; cbn; [discriminate|].
  destruct (cls c) eqn:Hc; [|discriminate]. intros H.
  apply star_result in H as (a & s' & -> & Ha & Hk).
  exists (String c a), s'. cbn. rewrite Hc, Ha.
  repeat split; auto; discriminate.
Qed.

(** A successful attempt ends in a call of the continuation on a
    suffix of the subject. *)
Lemma run_result (r : regex) (s : string) (cap : option string)
    (k : string -> option string -> option found) (x : found) :
  run r s cap k = Some x ->
  exists a s' cap', s = a +:+ s' /\ k s' cap' = Some x.
Proof.
  revert s cap k. induction r as [l|cls|r1 IH1 r2 IH2|r1 IH1 r2 IH2|r IH|r IH];
    intros s cap k H; cbn [run] in H.
  - destruct (eat l s) as [s'|] eqn:E; [|discriminate].
    apply eat_result in E. eauto.
  - apply plus_result in H as (a & s' & -> & _ & _ & Hk). eauto.
  - apply IH1 in H as (a1 & s1 & cap1 & -> & H).
    apply IH2 in H as (a2 & s2 & cap2 & -> & H).
    exists (a1 +:+ a2), s2, cap2. split; [|exact H].
    now rewrite app_assoc_str.
  - destruct (run r1 s cap k) as [y|] eqn:E.
    + injection H as <-. now apply IH1 in E.
    + now apply IH2 in H.
  - destruct (run r s cap k) as [y|] eqn:E.
    + injection H as <-. now apply IH in E.
    + exists "", s, cap. auto.
  - apply IH in H as (a & s' & cap' & -> & H). eauto.
Qed.

End ReFacts.


(** ** The constraint parser *)

Module ParseFacts.
Import PyStr Re SpecGenerator_parse.

Lemma append_matches_mono (ms libs : list string) (x : string) :
  In x libs -> In x (append_matches libs ms).
Proof.
  unfold append_matches. revert libs.
  induction ms as [|m ms IH]; intros libs Hx; [assumption|].
  cbn [fold_left]. apply IH. destruct (mem m stop_words); [assumption|].
  apply in_or_app. now left.
Qed.

Lemma append_matches_adds (ms libs : list string) (m : string) :
  In m ms -> mem m stop_words = false ->
  In (strip m) (append_matches libs ms).
Proof.
  unfold append_matches. revert libs.
  induction ms as [|m' ms IH]; intros libs Hin Hstop; [contradiction|].
  cbn [fold_left]. destruct Hin as [-> | Hin].
  - rewrite Hstop. apply (append_matches_mono ms).
    apply in_or_app. right. now left.
  - now apply IH.
Qed.

Lemma collect_from_mono (patterns : list regex) (lp : string)
    (libs : list string) (x : string) :
  In x libs ->
  In x (fold_left
          (fun libs pattern => append_matches libs (findall pattern lp))
          patterns libs).
Proof.
  revert libs. induction patterns as [|p ps IH]; intros libs Hx;
    [assumption|].
  cbn [fold_left]. apply IH. now apply append_matches_mono.
Qed.

(** Every match of every pattern that is not a stop-word is
    collected. *)
Lemma collect_adds (patterns : list regex) (lp : string) (p : regex)
    (m : string) :
  In p patterns -> In m (findall p lp) -> mem m stop_words = false ->
  In (strip m) (collect patterns lp).
Proof.
  unfold collect. generalize (@nil string) as libs.
  induction patterns as [|q ps IH]; intros libs Hp Hm Hstop;
    [contradiction|].
  cbn [fold_left]. destruct Hp as [-> | Hp].
  - apply collect_from_mono. now apply append_matches_adds.
  - now apply IH.
Qed.

(** A text occurring at no position of a prefix starts at none of
    them. *)
Lemma occurs_before_split (l pre rest : string) :
  occurs_before (String.length pre) l (pre +:+ rest) = false ->
  forall a b, pre = a +:+ b -> b <> "" -> startswith l (b +:+ rest) = false.
Proof.
  intros H a. revert pre H.
  induction a as [|c a IH]; intros pre H b -> Hb.
  - rewrite StrFacts.app_nil in H.
    destruct b as [|c b]; [congruence|].
    cbn [String.length occurs_before] in H.
    now apply orb_false_iff in H as [H _].
  - rewrite !StrFacts.app_cons in H.
    cbn [String.length occurs_before] in H.
    apply orb_false_iff in H as [_ H].
    now apply (IH (a +:+ b)).
Qed.

(** The first match of a scan that finds nothing earlier is in the
    result. *)
Lemma findall_reaches (r : regex) (pre hit : string) (cap rest : string) :
  (forall a b, pre = a +:+ b -> b <> "" -> match_at r (b +:+ hit) = None) ->
  match_at r hit = Some (cap, rest) ->
  In cap (findall r (pre +:+ hit)).
Proof.
  intros Hno Hhit. unfold findall.
  rewrite StrFacts.length_app, plus_n_Sm.
  rewrite ReFacts.findall_from_skip by assumption.
  cbn [findall_from]. rewrite Hhit.
  destruct (String.length rest <? String.length hit)%nat; now left.
Qed.

Lemma avoid_re_head (s : string) :
  startswith "avoid" s = false -> match_at avoid_re s = None.
Proof.
  intros H. unfold match_at, avoid_re. cbn [cat run].
  now rewrite ReFacts.eat_startswith.
Qed.

Lemma prefer_re_head (s : string) :
  startswith "prefer" s = false -> startswith "use" s = false ->
  match_at prefer_re s = None.
Proof.
  intros H1 H2. unfold match_at, prefer_re. cbn [cat run].
  now rewrite !ReFacts.eat_startswith.
Qed.

Lemma avoid_re_numpy (post : string) :
  token_end post = true ->
  match_at avoid_re ("avoid numpy" +:+ post) = Some ("numpy", post).
Proof.
  intros H. unfold match_at, avoid_re. simpl.
  change ("" +:+ post) with post.
  rewrite ReFacts.star_stops by now apply ReFacts.token_end_stops.
  exact (f_equal (fun x => Some (x, post))
           (ReFacts.consumed_app "numpy" post)).
Qed.

Lemma prefer_re_pandas (post : string) :
  token_end post = true ->
  match_at prefer_re ("prefer pandas" +:+ post) = Some ("pandas", post).
Proof.
  intros H. unfold match_at, prefer_re. simpl.
  change ("" +:+ post) with post.
  rewrite ReFacts.star_stops by now apply ReFacts.token_end_stops.
  exact (f_equal (fun x => Some (x, post))
           (ReFacts.consumed_app "pandas" post)).
Qed.

(** *** The scan arrives at the phrase *)

(** Two ways to cut one text: the longer tail ends in the shorter. *)
Lemma app_suffix (a pre hit rest : string) :
  pre +:+ hit = a +:+ rest ->
  (String.length hit <= String.length rest)%nat ->
  exists pre', pre = a +:+ pre' /\ rest = pre' +:+ hit.
Proof.
  revert pre. induction a as [|x a IH]; intros pre E L.
  - exists pre. rewrite !StrFacts.app_nil in *. now split.
  - destruct pre as [|y pre].
    + rewrite StrFacts.app_nil in E. subst hit.
      rewrite StrFacts.app_cons in L. cbn [String.length] in L.
      rewrite StrFacts.length_app in L. lia.
    + rewrite !StrFacts.app_cons in E. injection E as -> E.
      destruct (IH pre E L) as (p & -> & ->).
      exists p. now rewrite StrFacts.app_cons.
Qed.

(** What an attempt leaves unread is a tail of its subject. *)
Lemma match_at_suffix (r : regex) (s cap rest : string) :
  match_at r s = Some (cap, rest) -> exists a, s = a +:+ rest.
Proof.
  unfold match_at. intros H.
  apply ReFacts.run_result in H as (a & s' & cap' & -> & H).
  injection H as _ <-. now exists a.
Qed.

(** Passing over the rest of a match. *)
Lemma scan_arrives_skip (r : regex) (a b hit : string) :
  ParseSpec.scan_arrives r (String.length a) (a +:+ b) hit
  = ParseSpec.scan_arrives r 0 b hit.
Proof.
  induction a as [|x a IH]; [now rewrite StrFacts.app_nil|].
  rewrite StrFacts.app_cons. cbn [String.length ParseSpec.scan_arrives].
  exact IH.
Qed.

(** A scan that arrives had no more to pass over than there was. *)
Lemma scan_arrives_bound (r : regex) (pre hit : string) (skip : nat) :
  ParseSpec.scan_arrives r skip pre hit = true ->
  (skip <= String.length pre)%nat.
Proof.
  revert skip. induction pre as [|c pre IH]; intros skip H.
  - cbn in H. apply Nat.eqb_eq in H. subst. cbn. lia.
  - destruct skip as [|skip]; [lia|].
    cbn [ParseSpec.scan_arrives] in H. apply IH in H.
    cbn [String.length]. lia.
Qed.

(** Where the scan arrives, the group of the match found there is
    in the result of [findall]. *)
Lemma findall_from_arrives (r : regex) (hit cap post : string) :
  match_at r hit = Some (cap, post) ->
  forall (fuel : nat) (pre : string),
    (String.length pre < fuel)%nat ->
    ParseSpec.scan_arrives r 0 pre hit = true ->
    In cap (findall_from fuel r (pre +:+ hit)).
Proof.
  intros Hm. induction fuel as [|fuel IH]; intros pre Hf Hc; [lia|].
  destruct pre as [|c pre].
  - rewrite StrFacts.app_nil. cbn [findall_from]. rewrite Hm.
    destruct (String.length post <? String.length hit)%nat; now left.
  - cbn [ParseSpec.scan_arrives] in Hc.
    cbn [String.length] in Hf.
    cbn [findall_from].
    destruct (match_at r (String c pre +:+ hit)) as [[cap' rest]|] eqn:E.
    + destruct (match_at_suffix _ _ _ _ E) as [a Ea].
      cbv zeta in Hc. rewrite Ea in Hc at 1.
      rewrite StrFacts.length_app in Hc.
      replace (String.length a + String.length rest - String.length rest)%nat
        with (String.length a) in Hc by lia.
      destruct (String.length rest <? String.length (String c pre +:+ hit))%nat
        eqn:Hl.
      * right. apply Nat.ltb_lt in Hl.
        pose proof (scan_arrives_bound _ _ _ _ Hc) as Hb.
        assert (String.length hit <= String.length rest)%nat as Hh.
        { pose proof (f_equal String.length Ea) as HL.
          rewrite !StrFacts.length_app in HL.
          cbn [String.length] in HL. lia. }
        destruct (app_suffix a (String c pre) hit rest Ea Hh)
          as (p' & Ep & ->).
        destruct a as [|x a].
        { rewrite Ea, StrFacts.app_nil in Hl. lia. }
        rewrite StrFacts.app_cons in Ep. injection Ep as <- ->.
        cbn [String.length Nat.pred] in Hc.
        rewrite scan_arrives_skip in Hc.
        apply IH; [|exact Hc].
        rewrite StrFacts.length_app in Hf. lia.
      * right. rewrite StrFacts.app_cons. apply IH; [lia|].
        apply Nat.ltb_ge in Hl. rewrite Ea in Hl.
        rewrite StrFacts.length_app in Hl.
        assert (String.length a = 0)%nat as Ha by lia.
        now rewrite Ha in Hc.
    + rewrite StrFacts.app_cons. apply IH; [lia|exact Hc].
Qed.

Lemma findall_arrives (r : regex) (pre hit cap post : string) :
  match_at r hit = Some (cap, post) ->
  ParseSpec.attempted_at r pre hit = true ->
  In cap (findall r (pre +:+ hit)).
Proof.
  intros Hm Hc. unfold findall.
  apply (findall_from_arrives r hit cap post Hm); [|exact Hc].
  rewrite StrFacts.length_app. lia.
Qed.

End ParseFacts.


Module DontUseFacts.
Import PyStr Re SpecGenerator_parse.

Lemma eat_app (l s : string) : eat l (l +:+ s) = Some s.
Proof.
  induction l as [|c l IH]; [reflexivity|].
  rewrite StrFacts.app_cons. cbn [eat]. now rewrite Ascii.eqb_refl.
Qed.

Lemma run_lit_app (l s : string) (cap : option string)
    (k : string -> option string -> option found) :
  run (Lit l) (l +:+ s) cap k = k s cap.
Proof. cbn [run]. now rewrite eat_app. Qed.

(** One blank before a text that does not start with whitespace. *)
Lemma run_ws_blank (s : string) (cap : option string)
    (k : string -> option string -> option found) :
  match s with
  | EmptyString => True
  | String c _ => is_space c = false
  end ->
  run ws (" " +:+ s) cap k = k s cap.
Proof.
  intros H. unfold ws. cbn [run].
  change (" " +:+ s) with (String " " s).
  cbn [plus]. change (is_space " ") with true. cbv iota.
  now rewrite ReFacts.star_stops.
Qed.

Lemma token_head (y : string) :
  y <> "" -> all_chars is_token_char y = true ->
  match y with
  | EmptyString => True
  | String c _ => is_space c = false
  end.
Proof.
  destruct y as [|c y]; [trivial|]. cbn. intros _ H.
  apply andb_true_iff in H as [Hc _].
  now apply StrFacts.token_char_not_space.
Qed.

Lemma run_token_end (y : string) (cap : option string) :
  y <> "" -> all_chars is_token_char y = true ->
  run token y cap (fun rest cap => Some (default EmptyString cap, rest))
  = Some (y, "").
Proof.
  intros Hne Hy.
  pose proof (ReFacts.run_token y "" cap Hne Hy eq_refl) as H.
  now rewrite StrFacts.app_nil_r in H.
Qed.

(** [don't use y] matches the second avoid-pattern with group [y]. *)
Lemma dont_use_re_match (y : string) :
  y <> "" -> all_chars is_token_char y = true ->
  match_at dont_use_re ("don't use " +:+ y) = Some (y, "").
Proof.
  intros Hne Hy. unfold match_at, dont_use_re. cbn [cat].
  change ("don't use " +:+ y)
    with ("don't" +:+ (" " +:+ ("use" +:+ (" " +:+ y)))).
  cbn [run]. rewrite eat_app.
  rewrite (run_ws_blank ("use" +:+ (" " +:+ y))) by reflexivity.
  rewrite eat_app.
  rewrite (run_ws_blank y) by now apply token_head.
  now apply run_token_end.
Qed.

(** The optional [the\s+] finds no whitespace inside a token. *)
Lemma the_skipped (y : string) (cap : option string)
    (k : string -> option string -> option found) :
  all_chars is_token_char y = true ->
  run (Seq (Lit "the") ws) y cap k = None.
Proof.
  intros Hy. cbn [run]. destruct (eat "the" y) as [s'|] eqn:E; [|reflexivity].
  unfold ws. cbn [run]. apply ReFacts.plus_space_token.
  now apply (ReFacts.eat_all_chars _ "the" y).
Qed.

(** [use y] matches the first prefer-pattern with group [y]. *)
Lemma prefer_re_use_match (y : string) :
  y <> "" -> all_chars is_token_char y = true ->
  match_at prefer_re ("use " +:+ y) = Some (y, "").
Proof.
  intros Hne Hy. unfold match_at, prefer_re. cbn [cat].
  change ("use " +:+ y) with ("use" +:+ (" " +:+ y)).
  change (run (Seq ?a ?b) ?s ?c ?k)
    with (run a s c (fun s' cap' => run b s' cap' k)).
  change (run (Alt ?a ?b) ?s ?c ?k)
    with (match run a s c k with Some x => Some x | None => run b s c k end).
  assert (forall k, run (Lit "prefer") ("use" +:+ (" " +:+ y)) None k = None)
    as -> by reflexivity.
  rewrite run_lit_app.
  change (run (Seq ?a ?b) ?s ?c ?k)
    with (run a s c (fun s' cap' => run b s' cap' k)).
  rewrite (run_ws_blank y) by now apply token_head.
  change (run (Seq ?a ?b) ?s ?c ?k)
    with (run a s c (fun s' cap' => run b s' cap' k)).
  change (run (Opt ?a) ?s ?c ?k)
    with (match run a s c k with Some x => Some x | None => k s c end).
  rewrite the_skipped by assumption.
  now apply run_token_end.
Qed.

Lemma dont_use_forbidden (y : string) :
  y <> "" -> all_chars is_token_char y = true ->
  In y (findall dont_use_re ("don't use " +:+ y)).
Proof.
  intros Hne Hy.
  apply (ParseFacts.findall_reaches dont_use_re "" _ y "").
  - intros a b Hab Hb. destruct a; [|discriminate].
    rewrite StrFacts.app_nil in Hab. congruence.
  - now apply dont_use_re_match.
Qed.

Lemma dont_use_preferred (y : string) :
  y <> "" -> all_chars is_token_char y = true ->
  In y (findall prefer_re ("don't use " +:+ y)).
Proof.
  intros Hne Hy.
  change ("don't use " +:+ y) with ("don't " +:+ ("use " +:+ y)).
  apply (ParseFacts.findall_reaches prefer_re "don't " _ y "").
  - intros a b Hab Hb. apply ParseFacts.prefer_re_head.
    + now apply (ParseFacts.occurs_before_split "prefer" "don't " _ eq_refl a b).
    + now apply (ParseFacts.occurs_before_split "use" "don't " _ eq_refl a b).
  - now apply prefer_re_use_match.
Qed.

End DontUseFacts.

Module ParseClaims.
Import PyStr Re SpecGenerator_parse.

(** C9 (amended). For every prompt whose lower-cased text contains
    "avoid numpy" and "prefer pandas", each followed by whitespace, a
    comma, a period or the end of the text, and each standing where
    the left-to-right scan of [re.findall] for its pattern makes a
    match attempt, that is, not inside a match that scan found
    earlier, [parse_explicit_constraints] returns "numpy" among
    [libraries_forbidden] and "pandas" among [libraries_preferred].
    The patterns are [avoid\s+(?:using\s+)?([^\s,.]+)] and
    [(?:prefer|use)\s+(?:the\s+)?([^\s,.]+)]; other occurrences of
    "avoid", "prefer" or "use" in the text do not matter. *)
Theorem avoid_numpy_prefer_pandas
    (prompt pre1 post1 pre2 post2 : string) :
  lower prompt = pre1 +:+ ("avoid numpy" +:+ post1) ->
  token_end post1 = true ->
  ParseSpec.attempted_at avoid_re pre1 ("avoid numpy" +:+ post1) = true ->
  lower prompt = pre2 +:+ ("prefer pandas" +:+ post2) ->
  token_end post2 = true ->
  ParseSpec.attempted_at prefer_re pre2 ("prefer pandas" +:+ post2) = true ->
  In "numpy" (pc_libraries_forbidden (parse_explicit_constraints prompt))
  /\ In "pandas" (pc_libraries_preferred (parse_explicit_constraints prompt)).
Proof.
  intros E1 T1 C1 E2 T2 C2.
  unfold parse_explicit_constraints. cbn [pc_libraries_forbidden
    pc_libraries_preferred]. split.
  - change "numpy" with (strip "numpy") at 1.
    apply (ParseFacts.collect_adds _ _ avoid_re);
      [now left | | reflexivity].
    rewrite E1.
    apply (ParseFacts.findall_arrives _ _ _ _ post1); [|exact C1].
    now apply ParseFacts.avoid_re_numpy.
  - change "pandas" with (strip "pandas") at 1.
    apply (ParseFacts.collect_adds _ _ prefer_re);
      [now left | | reflexivity].
    rewrite E2.
    apply (ParseFacts.findall_arrives _ _ _ _ post2); [|exact C2].
    now apply ParseFacts.prefer_re_pandas.
Qed.

(** The theorem at a prompt in which "use" occurs before both
    phrases, the first followed by a blank and the second by a
    period. *)
Lemma avoid_numpy_prefer_pandas_witness :
  lower "I use Python; avoid NumPy and prefer pandas."
  = "i use python; " +:+ ("avoid numpy" +:+ " and prefer pandas.")
  /\ In "numpy"
       (pc_libraries_forbidden
          (parse_explicit_constraints
             "I use Python; avoid NumPy and prefer pandas."))
  /\ In "pandas"
       (pc_libraries_preferred
          (parse_explicit_constraints
             "I use Python; avoid NumPy and prefer pandas.")).
Proof.
  split; [reflexivity|].
  apply (avoid_numpy_prefer_pandas
           "I use Python; avoid NumPy and prefer pandas."
           "i use python; " " and prefer pandas."
           "i use python; avoid numpy and " "."); reflexivity.
Defined.

(** C9 as stated fails. The first prompt contains "avoid numpy" and
    "prefer pandas", and the parser forbids "numpy_financial", not
    "numpy": the group takes the whole token. The second contains
    both phrases, each followed by a blank or the end of the text, and
    the parser prefers "prefer", not "pandas": the match of "use" at
    the end of "because" takes "prefer" as its token, and the scan
    resumes after it. *)
Lemma avoid_numpy_counterexample :
  contains "avoid numpy" "avoid numpy_financial and prefer pandas" = true
  /\ contains "prefer pandas" "avoid numpy_financial and prefer pandas"
     = true
  /\ pc_libraries_forbidden
       (parse_explicit_constraints "avoid numpy_financial and prefer pandas")
     = ["numpy_financial"]
  /\ ~ In "numpy"
         (pc_libraries_forbidden
            (parse_explicit_constraints
               "avoid numpy_financial and prefer pandas"))
  /\ token_end "_financial and prefer pandas" = false
  /\ contains "avoid numpy" "avoid numpy because prefer pandas" = true
  /\ contains "prefer pandas" "avoid numpy because prefer pandas" = true
  /\ pc_libraries_preferred
       (parse_explicit_constraints "avoid numpy because prefer pandas")
     = ["prefer"]
  /\ ~ In "pandas"
         (pc_libraries_preferred
            (parse_explicit_constraints
               "avoid numpy because prefer pandas"))
  /\ ParseSpec.attempted_at prefer_re "avoid numpy because "
       "prefer pandas" = false.
Proof.
  split; [reflexivity|]. split; [reflexivity|].
  assert (pc_libraries_forbidden
            (parse_explicit_constraints
               "avoid numpy_financial and prefer pandas")
          = ["numpy_financial"]) as E by (vm_compute; reflexivity).
  split; [exact E|].
  split; [rewrite E; intros [H | []]; discriminate H|].
  split; [reflexivity|]. split; [reflexivity|]. split; [reflexivity|].
  assert (pc_libraries_preferred
            (parse_explicit_constraints "avoid numpy because prefer pandas")
          = ["prefer"]) as E' by (vm_compute; reflexivity).
  split; [exact E'|].
  split; [rewrite E'; intros [H | []]; discriminate H|].
  vm_compute; reflexivity.
Qed.

(** C10 (amended). For every non-empty single-token name X (no
    whitespace, comma or period) whose lower-cased form is not a
    stop-word, parsing "don't use X" places the lower-cased X in
    [libraries_forbidden] and also in [libraries_preferred]; X itself
    when X is already lower-case. *)
Theorem dont_use_lands_in_both (X : string) :
  X <> "" ->
  all_chars is_token_char X = true ->
  mem (lower X) stop_words = false ->
  (In (lower X)
     (pc_libraries_forbidden (parse_explicit_constraints ("don't use " +:+ X)))
   /\ In (lower X)
        (pc_libraries_preferred
           (parse_explicit_constraints ("don't use " +:+ X))))
  /\ (lower X = X ->
      In X (pc_libraries_forbidden
              (parse_explicit_constraints ("don't use " +:+ X)))
      /\ In X (pc_libraries_preferred
                 (parse_explicit_constraints ("don't use " +:+ X)))).
Proof.
  intros Hne Htok Hstop.
  assert (lower X <> "") as Hne' by (destruct X; [congruence|discriminate]).
  assert (all_chars is_token_char (lower X) = true) as Htok'
    by now rewrite StrFacts.all_token_lower.
  assert (In (lower X)
     (pc_libraries_forbidden (parse_explicit_constraints ("don't use " +:+ X)))
   /\ In (lower X)
        (pc_libraries_preferred
           (parse_explicit_constraints ("don't use " +:+ X)))) as H.
  { unfold parse_explicit_constraints.
    cbn [pc_libraries_forbidden pc_libraries_preferred].
    rewrite StrFacts.lower_app.
    change (lower "don't use ") with "don't use ".
    rewrite <- (StrFacts.strip_token (lower X) Htok') at 1 3.
    split.
    - apply (ParseFacts.collect_adds _ _ dont_use_re);
        [right; now left | | assumption].
      now apply DontUseFacts.dont_use_forbidden.
    - apply (ParseFacts.collect_adds _ _ prefer_re);
        [now left | | assumption].
      now apply DontUseFacts.dont_use_preferred. }
  split; [exact H|]. intros E. now rewrite E in H.
Qed.

(** The theorem at a name written in lower case. *)
Lemma dont_use_lands_in_both_witness :
  In "numpy"
    (pc_libraries_forbidden (parse_explicit_constraints "don't use numpy"))
  /\ In "numpy"
       (pc_libraries_preferred
          (parse_explicit_constraints "don't use numpy")).
Proof.
  apply (proj2 (dont_use_lands_in_both "numpy"
                  ltac:(discriminate) eq_refl eq_refl)).
  reflexivity.
Defined.

(** C10 as stated fails: "NumPy" is a single token and no stop-word,
    and the parser places "numpy", not "NumPy", in both lists. *)
Lemma dont_use_counterexample :
  all_chars is_token_char "NumPy" = true
  /\ mem "NumPy" stop_words = false
  /\ pc_libraries_forbidden (parse_explicit_constraints "don't use NumPy")
     = ["numpy"]
  /\ pc_libraries_preferred (parse_explicit_constraints "don't use NumPy")
     = ["numpy"]
  /\ ~ In "NumPy"
         (pc_libraries_forbidden
            (parse_explicit_constraints "don't use NumPy")).
Proof.
  split; [reflexivity|]. split; [reflexivity|].
  assert (pc_libraries_forbidden
            (parse_explicit_constraints "don't use NumPy") = ["numpy"]) as E
    by (vm_compute; reflexivity).
  split; [exact E|]. split; [vm_compute; reflexivity|].
  rewrite E. intros [H | []]. discriminate H.
Qed.

End ParseClaims.


(** ** Retrieval *)

Module RetrievalFacts.
Import RAGPolicy.

Lemma estimate_tokens_from (items : list Decision) (acc : Z) :
  fold_left
    (fun total item => total + Z.of_nat (String.length (item_json item)) / 4)
    items acc
  = acc + RetrievalSpec.token_sum items.
Proof.
  revert acc. induction items as [|item items IH]; intros acc; cbn.
  - lia.
  - rewrite IH. unfold RetrievalSpec.token_sum. cbn. lia.
Qed.

(** The loop of [_estimate_tokens] computes the sum of the
    specification. *)
Lemma estimate_tokens_sum (items : list Decision) :
  _estimate_tokens items = RetrievalSpec.token_sum items.
Proof. unfold _estimate_tokens. now rewrite estimate_tokens_from. Qed.




Lemma firstn_short {A : Type} (l : list A) :
  (Z.of_nat (length l) >? 2) = false -> firstn 2 l = l.
Proof. intros H. apply firstn_all2. lia. Qed.

End RetrievalFacts.

Module RetrievalClaims.
Import RAGPolicy.



End RetrievalClaims.


(** ** Enrichment *)

Module EnrichFacts.
Import RAGPolicy RAGEnrichment.

Lemma bind_returns {A B : Type} (m : outcome A) (f : A -> outcome B)
    (b : B) :
  m ≫= f = Returns b -> exists a, m = Returns a /\ f a = Returns b.
Proof. destruct m as [a|e]; cbn; [eauto|discriminate]. Qed.

Lemma list_add_returns (existing v : value) (more : list string) :
  list_add existing more = Returns v ->
  exists l, existing = VList l /\ v = VList (l ++ more).
Proof.
  destruct existing; cbn; intros H; try discriminate H.
  injection H as <-. eauto.
Qed.

(** One step writes its own key only. *)
Lemma extend_frame (enriched enriched' : gmap string value)
    (key : string) (more : list string) (k : string) :
  extend enriched key more = Returns enriched' ->
  k <> key -> enriched' !! k = enriched !! k.
Proof.
  unfold extend. intros H Hk. destruct (negb _).
  - apply bind_returns in H as (v & _ & H). injection H as <-.
    now rewrite lookup_insert_ne.
  - now injection H as <-.
Qed.

(** One step puts the new entries after the old ones. *)
Lemma extend_appends (enriched enriched' : gmap string value)
    (key : string) (more : list string) :
  extend enriched key more = Returns enriched' ->
  Model.list_at enriched' key = Model.list_at enriched key ++ more.
Proof.
  unfold extend. intros H.
  destruct more as [|x more]; cbn [length Nat.eqb negb] in H.
  - injection H as <-. now rewrite app_nil_r.
  - apply bind_returns in H as (v & Hv & H). injection H as <-.
    apply list_add_returns in Hv as (l & Hl & ->).
    unfold Model.list_at. rewrite lookup_insert_eq.
    destruct (enriched !! key) as [[]|]; cbn in Hl; congruence.
Qed.

(** What follows retrieval writes three keys at most. *)
Lemma merge_context_frame (enriched enriched' : gmap string value)
    (context : Context) (k : string) :
  merge_context enriched context = Returns enriched' ->
  k <> "constraints_inferred" -> k <> "edge_cases" -> k <> "examples" ->
  enriched' !! k = enriched !! k.
Proof.
  unfold merge_context. intros H Hci Hec Hex.
  apply bind_returns in H as (e1 & H1 & H).
  apply bind_returns in H as (e2 & H2 & H).
  injection H as <-.
  rewrite <- (extend_frame _ _ _ _ k H1 Hci),
    <- (extend_frame _ _ _ _ k H2 Hec).
  destruct (negb _); [now rewrite lookup_insert_ne|reflexivity].
Qed.

(** The two list keys only grow at their end. *)
Lemma merge_context_appends (enriched enriched' : gmap string value)
    (context : Context) :
  merge_context enriched context = Returns enriched' ->
  Model.list_at enriched "constraints_inferred"
    `prefix_of` Model.list_at enriched' "constraints_inferred"
  /\ Model.list_at enriched "edge_cases"
       `prefix_of` Model.list_at enriched' "edge_cases".
Proof.
  unfold merge_context. intros H.
  apply bind_returns in H as (e1 & H1 & H).
  apply bind_returns in H as (e2 & H2 & H).
  injection H as <-.
  assert (forall k, k <> "examples" ->
            Model.list_at
              (if negb (length (_extract_examples_from_context context)
                        =? 0)%nat
               then <["examples" :=
                        VList (_extract_examples_from_context context)]> e2
               else e2) k
            = Model.list_at e2 k) as Hex.
  { intros k Hk. unfold Model.list_at.
    destruct (negb _); [now rewrite lookup_insert_ne|reflexivity]. }
  rewrite !Hex by discriminate.
  split.
  - unfold Model.list_at at 2.
    rewrite (extend_frame _ _ _ _ "constraints_inferred" H2)
      by discriminate.
    fold (Model.list_at e1 "constraints_inferred").
    rewrite (extend_appends _ _ _ _ H1). now apply prefix_app_r.
  - rewrite (extend_appends _ _ _ _ H2).
    unfold Model.list_at at 2.
    rewrite (extend_frame _ _ _ _ "edge_cases" H1) by discriminate.
    fold (Model.list_at enriched "edge_cases"). now apply prefix_app_r.
Qed.

(** [enrich_taskspec] either returns its argument or goes through
    [merge_context]. *)
Lemma enrich_taskspec_cases (store : list Decision)
    (taskspec taskspec' : gmap string value) (project_context : string) :
  enrich_taskspec store taskspec project_context = Returns taskspec' ->
  taskspec' = taskspec
  \/ exists context, merge_context taskspec context = Returns taskspec'.
Proof.
  unfold enrich_taskspec. intros H.
  destruct (negb (truthy _)).
  - left. now injection H as <-.
  - destruct (default (VStr "") (taskspec !! "goal")); try discriminate H.
    right. eauto.
Qed.

Lemma enrich_taskspec_frame (store : list Decision)
    (taskspec taskspec' : gmap string value) (project_context k : string) :
  enrich_taskspec store taskspec project_context = Returns taskspec' ->
  k <> "constraints_inferred" -> k <> "edge_cases" -> k <> "examples" ->
  taskspec' !! k = taskspec !! k.
Proof.
  intros H Hci Hec Hex.
  apply enrich_taskspec_cases in H as [-> | [context H]]; [reflexivity|].
  now apply (merge_context_frame _ _ context).
Qed.

Lemma enrich_taskspec_appends (store : list Decision)
    (taskspec taskspec' : gmap string value) (project_context : string) :
  enrich_taskspec store taskspec project_context = Returns taskspec' ->
  Model.list_at taskspec "constraints_inferred"
    `prefix_of` Model.list_at taskspec' "constraints_inferred"
  /\ Model.list_at taskspec "edge_cases"
       `prefix_of` Model.list_at taskspec' "edge_cases".
Proof.
  intros H.
  apply enrich_taskspec_cases in H as [-> | [context H]]; [done|].
  now apply (merge_context_appends _ _ context).
Qed.

End EnrichFacts.


(** ** The data model and the assembler *)

Module ModelFacts.
Import Model RAGPolicy RAGEnrichment SpecGenerator_score.

Lemma dict_goal (t : TaskSpec) : dict t !! "goal" = Some (VStr (goal t)).
Proof. reflexivity. Qed.

(** The constructor reads back what [dict] wrote. *)
Lemma of_dict_dict (t : TaskSpec) : of_dict (dict t) = Returns t.
Proof.
  destruct t as [g i o ce ci lp lf sg nc dp ts ec v oq r p c].
  destruct v; reflexivity.
Qed.

(** The three scores are levels. *)
Lemma risk_in_levels (a : AnalysisData) : In (_calculate_risk a) levels.
Proof.
  rewrite ScoreFacts.calculate_risk_refines. unfold ScoreSpec.risk_level.
  destruct (Z_le_dec 5 _); [|destruct (Z_le_dec 3 _)]; cbn; auto.
Qed.

Lemma priority_in_levels (a : AnalysisData) :
  In (_calculate_priority a) levels.
Proof.
  rewrite ScoreFacts.calculate_priority_refines.
  unfold ScoreSpec.priority_level.
  destruct (Z_le_dec 6 _); [|destruct (Z_le_dec 3 _)]; cbn; auto.
Qed.

Lemma cost_in_levels (a : AnalysisData) : In (_estimate_cost a) levels.
Proof.
  rewrite ScoreFacts.estimate_cost_refines. unfold ScoreSpec.cost_level.
  destruct (Z_lt_dec 10 _); [|destruct (Z_lt_dec 5 _)]; cbn; auto.
Qed.

(** Enrichment of a dictionary that [dict] produced returns, and the
    constructor accepts the result with the four fields as they
    were. *)
Lemma enrich_dict_returns (store : list Decision) (t : TaskSpec)
    (project_context : string) :
  exists d' t',
    enrich_taskspec store (dict t) project_context = Returns d'
    /\ of_dict d' = Returns t'
    /\ verbosity t' = verbosity t /\ risk t' = risk t
    /\ priority t' = priority t /\ estimated_cost t' = estimated_cost t.
Proof.
  unfold enrich_taskspec. rewrite dict_goal. cbn [default from_option id truthy].
  destruct (negb (negb (goal t =? "")%string)).
  - exists (dict t), t. now rewrite of_dict_dict.
  - unfold merge_context, extend.
    generalize (_extract_patterns_from_context
                  (retrieve_context store (goal t) "taskspec" 5)).
    generalize (_extract_edge_cases_from_context
                  (retrieve_context store (goal t) "taskspec" 5)).
    generalize (_extract_examples_from_context
                  (retrieve_context store (goal t) "taskspec" 5)).
    intros examples edge_cases patterns.
    destruct t as [g i o ce ci lp lf sg nc dp ts ec v oq r p c].
    destruct examples, edge_cases, patterns, v;
      eexists _, _; (split; [reflexivity|]); (split; [reflexivity|]);
      repeat split.
Qed.

Lemma apply_answer_keeps (t : TaskSpec) (qa : string * string) :
  verbosity (SpecGenerator.apply_answer t qa) = verbosity t
  /\ risk (SpecGenerator.apply_answer t qa) = risk t
  /\ priority (SpecGenerator.apply_answer t qa) = priority t
  /\ estimated_cost (SpecGenerator.apply_answer t qa) = estimated_cost t.
Proof.
  destruct qa as [question answer]. unfold SpecGenerator.apply_answer.
  repeat match goal with
         | |- context [if ?b then _ else _] => destruct b
         end; repeat split.
Qed.

Lemma enhance_keeps (answers : list (string * string)) (t : TaskSpec) :
  verbosity (SpecGenerator.enhance_taskspec_with_answers t answers)
  = verbosity t
  /\ risk (SpecGenerator.enhance_taskspec_with_answers t answers) = risk t
  /\ priority (SpecGenerator.enhance_taskspec_with_answers t answers)
     = priority t
  /\ estimated_cost (SpecGenerator.enhance_taskspec_with_answers t answers)
     = estimated_cost t.
Proof.
  unfold SpecGenerator.enhance_taskspec_with_answers. revert t.
  induction answers as [|qa answers IH]; intros t; [repeat split|].
  cbn [fold_left].
  destruct (IH (SpecGenerator.apply_answer t qa)) as (-> & -> & -> & ->).
  apply apply_answer_keeps.
Qed.

End ModelFacts.

Module PipelineClaims.
Import Model RAGPolicy RAGEnrichment SpecGenerator.

(** C4 (amended). Assembly from analysis signals always returns a
    TaskSpec whose verbosity is one of minimal, normal, verbose and
    whose risk, priority and estimated_cost are one of low, medium,
    high. Answer-merging and enrichment leave the four fields as they
    are in their input, so they are enumerated in the output whenever
    they are in the input. *)
Theorem enumerated_fields_kept :
  (forall (list_of_set : list string -> list string)
          (style_profile : StyleProfile) (store : list Decision)
          (analysis_data : AnalysisData),
     exists t,
       cluster_signals_to_taskspec list_of_set style_profile store
         analysis_data = Returns t
       /\ enumerated t)
  /\ (forall (t : TaskSpec) (answers : list (string * string)),
        verbosity (enhance_taskspec_with_answers t answers) = verbosity t
        /\ risk (enhance_taskspec_with_answers t answers) = risk t
        /\ priority (enhance_taskspec_with_answers t answers) = priority t
        /\ estimated_cost (enhance_taskspec_with_answers t answers)
           = estimated_cost t)
  /\ (forall (t : TaskSpec) (answers : list (string * string)),
        enumerated t -> enumerated (enhance_taskspec_with_answers t answers))
  /\ (forall (store : list Decision) (taskspec taskspec' : gmap string value)
             (project_context : string),
        enrich_taskspec store taskspec project_context = Returns taskspec' ->
        taskspec' !! "verbosity" = taskspec !! "verbosity"
        /\ taskspec' !! "risk" = taskspec !! "risk"
        /\ taskspec' !! "priority" = taskspec !! "priority"
        /\ taskspec' !! "estimated_cost" = taskspec !! "estimated_cost").
Proof.
  split; [|split; [|split]].
  - intros list_of_set style_profile store analysis_data.
    unfold cluster_signals_to_taskspec.
    destruct (issue_checks analysis_data) as [ci oq].
    match goal with
    | |- context [enrich_taskspec store (dict ?t) ?c] =>
        destruct (ModelFacts.enrich_dict_returns store t c)
          as (d' & t' & He & Ho & Hv & Hr & Hp & Hc);
        rewrite He
    end.
    exists t'. split; [exact Ho|].
    unfold enumerated. rewrite Hv, Hr, Hp, Hc.
    cbn [verbosity risk priority estimated_cost].
    split; [cbn; auto|].
    auto using ModelFacts.risk_in_levels, ModelFacts.priority_in_levels,
      ModelFacts.cost_in_levels.
  - intros t answers. apply ModelFacts.enhance_keeps.
  - intros t answers. unfold enumerated.
    destruct (ModelFacts.enhance_keeps answers t) as (-> & -> & -> & ->).
    trivial.
  - intros store taskspec taskspec' project_context H.
    repeat split;
      apply (EnrichFacts.enrich_taskspec_frame store _ _ project_context);
      solve [assumption | discriminate].
Qed.

(** The theorem at the TaskSpec of the answer-merging test and at a
    second enrichment of a stored dictionary. *)
Lemma enumerated_fields_kept_witness :
  enumerated
    (enhance_taskspec_with_answers Samples.bare_taskspec Samples.answers)
  /\ Samples.enriched_twice !! "risk" = Some (VStr "high").
Proof.
  destruct enumerated_fields_kept as (_ & _ & Hkeep & Henrich).
  split.
  - apply Hkeep. unfold enumerated. cbn. tauto.
  - assert (enrich_taskspec Samples.store Samples.enriched_once
              "current_project" = Returns Samples.enriched_twice) as E
      by (vm_compute; reflexivity).
    destruct (Henrich _ _ _ _ E) as (_ & -> & _). reflexivity.
Defined.

(** C4 as stated fails: the constructor accepts a request whose risk
    is "urgent", and answer-merging returns a TaskSpec whose risk is
    none of low, medium, high. *)
Lemma free_text_risk_counterexample :
  of_dict Samples.urgent_dict = Returns Samples.urgent_taskspec
  /\ ~ enumerated
         (enhance_taskspec_with_answers Samples.urgent_taskspec
            Samples.answers).
Proof.
  split; [reflexivity|].
  intros (_ & Hrisk & _). vm_compute in Hrisk.
  destruct Hrisk as [H | [H | [H | []]]]; discriminate H.
Qed.

(** C6. For every TaskSpec dictionary whose goal is empty, and every
    state of the store, enrichment returns the dictionary
    unchanged. *)
Theorem enrich_empty_goal_is_identity (store : list Decision)
    (taskspec : gmap string value) (project_context : string) :
  taskspec !! "goal" = Some (VStr "") ->
  enrich_taskspec store taskspec project_context = Returns taskspec.
Proof. intros H. unfold enrich_taskspec. now rewrite H. Qed.

Lemma enrich_empty_goal_witness :
  Samples.no_goal_dict !! "goal" = Some (VStr "")
  /\ enrich_taskspec Samples.store Samples.no_goal_dict "current_project"
     = Returns Samples.no_goal_dict.
Proof.
  split; [reflexivity|].
  apply enrich_empty_goal_is_identity. reflexivity.
Defined.

(** C7 fails on the code at the [examples] key. Enriching a dictionary
    that already carries examples replaces them: the old list is not a
    prefix of the new one, while the two other list keys grow at their
    end and every other key is kept. *)
Theorem enrich_replaces_examples :
  exists taskspec',
    enrich_taskspec Samples.store Samples.enriched_once "current_project"
    = Returns taskspec'
    /\ Samples.enriched_once !! "examples"
       = Some (VList ["Similar task: Read a CSV"])
    /\ taskspec' !! "examples"
       = Some (VList ["Similar task: Parse config files";
                      "Similar task: Parse log files"])
    /\ ~ list_at Samples.enriched_once "examples"
         `prefix_of` list_at taskspec' "examples"
    /\ list_at Samples.enriched_once "constraints_inferred"
         `prefix_of` list_at taskspec' "constraints_inferred"
    /\ list_at Samples.enriched_once "edge_cases"
         `prefix_of` list_at taskspec' "edge_cases"
    /\ taskspec' !! "goal" = Samples.enriched_once !! "goal".
Proof.
  exists Samples.enriched_twice.
  split; [vm_compute; reflexivity|].
  split; [reflexivity|]. split; [reflexivity|]. split.
  - intros [k Hk]. vm_compute in Hk. discriminate Hk.
  - split; [exists ["Pattern: Validate input"]; reflexivity|].
    split; [exists ["empty file"; "binary file"]; reflexivity|].
    reflexivity.
Qed.

End PipelineClaims.


(** ** Clarifying questions *)

Module QuestionFacts.
Import PyStr SpecGenerator QuestionSpec.

Lemma mem_In (x : string) (l : list string) : mem x l = true <-> In x l.
Proof.
  unfold mem. rewrite existsb_exists. split.
  - intros (y & Hy & E). apply String.eqb_eq in E. now subst.
  - intros H. exists x. split; [assumption|apply String.eqb_refl].
Qed.

Lemma is_empty_nil {A : Type} (l : list A) : is_empty l = true <-> l = [].
Proof. destruct l; cbn; split; congruence. Qed.

(** [s.split()] has one entry per word of [s]: as many entries as
    there are places where a word begins. *)
Lemma split_word_count (s : string) :
  length (split s) = word_count s.
Proof.
  unfold word_count.
  enough (length (split s) = count_words false s
          /\ forall c, is_space c = false ->
               length (split (String c s)) = S (count_words true s))
    as [H _] by exact H.
  induction s as [|c' s' [IHP IHQ]].
  - split; [reflexivity|]. intros c Hc. cbn. now rewrite Hc.
  - split.
    + destruct (is_space c') eqn:Hc'.
      * cbn [count_words]. rewrite Hc', <- IHP.
        cbn [split]. now rewrite Hc'.
      * cbn [count_words]. rewrite Hc'. now apply IHQ.
    + intros c Hc.
      change (split (String c (String c' s')))
        with (if is_space c then split (String c' s')
              else if is_space c'
                   then String c EmptyString :: split (String c' s')
                   else match split (String c' s') with
                        | w :: ws => String c w :: ws
                        | [] => [String c EmptyString]
                        end).
      rewrite Hc. cbn [count_words].
      destruct (is_space c') eqn:Hc'.
      * cbn [length]. f_equal. rewrite <- IHP.
        cbn [split]. now rewrite Hc'.
      * specialize (IHQ c' Hc').
        destruct (split (String c' s')) as [|w ws]; [discriminate IHQ|].
        exact IHQ.
Qed.

(** The seven tests of the code, as flags. *)
Lemma generate_selected (t : TaskSpec) :
  generate_clarifying_questions t =
  selected
    (is_empty (inputs t)) (is_empty (outputs t))
    (Z.of_nat (length (split (goal t))) <? 5)
    (String.eqb (testing_strategy t) "")
    (is_empty (constraints_explicit t)) (is_empty (edge_cases t))
    (is_empty (libraries_preferred t) && is_empty (libraries_forbidden t)).
Proof.
  unfold generate_clarifying_questions, selected, pick.
  rewrite orb_diag.
  destruct (is_empty (inputs t)), (is_empty (outputs t)),
    (Z.of_nat (length (split (goal t))) <? 5),
    (String.eqb (testing_strategy t) ""),
    (is_empty (constraints_explicit t)), (is_empty (edge_cases t)),
    (is_empty (libraries_preferred t) && is_empty (libraries_forbidden t));
    reflexivity.
Qed.

(** A question is selected exactly when its flag is set. *)
Lemma selected_mem (b1 b2 b3 b4 b5 b6 b7 : bool) :
  mem q_inputs (selected b1 b2 b3 b4 b5 b6 b7) = b1
  /\ mem q_outputs (selected b1 b2 b3 b4 b5 b6 b7) = b2
  /\ mem q_goal (selected b1 b2 b3 b4 b5 b6 b7) = b3
  /\ mem q_testing (selected b1 b2 b3 b4 b5 b6 b7) = b4
  /\ mem q_constraints (selected b1 b2 b3 b4 b5 b6 b7) = b5
  /\ mem q_edge_cases (selected b1 b2 b3 b4 b5 b6 b7) = b6
  /\ mem q_libraries (selected b1 b2 b3 b4 b5 b6 b7) = b7.
Proof.
  destruct b1, b2, b3, b4, b5, b6, b7; vm_compute; repeat split.
Qed.

(** Whatever the flags, the selected questions keep the documented
    order. *)
Lemma selected_sublist (b1 b2 b3 b4 b5 b6 b7 : bool) :
  selected b1 b2 b3 b4 b5 b6 b7 `sublist_of` all_questions.
Proof.
  unfold selected, all_questions, pick.
  destruct b1, b2, b3, b4, b5, b6, b7; cbn [app];
    repeat first [apply sublist_nil | apply sublist_skip | apply sublist_cons].
Qed.

End QuestionFacts.

Module QuestionClaims.
Import PyStr SpecGenerator QuestionSpec.

(** C8. On a TaskSpec with empty inputs, empty outputs, a goal of
    fewer than 5 words, empty testing_strategy, empty
    constraints_explicit, empty edge_cases and both library lists empty,
    [generate_clarifying_questions] returns exactly the 7 questions,
    one per condition; in particular on the TaskSpec with goal "Create a
    function". For every TaskSpec each question appears if and only if
    its condition holds, and the questions returned keep the order
    inputs, outputs, goal detail, testing, constraints, edge cases,
    libraries. Words are counted as the places of the goal where a
    run of non-whitespace characters begins: with the goal "Sort the
    records by date" (5 words) and nothing else filled in, the goal
    question is the one that is not asked; with four words set apart
    by blanks, a tab and a line feed, or with an empty goal, it is
    asked. *)
Theorem clarifying_questions_spec :
  (forall t : TaskSpec,
     inputs t = [] -> outputs t = [] -> goal_is_short t ->
     testing_strategy t = "" -> constraints_explicit t = [] ->
     edge_cases t = [] -> libraries_preferred t = [] ->
     libraries_forbidden t = [] ->
     generate_clarifying_questions t = all_questions
     /\ length (generate_clarifying_questions t) = 7%nat)
  /\ generate_clarifying_questions Samples.bare_taskspec = all_questions
  /\ (forall t : TaskSpec,
        (In q_inputs (generate_clarifying_questions t) <-> inputs t = [])
        /\ (In q_outputs (generate_clarifying_questions t)
            <-> outputs t = [])
        /\ (In q_goal (generate_clarifying_questions t) <-> goal_is_short t)
        /\ (In q_testing (generate_clarifying_questions t)
            <-> testing_strategy t = "")
        /\ (In q_constraints (generate_clarifying_questions t)
            <-> constraints_explicit t = [])
        /\ (In q_edge_cases (generate_clarifying_questions t)
            <-> edge_cases t = [])
        /\ (In q_libraries (generate_clarifying_questions t)
            <-> libraries_preferred t = [] /\ libraries_forbidden t = []))
  /\ (forall t : TaskSpec,
        generate_clarifying_questions t `sublist_of` all_questions)
  /\ word_count "Sort the records by date" = 5%nat
  /\ generate_clarifying_questions
       (Samples.bare_with_goal "Sort the records by date")
     = [q_inputs; q_outputs; q_testing; q_constraints; q_edge_cases;
        q_libraries]
  /\ word_count Samples.four_words = 4%nat
  /\ generate_clarifying_questions
       (Samples.bare_with_goal Samples.four_words)
     = all_questions
  /\ generate_clarifying_questions (Samples.bare_with_goal "")
     = all_questions.
Proof.
  split; [|split; [reflexivity|split; [|split]]].
  4: { repeat split; vm_compute; reflexivity. }
  - intros t Hi Ho Hg Hts Hce Hec Hlp Hlf.
    rewrite QuestionFacts.generate_selected, Hi, Ho, Hts, Hce, Hec, Hlp, Hlf.
    unfold goal_is_short in Hg.
    rewrite <- QuestionFacts.split_word_count in Hg.
    assert ((Z.of_nat (length (split (goal t))) <? 5) = true) as ->
      by (apply Z.ltb_lt; lia).
    split; reflexivity.
  - intros t. rewrite QuestionFacts.generate_selected.
    rewrite <- !QuestionFacts.mem_In.
    match goal with
    | |- context [selected ?b1 ?b2 ?b3 ?b4 ?b5 ?b6 ?b7] =>
        destruct (QuestionFacts.selected_mem b1 b2 b3 b4 b5 b6 b7)
          as (-> & -> & -> & -> & -> & -> & ->)
    end.
    rewrite !QuestionFacts.is_empty_nil, andb_true_iff,
      !QuestionFacts.is_empty_nil, String.eqb_eq, Z.ltb_lt.
    unfold goal_is_short. rewrite <- QuestionFacts.split_word_count.
    repeat split; try tauto; lia.
  - intros t. rewrite QuestionFacts.generate_selected.
    apply QuestionFacts.selected_sublist.
Qed.

(** The theorem at the TaskSpec of the test: goal "Create a function",
    nothing else filled in. *)
Lemma clarifying_questions_witness :
  generate_clarifying_questions Samples.bare_taskspec = all_questions
  /\ length (generate_clarifying_questions Samples.bare_taskspec) = 7%nat.
Proof.
  apply (proj1 clarifying_questions_spec Samples.bare_taskspec);
    try reflexivity.
  unfold goal_is_short. vm_compute. lia.
Defined.

End QuestionClaims.


(** * Further properties of the code *)

(** ** Retrieval: which records come back *)

Module RetrieveFacts.
Import PyStr RAGPolicy.





(** The loop keeps what it has and adds matching records, in the
    order of the store, until it holds [max_items] of them. *)
Lemma scan_take (q : string) (max_items : Z) (store acc : list Decision) :
  (Z.of_nat (length acc) < max_items) ->
  scan q max_items store acc
  = acc ++ take (Z.to_nat max_items - length acc)
             (List.filter (matches_query q) store).
Proof.
  revert acc. induction store as [|d store IH]; intros acc Hacc;
    cbn [scan List.filter].
  - now rewrite take_nil, app_nil_r.
  - destruct (matches_query q d).
    + rewrite length_app. cbn [length].
      rewrite Z.geb_leb.
      match goal with
      | |- context [?a <=? ?b] => destruct (Z.leb_spec a b) as [E|E]
      end.
      * replace (Z.to_nat max_items - length acc)%nat with 1%nat by lia.
        reflexivity.
      * rewrite IH by (rewrite length_app; cbn; lia).
        rewrite length_app. cbn [length].
        replace (Z.to_nat max_items - length acc)%nat
          with (S (Z.to_nat max_items - (length acc + 1)))%nat by lia.
        cbn [take]. now rewrite <- app_assoc.
    + now apply IH.
Qed.

(** With a bound of zero or less the loop stops at the first match. *)
Lemma scan_nonpositive (q : string) (max_items : Z) (store : list Decision) :
  max_items <= 0 ->
  scan q max_items store []
  = take 1 (List.filter (matches_query q) store).
Proof.
  intros Hmax. induction store as [|d store IH]; cbn [scan List.filter];
    [reflexivity|].
  destruct (matches_query q d); [|exact IH].
  cbn [app length]. rewrite Z.geb_leb.
  match goal with
  | |- context [?a <=? ?b] => destruct (Z.leb_spec a b); [reflexivity|lia]
  end.
Qed.

Lemma filter_none {A : Type} (f : A -> bool) (l : list A) :
  (forall x, In x l -> f x = false) -> List.filter f l = [].
Proof.
  induction l as [|x l IH]; intros H; cbn; [reflexivity|].
  rewrite (H x) by now left. apply IH. intros y Hy. apply H. now right.
Qed.

Lemma summarize_within (context : Context) (max_tokens : Z) :
  get_total_tokens context <= max_tokens ->
  summarize_overflow context max_tokens = context.
Proof.
  intros H. unfold summarize_overflow.
  now destruct (Z.leb_spec (get_total_tokens context) max_tokens); [|lia].
Qed.

(** Over the budget: the record [summarize_overflow] builds. *)
Lemma summarize_over (context : Context) (max_tokens : Z) :
  max_tokens < get_total_tokens context ->
  summarize_overflow context max_tokens
  = {| decisions :=
         if Z.of_nat (length (get_decisions context)) >? 2
         then Some (take 2 (get_decisions context))
         else decisions context;
       similar_items := similar_items context;
       total_tokens :=
         Some (RetrievalSpec.token_sum
                 (take 2 (get_decisions context)
                  ++ get_similar_items context)) |}.
Proof.
  intros H. unfold summarize_overflow.
  destruct (Z.leb_spec (get_total_tokens context) max_tokens); [lia|].
  rewrite RetrievalFacts.estimate_tokens_sum.
  destruct (Z.of_nat (length (get_decisions context)) >? 2) eqn:E.
  - reflexivity.
  - now rewrite (RetrievalFacts.firstn_short _ E).
Qed.

Lemma summarize_over_decisions (context : Context) (max_tokens : Z) :
  max_tokens < get_total_tokens context ->
  get_decisions (summarize_overflow context max_tokens)
  = take 2 (get_decisions context).
Proof.
  intros H. rewrite summarize_over by assumption.
  destruct (Z.of_nat (length (get_decisions context)) >? 2) eqn:E;
    [reflexivity|].
  unfold get_decisions at 1. cbn [decisions].
  fold (get_decisions context).
  now rewrite (RetrievalFacts.firstn_short _ E).
Qed.

(** [retrieve_context] with a positive bound. *)
Lemma retrieve_positive (store : list Decision)
    (query context_type : string) (max_items : Z) :
  1 <= max_items ->
  retrieve_context store query context_type max_items
  = {| decisions :=
         Some (take (Z.to_nat max_items)
                 (List.filter (matches_query (lower query)) store));
       similar_items := Some [];
       total_tokens :=
         Some (RetrievalSpec.token_sum
                 (take (Z.to_nat max_items)
                    (List.filter (matches_query (lower query)) store))) |}.
Proof.
  intros Hmax. unfold retrieve_context.
  rewrite scan_take by (cbn; lia).
  cbn [app length]. rewrite Nat.sub_0_r. f_equal.
  - f_equal. unfold slice_to.
    destruct (Z.ltb_spec max_items 0); [lia|].
    apply take_ge. rewrite length_take. lia.
  - rewrite app_nil_r. now rewrite RetrievalFacts.estimate_tokens_sum.
Qed.

(** [retrieve_context] with a bound of zero or less. *)
Lemma retrieve_nonpositive (store : list Decision)
    (query context_type : string) (max_items : Z) :
  max_items <= 0 ->
  retrieve_context store query context_type max_items
  = {| decisions := Some [];
       similar_items := Some [];
       total_tokens :=
         Some (RetrievalSpec.token_sum
                 (take 1 (List.filter (matches_query (lower query)) store)))
    |}.
Proof.
  intros Hmax. unfold retrieve_context.
  rewrite scan_nonpositive by assumption.
  rewrite app_nil_r, RetrievalFacts.estimate_tokens_sum.
  f_equal. f_equal. unfold slice_to.
  destruct (List.filter (matches_query (lower query)) store) as [|d l].
  - destruct (max_items <? 0); apply take_nil.
  - change (take 1 (d :: l)) with [d]. cbn [length].
    destruct (Z.ltb_spec max_items 0).
    + replace (Z.to_nat (Z.of_nat 1 + max_items)) with 0%nat by lia.
      reflexivity.
    + replace (Z.to_nat max_items) with 0%nat by lia. reflexivity.
Qed.

(** [retrieve_context] when nothing in the store matches. *)
Lemma retrieve_unmatched (store : list Decision)
    (query context_type : string) (max_items : Z) :
  (forall d keyword,
     In d store -> In keyword (split (lower query)) ->
     contains keyword (lower (spec_json (d_spec d))) = false) ->
  retrieve_context store query context_type max_items
  = {| decisions := Some []; similar_items := Some [];
       total_tokens := Some 0 |}.
Proof.
  intros Hno.
  assert (List.filter (matches_query (lower query)) store = []) as Hf.
  { apply filter_none. intros d Hd. unfold matches_query.
    destruct (existsb _ _) eqn:E; [|reflexivity].
    apply existsb_exists in E as (k & Hk & E).
    now rewrite (Hno d k Hd Hk) in E. }
  destruct (Z_le_gt_dec max_items 0) as [Hle | Hgt].
  - rewrite retrieve_nonpositive by assumption. now rewrite Hf.
  - rewrite retrieve_positive by lia. rewrite Hf. now rewrite take_nil.
Qed.

End RetrieveFacts.

Module RetrieveProps.
Import PyStr RAGPolicy.





(** X3. When no word of the lower-cased query occurs in the
    lower-cased text of any stored spec, the context is empty and its
    token estimate is 0, whatever [max_items] is. This covers the empty
    store and the query without words. *)
Theorem retrieve_no_match (store : list Decision)
    (query context_type : string) (max_items : Z) :
  (forall d keyword,
     In d store -> In keyword (split (lower query)) ->
     contains keyword (lower (spec_json (d_spec d))) = false) ->
  retrieve_context store query context_type max_items
  = {| decisions := Some []; similar_items := Some [];
       total_tokens := Some 0 |}.
Proof. apply RetrieveFacts.retrieve_unmatched. Qed.

Lemma retrieve_no_match_witness :
  retrieve_context Samples.store "   " "taskspec" 5
  = {| decisions := Some []; similar_items := Some [];
       total_tokens := Some 0 |}
  /\ retrieve_context [] "parse files" "taskspec" 5
     = {| decisions := Some []; similar_items := Some [];
          total_tokens := Some 0 |}.
Proof.
  split; apply retrieve_no_match; intros d keyword Hd Hk;
    solve [destruct Hk | destruct Hd].
Defined.

(** X4. [summarize_overflow] is idempotent: summarizing a summarized
    context with the same budget changes nothing. *)
Theorem summarize_overflow_idempotent (context : Context) (max_tokens : Z) :
  summarize_overflow (summarize_overflow context max_tokens) max_tokens
  = summarize_overflow context max_tokens.
Proof.
  destruct (Z_le_gt_dec (get_total_tokens context) max_tokens) as [H | H].
  - now rewrite !(RetrieveFacts.summarize_within _ _ H).
  - set (c1 := summarize_overflow context max_tokens).
    destruct (Z_le_gt_dec (get_total_tokens c1) max_tokens) as [H1 | H1];
      [now apply RetrieveFacts.summarize_within|].
    rewrite (RetrieveFacts.summarize_over c1) by lia.
    assert (get_decisions c1 = take 2 (get_decisions context)) as Hd
      by (apply RetrieveFacts.summarize_over_decisions; lia).
    assert ((Z.of_nat (length (get_decisions c1)) >? 2) = false) as ->.
    { rewrite Hd, length_take, Z.gtb_ltb. apply Z.ltb_ge. lia. }
    rewrite Hd, take_take, Nat.min_id. subst c1.
    rewrite (RetrieveFacts.summarize_over context) by lia.
    reflexivity.
Qed.



End RetrieveProps.


(** ** Enrichment: what is extracted from the retrieved decisions *)

Module ExtractFacts.
Import PyStr RAGPolicy RAGEnrichment Counts.

Lemma fold_left_concat {A B : Type} (f : A -> B -> A) (ls : list (list B))
    (acc : A) :
  fold_left (fun acc l => fold_left f l acc) ls acc
  = fold_left f (concat ls) acc.
Proof.
  revert acc. induction ls as [|l ls IH]; intros acc; cbn; [reflexivity|].
  now rewrite IH, fold_left_app.
Qed.

Lemma fold_left_map_inner {A B C : Type} (g : C -> list B)
    (f : A -> B -> A) (ds : list C) (acc : A) :
  fold_left (fun acc d => fold_left f (g d) acc) ds acc
  = fold_left f (concat (map g ds)) acc.
Proof.
  rewrite <- fold_left_concat. revert acc.
  induction ds as [|d ds IH]; intros acc; cbn; [reflexivity|]. apply IH.
Qed.

(** *** Edge cases *)

Lemma add_case_In (cases acc : list string) (x : string) :
  In x (fold_left
          (fun acc case => if mem case acc then acc else acc ++ [case])
          cases acc)
  <-> In x acc \/ In x cases.
Proof.
  revert acc. induction cases as [|c cases IH]; intros acc; cbn [fold_left].
  - cbn. tauto.
  - rewrite IH. destruct (mem c acc) eqn:E.
    + apply QuestionFacts.mem_In in E. cbn. split; [tauto|].
      intros [H | [<- | H]]; tauto.
    + rewrite in_app_iff. cbn. tauto.
Qed.

Lemma add_case_NoDup (cases acc : list string) :
  NoDup acc ->
  NoDup (fold_left
           (fun acc case => if mem case acc then acc else acc ++ [case])
           cases acc).
Proof.
  revert acc. induction cases as [|c cases IH]; intros acc Hacc;
    cbn [fold_left]; [assumption|].
  apply IH. destruct (mem c acc) eqn:E; [assumption|].
  apply NoDup_app. split; [assumption|]. split; [|apply NoDup_singleton].
  intros x Hx Hc. apply list_elem_of_singleton in Hc as ->.
  apply list_elem_of_In, QuestionFacts.mem_In in Hx. congruence.
Qed.

(** *** Patterns *)

Lemma counts_get_bump (c k : string) (counts : list (string * Z)) :
  counts_get k (bump c counts)
  = if String.eqb c k then counts_get k counts + 1 else counts_get k counts.
Proof.
  induction counts as [|[k' n] counts IH]; cbn.
  - destruct (String.eqb c k); reflexivity.
  - destruct (String.eqb_spec k' c) as [-> | Hne]; cbn.
    + destruct (String.eqb c k); reflexivity.
    + destruct (String.eqb_spec k' k) as [-> | Hk].
      * destruct (String.eqb_spec c k); [congruence|reflexivity].
      * exact IH.
Qed.

Lemma counts_get_fold (l : list string) (counts : list (string * Z))
    (k : string) :
  counts_get k (fold_left (fun counts c => bump c counts) l counts)
  = counts_get k counts + Z.of_nat (count_occ string_dec l k).
Proof.
  revert counts. induction l as [|c l IH]; intros counts; cbn [fold_left].
  - cbn. lia.
  - rewrite IH, counts_get_bump. cbn [count_occ].
    destruct (String.eqb_spec c k) as [-> | Hne].
    + destruct (string_dec k k); [lia|congruence].
    + destruct (string_dec c k); [congruence|lia].
Qed.

Lemma keys_bump (c : string) (counts : list (string * Z)) :
  map fst (bump c counts)
  = if mem c (map fst counts) then map fst counts
    else map fst counts ++ [c].
Proof.
  induction counts as [|[k n] counts IH]; cbn; [reflexivity|].
  destruct (String.eqb_spec k c) as [-> | Hne]; cbn.
  - now rewrite String.eqb_refl.
  - assert (String.eqb c k = false) as ->
      by (apply String.eqb_neq; congruence).
    cbn. rewrite IH. unfold mem.
    now destruct (existsb (String.eqb c) (map fst counts)).
Qed.

Lemma bump_positive (c : string) (counts : list (string * Z)) :
  Forall (fun kn => 0 < snd kn) counts ->
  Forall (fun kn => 0 < snd kn) (bump c counts).
Proof.
  induction counts as [|[k n] counts IH]; intros H; cbn.
  - repeat constructor.
  - apply Forall_cons in H as [Hn H]. cbn in Hn.
    destruct (String.eqb k c); constructor; cbn; auto; lia.
Qed.

Lemma bump_well_formed (c : string) (counts : list (string * Z)) :
  well_formed counts -> well_formed (bump c counts).
Proof.
  intros [Hk Hp]. split; [|now apply bump_positive].
  rewrite keys_bump. destruct (mem c (map fst counts)) eqn:E; [assumption|].
  apply NoDup_app. split; [assumption|]. split; [|apply NoDup_singleton].
  intros x Hx Hc. apply list_elem_of_singleton in Hc as ->.
  apply list_elem_of_In, QuestionFacts.mem_In in Hx. congruence.
Qed.

Lemma fold_bump_well_formed (l : list string) (counts : list (string * Z)) :
  well_formed counts ->
  well_formed (fold_left (fun counts c => bump c counts) l counts).
Proof.
  revert counts. induction l as [|c l IH]; intros counts H; cbn;
    [assumption|].
  apply IH. now apply bump_well_formed.
Qed.

(** In a well-formed dictionary an entry is what [get] reads. *)
Lemma counts_get_In (counts : list (string * Z)) (k : string) (n : Z) :
  well_formed counts ->
  In (k, n) counts <-> counts_get k counts = n /\ 0 < n.
Proof.
  intros [Hk Hp]. induction counts as [|[k' n'] counts IH]; cbn.
  - split; [tauto|lia].
  - cbn in Hk. apply NoDup_cons in Hk as [Hk' Hk].
    apply Forall_cons in Hp as [Hn' Hp]. cbn in Hn'.
    destruct (String.eqb_spec k' k) as [-> | Hne].
    + split.
      * intros [E | Hin];
          [injection E as <-; split; [reflexivity|assumption]|].
        exfalso. apply Hk'. apply list_elem_of_In.
        apply (in_map fst) in Hin. exact Hin.
      * intros [-> _]. now left.
    + rewrite <- (IH Hk Hp). split; [|tauto].
      intros [E | Hin]; [congruence|assumption].
Qed.

Lemma emit_patterns_In (counts : list (string * Z)) (acc : list string)
    (p : string) :
  In p (fold_left
          (fun patterns '(constraint, count) =>
             if count >=? 2 then patterns ++ ["Pattern: " +:+ constraint]
             else patterns)
          counts acc)
  <-> In p acc
      \/ exists c n, In (c, n) counts /\ 2 <= n /\ p = "Pattern: " +:+ c.
Proof.
  revert acc. induction counts as [|[k n] counts IH]; intros acc;
    cbn [fold_left].
  - split; [tauto|]. intros [H | (c & n & [] & _)]. exact H.
  - rewrite IH. rewrite Z.geb_leb.
    destruct (Z.leb_spec 2 n) as [Hn | Hn].
    + rewrite in_app_iff. cbn [In]. split.
      * intros [[H | [<- | []]] | (c & m & Hin & Hm & ->)].
        -- now left.
        -- right. exists k, n. repeat split; auto.
        -- right. exists c, m. repeat split; auto.
      * intros [H | (c & m & [E | Hin] & Hm & ->)].
        -- left. now left.
        -- injection E as -> ->. left. right. now left.
        -- right. exists c, m. repeat split; auto.
    + cbn [In]. split.
      * intros [H | (c & m & Hin & Hm & ->)].
        -- now left.
        -- right. exists c, m. repeat split; auto.
      * intros [H | (c & m & [E | Hin] & Hm & ->)].
        -- now left.
        -- injection E as -> ->. lia.
        -- right. exists c, m. repeat split; auto.
Qed.

Lemma pattern_inj (a b : string) :
  "Pattern: " +:+ a = "Pattern: " +:+ b -> a = b.
Proof. intros H. now injection H. Qed.

(** *** Examples *)

Lemma examples_fold (decisions : list Decision) (acc : list string) :
  fold_left
    (fun examples decision =>
       let goal := default "" (ds_goal (d_spec decision)) in
       if String.eqb goal "" then examples
       else examples ++ ["Similar task: " +:+ goal])
    decisions acc
  = acc ++ map (fun g => "Similar task: " +:+ g)
             (List.filter (fun g => negb (String.eqb g ""))
                (map (fun d => default "" (ds_goal (d_spec d))) decisions)).
Proof.
  revert acc. induction decisions as [|d ds IH]; intros acc; cbn.
  - now rewrite app_nil_r.
  - rewrite IH. destruct (String.eqb _ ""); cbn; [reflexivity|].
    now rewrite <- app_assoc.
Qed.

End ExtractFacts.

Module ExtractProps.
Import PyStr RAGPolicy RAGEnrichment Counts.

(** X6. A text "Pattern: c" is among the extracted patterns exactly
    when at least 2 decisions were retrieved and c occurs at least
    twice among all their inferred constraints, counted with
    repetition: two occurrences in one decision are enough. Every
    extracted pattern has that form. *)
Theorem extract_patterns_spec (context : Context) :
  (forall c,
     In ("Pattern: " +:+ c) (_extract_patterns_from_context context)
     <-> (2 <= length (get_decisions context))%nat
         /\ (2 <= count_occ string_dec
                    (all_constraints (get_decisions context)) c)%nat)
  /\ (forall p,
        In p (_extract_patterns_from_context context) ->
        exists c, p = "Pattern: " +:+ c).
Proof.
  unfold _extract_patterns_from_context.
  destruct (Z.ltb_spec (Z.of_nat (length (get_decisions context))) 2)
    as [Hlen | Hlen].
  - split.
    + intros c. cbn. split; [tauto|lia].
    + intros p [].
  - rewrite (ExtractFacts.fold_left_map_inner
               (fun d => default [] (ds_constraints_inferred (d_spec d)))
               (fun counts constraint => bump constraint counts)).
    fold (all_constraints (get_decisions context)).
    set (counts := fold_left _ (all_constraints _) []).
    assert (well_formed counts) as Hwf.
    { apply ExtractFacts.fold_bump_well_formed. split; constructor. }
    assert (forall k, counts_get k counts
              = Z.of_nat (count_occ string_dec
                            (all_constraints (get_decisions context)) k))
      as Hget.
    { intros k. unfold counts. now rewrite ExtractFacts.counts_get_fold. }
    split.
    + intros c. rewrite ExtractFacts.emit_patterns_In. split.
      * intros [[] | (c' & n & Hin & Hn & E)].
        apply ExtractFacts.pattern_inj in E as <-.
        apply (ExtractFacts.counts_get_In _ _ _ Hwf) in Hin as [Hc _].
        rewrite Hget in Hc. lia.
      * intros [_ Hc]. right.
        exists c, (counts_get c counts). split; [|split; [|reflexivity]].
        -- apply (ExtractFacts.counts_get_In _ _ _ Hwf).
           rewrite Hget. lia.
        -- rewrite Hget. lia.
    + intros p Hp.
      apply ExtractFacts.emit_patterns_In in Hp
        as [[] | (c & n & _ & _ & ->)]. eauto.
Qed.

Lemma extract_patterns_witness :
  In "Pattern: Validate input"
    (_extract_patterns_from_context Samples.context_large).
Proof.
  apply (proj1 (extract_patterns_spec Samples.context_large)).
  split; vm_compute; lia.
Defined.

(** X7. The extracted edge cases are at most 5, without repetition,
    and each of them is an edge case of a retrieved decision;
    conversely an edge case of a retrieved decision is extracted unless
    the cap of 5 is reached. *)
Theorem extract_edge_cases_spec (context : Context) :
  (length (_extract_edge_cases_from_context context) <= 5)%nat
  /\ NoDup (_extract_edge_cases_from_context context)
  /\ (forall x,
        In x (_extract_edge_cases_from_context context) ->
        In x (all_edge_cases (get_decisions context)))
  /\ (forall x,
        In x (all_edge_cases (get_decisions context)) ->
        In x (_extract_edge_cases_from_context context)
        \/ length (_extract_edge_cases_from_context context) = 5%nat).
Proof.
  unfold _extract_edge_cases_from_context.
  rewrite (ExtractFacts.fold_left_map_inner
             (fun d => default [] (ds_edge_cases (d_spec d)))
             (fun edge_cases case =>
                if mem case edge_cases then edge_cases
                else edge_cases ++ [case])).
  fold (all_edge_cases (get_decisions context)).
  set (full := fold_left _ (all_edge_cases _) []).
  change (slice_to 5 full) with (take 5 full).
  assert (NoDup full) as Hnd
    by (apply ExtractFacts.add_case_NoDup; constructor).
  assert (forall x, In x full
            <-> In x (all_edge_cases (get_decisions context))) as Hin.
  { intros x. unfold full. rewrite ExtractFacts.add_case_In. cbn. tauto. }
  split; [rewrite length_take; lia|].
  split; [eapply sublist_NoDup; [exact Hnd|apply sublist_take]|].
  split.
  - intros x Hx. apply Hin. apply list_elem_of_In.
    apply list_elem_of_In in Hx.
    eapply elem_of_sublist; [exact Hx|apply sublist_take].
  - intros x Hx. apply Hin in Hx.
    destruct (le_lt_dec (length full) 5) as [Hle | Hgt].
    + left. now rewrite take_ge.
    + right. rewrite length_take. lia.
Qed.

Lemma extract_edge_cases_witness :
  In "binary file" (all_edge_cases (get_decisions Samples.context_large)).
Proof.
  apply (proj1 (proj2 (proj2 (extract_edge_cases_spec
                                Samples.context_large)))).
  vm_compute. tauto.
Defined.

(** X8. The extracted examples are the texts "Similar task: g" for
    the non-empty goals g of the retrieved decisions, in their order,
    cut after the third. *)
Theorem extract_examples_spec (context : Context) :
  _extract_examples_from_context context
  = take 3
      (map (fun g => "Similar task: " +:+ g)
         (List.filter (fun g => negb (String.eqb g ""))
            (map (fun d => default "" (ds_goal (d_spec d)))
               (get_decisions context))))
  /\ (length (_extract_examples_from_context context) <= 3)%nat.
Proof.
  unfold _extract_examples_from_context.
  rewrite ExtractFacts.examples_fold. cbn [app].
  split; [reflexivity|].
  change (slice_to 3 ?l) with (take 3 l). rewrite length_take. lia.
Qed.

End ExtractProps.


(** ** Enrichment: what it returns and when it raises *)

Module EnrichMore.
Import PyStr RAGPolicy RAGEnrichment.

Lemma list_at_examples_step (e : gmap string value) (examples : list string)
    (k : string) :
  k <> "examples" ->
  Model.list_at
    (if negb (length examples =? 0)%nat
     then <["examples" := VList examples]> e else e) k
  = Model.list_at e k.
Proof.
  intros Hk. unfold Model.list_at.
  destruct (negb _); [now rewrite lookup_insert_ne|reflexivity].
Qed.

Lemma list_at_frame (e e' : gmap string value) (k : string) :
  e' !! k = e !! k -> Model.list_at e' k = Model.list_at e k.
Proof. unfold Model.list_at. now intros ->. Qed.

(** The result of the steps that follow retrieval, key by key. *)
Lemma merge_context_exact (enriched enriched' : gmap string value)
    (context : Context) :
  merge_context enriched context = Returns enriched' ->
  Model.list_at enriched' "constraints_inferred"
  = Model.list_at enriched "constraints_inferred"
    ++ _extract_patterns_from_context context
  /\ Model.list_at enriched' "edge_cases"
     = Model.list_at enriched "edge_cases"
       ++ _extract_edge_cases_from_context context
  /\ enriched' !! "examples"
     = match _extract_examples_from_context context with
       | [] => enriched !! "examples"
       | examples => Some (VList examples)
       end.
Proof.
  unfold merge_context. intros H.
  apply EnrichFacts.bind_returns in H as (e1 & H1 & H).
  apply EnrichFacts.bind_returns in H as (e2 & H2 & H).
  injection H as <-.
  rewrite !list_at_examples_step by discriminate.
  split; [|split].
  - rewrite (list_at_frame e1 e2)
      by (apply (EnrichFacts.extend_frame _ _ _ _ _ H2); discriminate).
    apply (EnrichFacts.extend_appends _ _ _ _ H1).
  - rewrite (EnrichFacts.extend_appends _ _ _ _ H2).
    now rewrite (list_at_frame enriched e1)
      by (apply (EnrichFacts.extend_frame _ _ _ _ _ H1); discriminate).
  - destruct (_extract_examples_from_context context) as [|x examples];
      cbn [length Nat.eqb negb].
    + rewrite (EnrichFacts.extend_frame _ _ _ _ "examples" H2)
        by discriminate.
      apply (EnrichFacts.extend_frame _ _ _ _ "examples" H1). discriminate.
    + apply lookup_insert_eq.
Qed.

(** A step returns when the value under its key is a list or
    missing. *)
Lemma extend_returns (enriched : gmap string value) (key : string)
    (more : list string) :
  (enriched !! key = None \/ exists l, enriched !! key = Some (VList l)) ->
  exists enriched', extend enriched key more = Returns enriched'.
Proof.
  intros H. unfold extend. destruct (negb _); [|eauto].
  destruct H as [-> | [l ->]]; cbn; eauto.
Qed.

Lemma extend_raises (enriched : gmap string value) (key : string)
    (more : list string) (e : exception) :
  extend enriched key more = Raises e ->
  e = TypeError /\ more <> []
  /\ exists v, enriched !! key = Some v /\ forall l, v <> VList l.
Proof.
  unfold extend. destruct more as [|x more]; cbn [length Nat.eqb negb];
    [discriminate|].
  destruct (enriched !! key) as [[s|l|z|]|]; cbn; intros H;
    try discriminate H; injection H as <-;
    (split; [reflexivity|]); (split; [discriminate|]);
    eexists; (split; [reflexivity|]); discriminate.
Qed.

Lemma bind_raises {A B : Type} (m : outcome A) (f : A -> outcome B)
    (e : exception) :
  m ≫= f = Raises e ->
  m = Raises e \/ exists a, m = Returns a /\ f a = Raises e.
Proof.
  destruct m as [a|e']; cbn; intros H.
  - right. exists a. split; [reflexivity|exact H].
  - left. now injection H as ->.
Qed.

End EnrichMore.

Module EnrichProps.
Import PyStr RAGPolicy RAGEnrichment.

(** X9. When [enrich_taskspec] returns for a dictionary with a
    non-empty text goal, the result has the extracted patterns
    appended to [constraints_inferred], the extracted edge cases
    appended to [edge_cases] (a missing key counting as the empty list),
    [examples] set to the extracted examples if there are any and left
    as it was otherwise, and every other key as in the input. *)
Theorem enrich_result (store : list Decision)
    (taskspec taskspec' : gmap string value) (project_context g : string) :
  taskspec !! "goal" = Some (VStr g) -> g <> "" ->
  enrich_taskspec store taskspec project_context = Returns taskspec' ->
  let context := retrieve_context store g "taskspec" 5 in
  Model.list_at taskspec' "constraints_inferred"
  = Model.list_at taskspec "constraints_inferred"
    ++ _extract_patterns_from_context context
  /\ Model.list_at taskspec' "edge_cases"
     = Model.list_at taskspec "edge_cases"
       ++ _extract_edge_cases_from_context context
  /\ taskspec' !! "examples"
     = match _extract_examples_from_context context with
       | [] => taskspec !! "examples"
       | examples => Some (VList examples)
       end
  /\ (forall k,
        k <> "constraints_inferred" -> k <> "edge_cases" ->
        k <> "examples" -> taskspec' !! k = taskspec !! k).
Proof.
  intros Hg Hne H context.
  assert (merge_context taskspec context = Returns taskspec') as Hm.
  { unfold enrich_taskspec in H. rewrite Hg in H.
    cbn [default from_option id truthy] in H.
    destruct (String.eqb_spec g "") as [-> | _]; [congruence|].
    exact H. }
  destruct (EnrichMore.merge_context_exact _ _ _ Hm) as (H1 & H2 & H3).
  repeat split; try assumption.
  intros k Hci Hec Hex.
  now apply (EnrichFacts.merge_context_frame _ _ context).
Qed.

Lemma enrich_result_witness :
  Model.list_at Samples.enriched_twice "edge_cases"
  = ["empty file"; "empty file"; "binary file"]
  /\ Samples.enriched_twice !! "risk" = Some (VStr "high").
Proof.
  assert (enrich_taskspec Samples.store Samples.enriched_once
            "current_project" = Returns Samples.enriched_twice) as E
    by (vm_compute; reflexivity).
  destruct (enrich_result Samples.store Samples.enriched_once
              Samples.enriched_twice "current_project" "parse files"
              eq_refl ltac:(discriminate) E) as (_ & H2 & _ & H4).
  split.
  - rewrite H2. vm_compute. reflexivity.
  - rewrite H4 by discriminate. reflexivity.
Defined.

(** X10. With a store of typed rows (each stored spec holding
    lists of texts, or nothing, under [constraints_inferred] and
    [edge_cases]), [enrich_taskspec] returns, without raising, on
    every dictionary whose goal is text or missing and whose
    [constraints_inferred] and [edge_cases] are lists or missing. *)
Theorem enrich_returns_on_typed (store : list Decision)
    (taskspec : gmap string value) (project_context : string) :
  (taskspec !! "goal" = None \/ exists g, taskspec !! "goal" = Some (VStr g)) ->
  (taskspec !! "constraints_inferred" = None
   \/ exists l, taskspec !! "constraints_inferred" = Some (VList l)) ->
  (taskspec !! "edge_cases" = None
   \/ exists l, taskspec !! "edge_cases" = Some (VList l)) ->
  exists taskspec',
    enrich_taskspec store taskspec project_context = Returns taskspec'.
Proof.
  intros Hg Hci Hec. unfold enrich_taskspec.
  destruct Hg as [-> | [g ->]]; cbn [default from_option id truthy];
    [cbn; eauto|].
  destruct (negb (negb (String.eqb g ""))); [eauto|].
  unfold merge_context.
  destruct (EnrichMore.extend_returns taskspec "constraints_inferred"
              (_extract_patterns_from_context
                 (retrieve_context store g "taskspec" 5)) Hci)
    as [e1 H1].
  rewrite H1. cbn [mbind outcome_bind].
  assert (e1 !! "edge_cases" = taskspec !! "edge_cases") as Hf
    by (apply (EnrichFacts.extend_frame _ _ _ _ _ H1); discriminate).
  rewrite <- Hf in Hec.
  destruct (EnrichMore.extend_returns e1 "edge_cases"
              (_extract_edge_cases_from_context
                 (retrieve_context store g "taskspec" 5)) Hec)
    as [e2 H2].
  rewrite H2. cbn. eauto.
Qed.

Lemma enrich_returns_on_typed_witness :
  exists taskspec',
    enrich_taskspec Samples.store Samples.enriched_once "current_project"
    = Returns taskspec'.
Proof.
  apply enrich_returns_on_typed.
  - right. exists "parse files". reflexivity.
  - right. exists ["Keep it small"]. reflexivity.
  - right. exists ["empty file"]. reflexivity.
Defined.

(** X11. With a store of typed rows, [enrich_taskspec] raises for
    two reasons only, both in the dictionary it is given: an
    [AttributeError] when the goal is a non-empty list or a non-zero
    number (it has no [lower]), and a [TypeError] when new patterns or
    edge cases were extracted and the value already under
    [constraints_inferred] or [edge_cases] is not a list. *)
Theorem enrich_raises_only (store : list Decision)
    (taskspec : gmap string value) (project_context : string)
    (e : exception) :
  enrich_taskspec store taskspec project_context = Raises e ->
  (e = AttributeError
   /\ exists v, taskspec !! "goal" = Some v /\ truthy v = true
                /\ forall g, v <> VStr g)
  \/ (e = TypeError
      /\ exists g k v,
           taskspec !! "goal" = Some (VStr g) /\ g <> ""
           /\ (k = "constraints_inferred" \/ k = "edge_cases")
           /\ taskspec !! k = Some v /\ forall l, v <> VList l).
Proof.
  unfold enrich_taskspec. intros H.
  destruct (taskspec !! "goal") as [v|] eqn:Hg;
    cbn [default from_option id] in H; [|discriminate H].
  destruct (truthy v) eqn:Hv; cbn [negb] in H; [|discriminate H].
  destruct v as [g|l|z|]; try discriminate Hv.
  - right.
    assert (g <> "") as Hne by (intros ->; discriminate Hv).
    unfold merge_context in H.
    apply EnrichMore.bind_raises in H as [H | (e1 & H1 & H)].
    + apply EnrichMore.extend_raises in H as (-> & _ & v & Hk & Hv').
      split; [reflexivity|].
      exists g, "constraints_inferred", v. auto.
    + apply EnrichMore.bind_raises in H as [H | (e2 & _ & H)];
        [|discriminate H].
      apply EnrichMore.extend_raises in H as (-> & _ & v & Hk & Hv').
      rewrite (EnrichFacts.extend_frame _ _ _ _ _ H1) in Hk
        by discriminate.
      split; [reflexivity|].
      exists g, "edge_cases", v. auto.
  - left. injection H as <-. split; [reflexivity|].
    exists (VList l). repeat split; try assumption. discriminate.
  - left. injection H as <-. split; [reflexivity|].
    exists (VNum z). repeat split; try assumption. discriminate.
Qed.

Lemma enrich_raises_only_witness :
  enrich_taskspec Samples.store
    (<["constraints_inferred" := VStr "keep it small"]> Samples.enriched_once)
    "current_project" = Raises TypeError
  /\ enrich_taskspec Samples.store
       (<["goal" := VNum 7]> Samples.enriched_once)
       "current_project" = Raises AttributeError.
Proof.
  split.
  - destruct (enrich_taskspec Samples.store
                (<["constraints_inferred" := VStr "keep it small"]>
                   Samples.enriched_once) "current_project")
      as [d|e] eqn:E; [vm_compute in E; discriminate E|].
    destruct (enrich_raises_only _ _ _ _ E) as [[-> _] | [-> _]];
      [vm_compute in E; discriminate E|reflexivity].
  - destruct (enrich_taskspec Samples.store
                (<["goal" := VNum 7]> Samples.enriched_once)
                "current_project")
      as [d|e] eqn:E; [vm_compute in E; discriminate E|].
    destruct (enrich_raises_only _ _ _ _ E) as [[-> _] | [-> _]];
      [reflexivity|vm_compute in E; discriminate E].
Defined.

(** X12. When no word of the goal occurs in any stored spec (in
    particular when the store is empty), [enrich_taskspec] returns the
    dictionary unchanged, whatever the other keys hold. *)
Theorem enrich_without_match (store : list Decision)
    (taskspec : gmap string value) (project_context g : string) :
  taskspec !! "goal" = Some (VStr g) ->
  (forall d keyword,
     In d store -> In keyword (split (lower g)) ->
     contains keyword (lower (spec_json (d_spec d))) = false) ->
  enrich_taskspec store taskspec project_context = Returns taskspec.
Proof.
  intros Hg Hno. unfold enrich_taskspec. rewrite Hg.
  cbn [default from_option id truthy].
  destruct (negb (negb (String.eqb g ""))); [reflexivity|].
  rewrite (RetrieveFacts.retrieve_unmatched store g "taskspec" 5 Hno).
  reflexivity.
Qed.

Lemma enrich_without_match_witness :
  enrich_taskspec [] Samples.enriched_once "current_project"
  = Returns Samples.enriched_once.
Proof.
  apply (enrich_without_match [] _ _ "parse files"); [reflexivity|].
  intros d keyword [].
Defined.

End EnrichProps.


(** ** Assembly: the TaskSpec that comes out *)

Module AssemblyFacts.
Import PyStr Signals Model RAGPolicy RAGEnrichment SpecGenerator_score
  SpecGenerator Assembly.

(** A dictionary written by [dict] with a non-empty goal is enriched
    without raising, and the constructor reads the result back as the
    TaskSpec with the extracted entries appended. *)
Lemma enrich_dict_exact (store : list Decision) (t : TaskSpec)
    (project_context : string) :
  goal t <> "" ->
  exists d',
    enrich_taskspec store (dict t) project_context = Returns d'
    /\ of_dict d'
       = Returns
           (enriched_by t
              (_extract_patterns_from_context
                 (retrieve_context store (goal t) "taskspec" 5))
              (_extract_edge_cases_from_context
                 (retrieve_context store (goal t) "taskspec" 5))).
Proof.
  intros Hg. unfold enrich_taskspec. rewrite ModelFacts.dict_goal.
  cbn [default from_option id truthy].
  destruct (String.eqb_spec (goal t) "") as [E | _]; [contradiction|].
  cbn [negb]. unfold merge_context, extend, enriched_by.
  generalize (_extract_patterns_from_context
                (retrieve_context store (goal t) "taskspec" 5)).
  generalize (_extract_edge_cases_from_context
                (retrieve_context store (goal t) "taskspec" 5)).
  generalize (_extract_examples_from_context
                (retrieve_context store (goal t) "taskspec" 5)).
  intros examples cases patterns.
  destruct t as [g i o ce ci lp lf sg nc dp ts ec v oq r p c].
  cbn [goal inputs outputs constraints_explicit constraints_inferred
       libraries_preferred libraries_forbidden style_guides
       naming_conventions design_patterns testing_strategy edge_cases
       verbosity open_questions risk priority estimated_cost].
  destruct examples, cases, patterns, v; rewrite ?app_nil_r;
    eexists; (split; [reflexivity|]); reflexivity.
Qed.

Lemma infer_goal_nonempty (a : AnalysisData) (filename : string) :
  _infer_goal_from_analysis a filename <> "".
Proof.
  unfold _infer_goal_from_analysis.
  destruct (negb _); discriminate.
Qed.

(** What [cluster_signals_to_taskspec] returns, field by field. *)
Lemma cluster_fields (list_of_set : list string -> list string)
    (style_profile : StyleProfile) (store : list Decision)
    (analysis_data : AnalysisData) :
  let path := default "" (filepath analysis_data) in
  let the_goal :=
    _infer_goal_from_analysis analysis_data (filename_of analysis_data) in
  let context := retrieve_context store the_goal "taskspec" 5 in
  let parsed :=
    if String.eqb (default "" (prompt analysis_data)) ""
    then {| pc_constraints_explicit := []; pc_libraries_forbidden := [];
            pc_libraries_preferred := [] |}
    else SpecGenerator_parse.parse_explicit_constraints
           (default "" (prompt analysis_data)) in
  exists t,
    cluster_signals_to_taskspec list_of_set style_profile store
      analysis_data = Returns t
    /\ goal t = the_goal
    /\ inputs t = (if String.eqb path "" then [] else [path])
    /\ outputs t = []
    /\ constraints_explicit t = pc_constraints_explicit parsed
    /\ constraints_inferred t
       = fst (issue_checks analysis_data)
         ++ map (fun guide => "Follow " +:+ guide)
              (default [] (sp_style_guides style_profile))
         ++ _extract_patterns_from_context context
    /\ libraries_preferred t
       = list_of_set (pc_libraries_preferred parsed
                      ++ default [] (sp_libraries_preferred style_profile))
    /\ libraries_forbidden t
       = list_of_set (pc_libraries_forbidden parsed
                      ++ default [] (sp_libraries_forbidden style_profile))
    /\ style_guides t = default [] (sp_style_guides style_profile)
    /\ naming_conventions t
       = default [] (sp_naming_conventions style_profile)
    /\ design_patterns t = default [] (sp_design_patterns style_profile)
    /\ testing_strategy t = default "" (sp_testing_strategy style_profile)
    /\ edge_cases t = _extract_edge_cases_from_context context
    /\ verbosity t = Normal
    /\ open_questions t = snd (issue_checks analysis_data)
    /\ risk t = _calculate_risk analysis_data
    /\ priority t = _calculate_priority analysis_data
    /\ estimated_cost t = _estimate_cost analysis_data.
Proof.
  intros path the_goal context parsed.
  unfold cluster_signals_to_taskspec.
  fold path. fold (filename_of analysis_data). fold the_goal. fold parsed.
  destruct (issue_checks analysis_data) as [ci oq].
  match goal with
  | |- context [enrich_taskspec store (dict ?t) ?c] =>
      destruct (enrich_dict_exact store t c) as (d' & He & Ho);
        [apply infer_goal_nonempty|];
      rewrite He
  end.
  eexists. split; [exact Ho|].
  unfold enriched_by.
  cbn [goal inputs outputs constraints_explicit constraints_inferred
       libraries_preferred libraries_forbidden style_guides
       naming_conventions design_patterns testing_strategy edge_cases
       verbosity open_questions risk priority estimated_cost fst snd app].
  fold context. rewrite <- app_assoc. repeat split.
Qed.

End AssemblyFacts.

Module AssemblyProps.
Import PyStr Signals Model RAGPolicy RAGEnrichment SpecGenerator_score
  SpecGenerator Assembly.


(** X14. On every assembled TaskSpec [generate_clarifying_questions]
    asks for the outputs; it asks for the inputs exactly when the
    analysis data has no file path or an empty one; and it asks for a
    testing approach exactly when the style profile has no testing
    strategy or an empty one. *)
Theorem questions_on_assembled (list_of_set : list string -> list string)
    (style_profile : StyleProfile) (store : list Decision)
    (analysis_data : AnalysisData) (t : TaskSpec) :
  cluster_signals_to_taskspec list_of_set style_profile store analysis_data
  = Returns t ->
  In q_outputs (generate_clarifying_questions t)
  /\ (In q_inputs (generate_clarifying_questions t)
      <-> default "" (filepath analysis_data) = "")
  /\ (In q_testing (generate_clarifying_questions t)
      <-> default "" (sp_testing_strategy style_profile) = "").
Proof.
  intros H.
  destruct (AssemblyFacts.cluster_fields list_of_set style_profile store
              analysis_data)
    as (t' & H' & _ & Hi & Ho & _ & _ & _ & _ & _ & _ & _ & Hts & _).
  rewrite H in H'. injection H' as <-.
  rewrite QuestionFacts.generate_selected.
  rewrite <- !QuestionFacts.mem_In.
  match goal with
  | |- context [QuestionSpec.selected ?b1 ?b2 ?b3 ?b4 ?b5 ?b6 ?b7] =>
      destruct (QuestionFacts.selected_mem b1 b2 b3 b4 b5 b6 b7)
        as (-> & -> & _ & -> & _)
  end.
  rewrite Ho, Hi, Hts. split; [reflexivity|]. split.
  - destruct (String.eqb_spec (default "" (filepath analysis_data)) "");
      cbn; split; congruence.
  - apply String.eqb_eq.
Qed.

Lemma questions_on_assembled_witness :
  match cluster_signals_to_taskspec (fun l => l) _get_default_style_profile
          Samples.store (mk_signals 0 10 1 0) with
  | Returns t =>
      In q_outputs (generate_clarifying_questions t)
      /\ In q_inputs (generate_clarifying_questions t)
  | Raises _ => False
  end.
Proof.
  destruct (cluster_signals_to_taskspec (fun l => l)
              _get_default_style_profile Samples.store
              (mk_signals 0 10 1 0)) as [t|e] eqn:E;
    [|vm_compute in E; discriminate E].
  destruct (questions_on_assembled _ _ _ _ _ E) as (Ho & Hi & _).
  split; [exact Ho|]. apply Hi. reflexivity.
Defined.

End AssemblyProps.


(** ** Assembly: issues, goal and scores agree *)

Module IssueProps.
Import PyStr Signals SpecGenerator_score SpecGenerator.

(** X15. The four issue checks yield as many inferred constraints
    as open questions, at most 4; there is no open question exactly when
    the goal is "Maintain code quality in <file>"; and a risk or a
    priority other than "low" always comes with at least one open
    question. The estimated cost carries no such guarantee. *)
Theorem issues_goal_scores_agree (a : AnalysisData) (filename : string) :
  length (fst (issue_checks a)) = length (snd (issue_checks a))
  /\ (length (snd (issue_checks a)) <= 4)%nat
  /\ (snd (issue_checks a) = []
      <-> _infer_goal_from_analysis a filename
          = "Maintain code quality in " +:+ filename)
  /\ (_calculate_risk a <> "low" -> snd (issue_checks a) <> [])
  /\ (_calculate_priority a <> "low" -> snd (issue_checks a) <> [])
  /\ _estimate_cost (mk_signals 2 50 1 0) = "medium"
  /\ snd (issue_checks (mk_signals 2 50 1 0)) = [].
Proof.
  rewrite ScoreFacts.calculate_risk_refines,
    ScoreFacts.calculate_priority_refines.
  unfold issue_checks, _infer_goal_from_analysis, ScoreSpec.risk_level,
    ScoreSpec.risk_score, ScoreSpec.risk_complexity_points,
    ScoreSpec.risk_coverage_points, ScoreSpec.risk_todo_points,
    ScoreSpec.priority_level, ScoreSpec.priority_score.
  rewrite !CompareFacts.Qltb_half.
  rewrite !CompareFacts.Qgtb_dec, !CompareFacts.Qltb_dec,
    !CompareFacts.Zgtb_dec.
  destruct (Z_lt_dec 3 (get_duplication a)) as [D3 | D3];
    destruct (Qlt_le_dec 50 (get_complexity_score a)) as [C50 | C50];
    destruct (Qlt_le_dec (get_test_coverage_ratio a) (1 # 2)) as [T5 | T5];
    destruct (Z_lt_dec 2 (get_todos a)) as [O2 | O2];
    cbn [fst snd app length negb Nat.eqb];
    (split; [reflexivity|]); (split; [lia|]);
    (split; [split; intros H; discriminate H || reflexivity|]);
    try (split; [discriminate|]; split; [discriminate|];
         split; reflexivity).
  split; [|split; [|split; reflexivity]]; intros H _; apply H; clear H.
  - destruct (Qlt_le_dec 100 (get_complexity_score a)); [exfalso; lra|].
    destruct (Qlt_le_dec (get_test_coverage_ratio a) (3 # 10));
      [exfalso; lra|].
    destruct (Z_lt_dec 5 (get_todos a)); [exfalso; lia|]. reflexivity.
  - destruct (Z_lt_dec 10 (get_duplication a)); [exfalso; lia|].
    destruct (Qlt_le_dec 100 (get_complexity_score a)); [exfalso; lra|].
    destruct (Qlt_le_dec (get_test_coverage_ratio a) (2 # 10));
      [exfalso; lra|].
    destruct (Z_lt_dec 5 (get_duplication a)); [exfalso; lia|].
    reflexivity.
Qed.

Lemma issues_goal_scores_agree_witness :
  _calculate_risk (mk_signals 0 60 (4 # 10) 0) <> "low"
  /\ snd (issue_checks (mk_signals 0 60 (4 # 10) 0)) <> [].
Proof.
  assert (_calculate_risk (mk_signals 0 60 (4 # 10) 0) <> "low") as H
    by (vm_compute; discriminate).
  split; [exact H|].
  destruct (issues_goal_scores_agree (mk_signals 0 60 (4 # 10) 0) "f.py")
    as (_ & _ & _ & Hr & _).
  exact (Hr H).
Defined.

End IssueProps.


(** ** Answer merging *)

Module EnhanceFacts.
Import PyStr SpecGenerator.

Lemma split_on_nonempty (sep : ascii) (s : string) : split_on sep s <> [].
Proof.
  induction s as [|c s IH]; cbn; [discriminate|].
  destruct (Ascii.eqb c sep); [discriminate|].
  destruct (split_on sep s); [contradiction|discriminate].
Qed.

(** An answer always yields at least one item: the empty answer
    yields the one empty item. *)
Lemma split_items_nonempty (answer : string) : split_items answer <> [].
Proof.
  unfold split_items. pose proof (split_on_nonempty "," answer) as H.
  destruct (split_on "," answer); [contradiction|discriminate].
Qed.

Lemma is_empty_split_items (answer : string) :
  is_empty (split_items answer) = false.
Proof.
  pose proof (split_items_nonempty answer) as H.
  now destruct (split_items answer).
Qed.

Lemma is_empty_snoc {A : Type} (l : list A) (x : A) :
  is_empty (l ++ [x]) = false.
Proof. now destruct l. Qed.

(** Which questions are asked, as flags of the TaskSpec. *)
Lemma asked_flags (t : TaskSpec) :
  mem q_inputs (generate_clarifying_questions t) = is_empty (inputs t)
  /\ mem q_outputs (generate_clarifying_questions t) = is_empty (outputs t)
  /\ mem q_testing (generate_clarifying_questions t)
     = String.eqb (testing_strategy t) ""
  /\ mem q_constraints (generate_clarifying_questions t)
     = is_empty (constraints_explicit t)
  /\ mem q_edge_cases (generate_clarifying_questions t)
     = is_empty (edge_cases t)
  /\ mem q_libraries (generate_clarifying_questions t)
     = is_empty (libraries_preferred t) && is_empty (libraries_forbidden t).
Proof.
  rewrite QuestionFacts.generate_selected.
  match goal with
  | |- context [QuestionSpec.selected ?b1 ?b2 ?b3 ?b4 ?b5 ?b6 ?b7] =>
      destruct (QuestionFacts.selected_mem b1 b2 b3 b4 b5 b6 b7)
        as (-> & -> & _ & -> & -> & -> & ->)
  end.
  repeat split.
Qed.

Lemma not_asked (q : string) (t : TaskSpec) :
  mem q (generate_clarifying_questions t) = false ->
  ~ In q (generate_clarifying_questions t).
Proof. intros H Hin. apply QuestionFacts.mem_In in Hin. congruence. Qed.

(** The branch each of the seven questions takes. *)
Lemma answer_inputs (t : TaskSpec) (a : string) :
  apply_answer t (q_inputs, a) = set_inputs t (split_items a).
Proof. reflexivity. Qed.

Lemma answer_outputs (t : TaskSpec) (a : string) :
  apply_answer t (q_outputs, a) = set_outputs t (split_items a).
Proof. reflexivity. Qed.

Lemma answer_goal (t : TaskSpec) (a : string) :
  apply_answer t (q_goal, a) = t.
Proof. reflexivity. Qed.

Lemma answer_testing (t : TaskSpec) (a : string) :
  apply_answer t (q_testing, a) = set_testing_strategy t a.
Proof. reflexivity. Qed.

Lemma answer_constraints (t : TaskSpec) (a : string) :
  apply_answer t (q_constraints, a)
  = set_constraints_explicit t (constraints_explicit t ++ [a]).
Proof. reflexivity. Qed.

Lemma answer_edge_cases (t : TaskSpec) (a : string) :
  apply_answer t (q_edge_cases, a) = set_edge_cases t (split_items a).
Proof. reflexivity. Qed.

Lemma answer_libraries (t : TaskSpec) (a : string) :
  apply_answer t (q_libraries, a)
  = set_libraries_preferred t (split_items a).
Proof. reflexivity. Qed.

(** One answer leaves six fields alone and lets the explicit
    constraints grow at the end only. *)
Lemma apply_answer_frame (t : TaskSpec) (qa : string * string) :
  goal (apply_answer t qa) = goal t
  /\ constraints_inferred (apply_answer t qa) = constraints_inferred t
  /\ style_guides (apply_answer t qa) = style_guides t
  /\ naming_conventions (apply_answer t qa) = naming_conventions t
  /\ design_patterns (apply_answer t qa) = design_patterns t
  /\ open_questions (apply_answer t qa) = open_questions t
  /\ constraints_explicit t `prefix_of` constraints_explicit (apply_answer t qa).
Proof.
  destruct qa as [question answer]. unfold apply_answer.
  repeat match goal with
         | |- context [if ?b then _ else _] => destruct b
         end; repeat split; try reflexivity; apply prefix_app_r; reflexivity.
Qed.

Lemma apply_answer_unmatched (t : TaskSpec) (qa : string * string) :
  Forall (fun keyword => contains keyword (lower (fst qa)) = false)
    ["inputs"; "outputs"; "testing"; "requirements"; "constraints";
     "edge cases"; "libraries"] ->
  apply_answer t qa = t.
Proof.
  destruct qa as [question answer]. cbn [fst]. intros H.
  repeat (apply Forall_cons in H as [? H]).
  unfold apply_answer.
  repeat match goal with
         | E : contains ?k ?q = false |- _ => rewrite E; clear E
         end.
  reflexivity.
Qed.

End EnhanceFacts.

Module EnhanceProps.
Import PyStr SpecGenerator.

(** X16. Answering one of the generator's own questions, for every
    TaskSpec and every answer text: after an answer to the inputs,
    outputs or edge-cases question that question is not asked again,
    even for an empty answer (it becomes the one-item list); an answer
    to the constraints question is appended and the question is not
    asked again; an answer to the libraries question fills
    [libraries_preferred] and never [libraries_forbidden]; the testing
    question is asked again exactly when the answer is empty; and an
    answer to the goal question is discarded. *)
Theorem answering_own_questions (t : TaskSpec) (a : string) :
  ~ In q_inputs
      (generate_clarifying_questions
         (enhance_taskspec_with_answers t [(q_inputs, a)]))
  /\ ~ In q_outputs
         (generate_clarifying_questions
            (enhance_taskspec_with_answers t [(q_outputs, a)]))
  /\ ~ In q_edge_cases
         (generate_clarifying_questions
            (enhance_taskspec_with_answers t [(q_edge_cases, a)]))
  /\ (constraints_explicit
        (enhance_taskspec_with_answers t [(q_constraints, a)])
      = constraints_explicit t ++ [a]
      /\ ~ In q_constraints
             (generate_clarifying_questions
                (enhance_taskspec_with_answers t [(q_constraints, a)])))
  /\ (libraries_preferred
        (enhance_taskspec_with_answers t [(q_libraries, a)])
      = split_items a
      /\ libraries_forbidden
           (enhance_taskspec_with_answers t [(q_libraries, a)])
         = libraries_forbidden t
      /\ ~ In q_libraries
             (generate_clarifying_questions
                (enhance_taskspec_with_answers t [(q_libraries, a)])))
  /\ (In q_testing
        (generate_clarifying_questions
           (enhance_taskspec_with_answers t [(q_testing, a)]))
      <-> a = "")
  /\ enhance_taskspec_with_answers t [(q_goal, a)] = t.
Proof.
  unfold enhance_taskspec_with_answers. cbn [fold_left].
  rewrite EnhanceFacts.answer_inputs, EnhanceFacts.answer_outputs,
    EnhanceFacts.answer_edge_cases, EnhanceFacts.answer_constraints,
    EnhanceFacts.answer_libraries, EnhanceFacts.answer_testing,
    EnhanceFacts.answer_goal.
  split; [|split; [|split; [|split; [|split; [|split]]]]].
  - apply EnhanceFacts.not_asked.
    destruct (EnhanceFacts.asked_flags (set_inputs t (split_items a)))
      as (-> & _).
    apply EnhanceFacts.is_empty_split_items.
  - apply EnhanceFacts.not_asked.
    destruct (EnhanceFacts.asked_flags (set_outputs t (split_items a)))
      as (_ & -> & _).
    apply EnhanceFacts.is_empty_split_items.
  - apply EnhanceFacts.not_asked.
    destruct (EnhanceFacts.asked_flags (set_edge_cases t (split_items a)))
      as (_ & _ & _ & _ & -> & _).
    apply EnhanceFacts.is_empty_split_items.
  - split; [reflexivity|]. apply EnhanceFacts.not_asked.
    destruct (EnhanceFacts.asked_flags
                (set_constraints_explicit t (constraints_explicit t ++ [a])))
      as (_ & _ & _ & -> & _).
    apply EnhanceFacts.is_empty_snoc.
  - split; [reflexivity|]. split; [reflexivity|].
    apply EnhanceFacts.not_asked.
    destruct (EnhanceFacts.asked_flags
                (set_libraries_preferred t (split_items a)))
      as (_ & _ & _ & _ & _ & ->).
    cbn [libraries_preferred set_libraries_preferred].
    now rewrite EnhanceFacts.is_empty_split_items.
  - rewrite <- QuestionFacts.mem_In.
    destruct (EnhanceFacts.asked_flags (set_testing_strategy t a))
      as (_ & _ & -> & _).
    apply String.eqb_eq.
  - reflexivity.
Qed.

Lemma answering_own_questions_witness :
  In q_testing
    (generate_clarifying_questions
       (enhance_taskspec_with_answers Samples.urgent_taskspec
          [(q_testing, "")])).
Proof.
  destruct (answering_own_questions Samples.urgent_taskspec "")
    as (_ & _ & _ & _ & _ & Ht & _).
  now apply Ht.
Defined.

(** X17. Whatever the answers, answer merging leaves [goal],
    [constraints_inferred], [style_guides], [naming_conventions],
    [design_patterns] and [open_questions] as they are, and
    [constraints_explicit] only grows at its end. *)
Theorem enhance_frame (t : TaskSpec) (answers : list (string * string)) :
  goal (enhance_taskspec_with_answers t answers) = goal t
  /\ constraints_inferred (enhance_taskspec_with_answers t answers)
     = constraints_inferred t
  /\ style_guides (enhance_taskspec_with_answers t answers) = style_guides t
  /\ naming_conventions (enhance_taskspec_with_answers t answers)
     = naming_conventions t
  /\ design_patterns (enhance_taskspec_with_answers t answers)
     = design_patterns t
  /\ open_questions (enhance_taskspec_with_answers t answers)
     = open_questions t
  /\ constraints_explicit t
       `prefix_of` constraints_explicit
                     (enhance_taskspec_with_answers t answers).
Proof.
  unfold enhance_taskspec_with_answers. revert t.
  induction answers as [|qa answers IH]; intros t.
  { cbn [fold_left]. repeat split. exists []. now rewrite app_nil_r. }
  cbn [fold_left].
  destruct (IH (apply_answer t qa)) as (-> & -> & -> & -> & -> & -> & Hp).
  destruct (EnhanceFacts.apply_answer_frame t qa)
    as (-> & -> & -> & -> & -> & -> & Hq).
  repeat split. now transitivity (constraints_explicit (apply_answer t qa)).
Qed.

(** X18. Answers whose questions contain none of the words inputs,
    outputs, testing, requirements, constraints, edge cases and
    libraries (in any letter case) are ignored: the TaskSpec comes back
    unchanged, and nothing is raised. *)
Theorem enhance_ignores_unmatched (t : TaskSpec)
    (answers : list (string * string)) :
  Forall
    (fun qa =>
       Forall (fun keyword => contains keyword (lower (fst qa)) = false)
         ["inputs"; "outputs"; "testing"; "requirements"; "constraints";
          "edge cases"; "libraries"])
    answers ->
  enhance_taskspec_with_answers t answers = t.
Proof.
  unfold enhance_taskspec_with_answers. revert t.
  induction answers as [|qa answers IH]; intros t H; [reflexivity|].
  apply Forall_cons in H as [Hqa H]. cbn [fold_left].
  rewrite (EnhanceFacts.apply_answer_unmatched t qa Hqa). now apply IH.
Qed.

Lemma enhance_ignores_unmatched_witness :
  enhance_taskspec_with_answers Samples.bare_taskspec
    [("Which language?", "Python"); (q_goal, "Sort a list of records")]
  = Samples.bare_taskspec.
Proof.
  apply enhance_ignores_unmatched.
  repeat constructor.
Defined.

End EnhanceProps.


(** ** The constraint parser: what the lists can hold *)

Module CaptureFacts.
Import PyStr Re SpecGenerator_parse Patterns ReFacts.

(** A pattern that ends in the token group captures a non-empty run
    of token characters that stands in the subject right before the
    unread rest. *)
Lemma token_last_capture (r : regex) :
  token_last r ->
  forall (s : string) (cap : option string) (c rest : string),
    run r s cap (fun rest cap => Some (default EmptyString cap, rest))
    = Some (c, rest) ->
    c <> "" /\ all_chars is_token_char c = true
    /\ exists pre, s = pre +:+ (c +:+ rest).
Proof.
  induction 1 as [|r1 r2 _ IH]; intros s cap c rest H.
  - unfold token in H. cbn [run] in H.
    apply plus_result in H as (a & s' & -> & Hne & Ha & Hk).
    cbv beta in Hk. rewrite ReFacts.consumed_app in Hk.
    injection Hk as <- <-. repeat split; auto. now exists "".
  - cbn [run] in H.
    apply run_result in H as (a & s' & cap' & -> & H).
    apply IH in H as (Hne & Hc & pre & ->).
    repeat split; auto. exists (a +:+ pre). now rewrite app_assoc_str.
Qed.

Lemma contains_app (c pre post : string) :
  contains c (pre +:+ (c +:+ post)) = true.
Proof.
  assert (forall c post, startswith c (c +:+ post) = true) as Hs.
  { clear. induction c as [|x c IH]; intros post; [reflexivity|].
    rewrite StrFacts.app_cons. cbn. now rewrite Ascii.eqb_refl, IH. }
  assert (forall c s, startswith c s = true -> contains c s = true) as Hc.
  { clear. intros c s H. destruct s; cbn [contains]; now rewrite H. }
  induction pre as [|x pre IH].
  - rewrite StrFacts.app_nil. apply Hc, Hs.
  - rewrite StrFacts.app_cons. cbn [contains]. rewrite IH.
    apply orb_true_r.
Qed.

(** Every group [findall] returns was captured at a suffix of the
    subject. *)
Lemma findall_from_In (r : regex) (fuel : nat) (s c : string) :
  In c (findall_from fuel r s) ->
  exists pre s' rest, s = pre +:+ s' /\ match_at r s' = Some (c, rest).
Proof.
  revert s. induction fuel as [|fuel IH]; intros s H; [destruct H|].
  cbn [findall_from] in H.
  assert (forall x s0, s = String x s0 -> In c (findall_from fuel r s0) ->
          exists pre s' rest,
            s = pre +:+ s' /\ match_at r s' = Some (c, rest)) as Htail.
  { intros x s0 -> Hin. apply IH in Hin as (pre & s' & rest & -> & Hm).
    exists (String x pre), s', rest. auto. }
  destruct (match_at r s) as [[cap rest]|] eqn:E.
  - assert (c = cap \/ In c (findall_from fuel r rest)
            \/ (exists x s0, s = String x s0
                             /\ In c (findall_from fuel r s0))) as Hc.
    { destruct (String.length rest <? String.length s)%nat;
        destruct H as [<- | H]; auto.
      destruct s as [|x s0]; [destruct H|]. right. right. eauto. }
    destruct Hc as [-> | [Hin | (x & s0 & Hs & Hin)]].
    + exists "", s, rest. auto.
    + unfold match_at in E.
      apply run_result in E as (a & s' & cap' & -> & E).
      injection E as _ <-.
      apply IH in Hin as (pre & s'' & rest0 & -> & Hm).
      exists (a +:+ pre), s'', rest0. split; [|exact Hm].
      now rewrite app_assoc_str.
    + eauto.
  - destruct s as [|x s0]; [destruct H|]. eauto.
Qed.

Lemma append_matches_In (ms libs : list string) (x : string) :
  In x (append_matches libs ms) ->
  In x libs
  \/ exists m, In m ms /\ mem m stop_words = false /\ x = strip m.
Proof.
  unfold append_matches. revert libs.
  induction ms as [|m ms IH]; intros libs H; cbn [fold_left] in H;
    [now left|].
  apply IH in H as [H | (m' & Hm & Hs & ->)].
  - destruct (mem m stop_words) eqn:E; [now left|].
    apply in_app_or in H as [H | [<- | []]]; [now left|].
    right. exists m. repeat split; auto. now left.
  - right. exists m'. repeat split; auto. now right.
Qed.

Lemma collect_In (patterns : list regex) (lp x : string) :
  In x (collect patterns lp) ->
  exists p m, In p patterns /\ In m (findall p lp)
              /\ mem m stop_words = false /\ x = strip m.
Proof.
  unfold collect.
  assert (forall libs,
            In x (fold_left
                    (fun libs pattern =>
                       append_matches libs (findall pattern lp))
                    patterns libs) ->
            In x libs
            \/ exists p m, In p patterns /\ In m (findall p lp)
                           /\ mem m stop_words = false /\ x = strip m)
    as Hgen.
  { induction patterns as [|p ps IH]; intros libs H; cbn [fold_left] in H;
      [now left|].
    apply IH in H as [H | (q & m & Hq & Hm & Hs & ->)].
    - apply append_matches_In in H as [H | (m & Hm & Hs & ->)];
        [now left|].
      right. exists p, m. repeat split; auto. now left.
    - right. exists q, m. repeat split; auto. now right. }
  intros H. apply Hgen in H as [[] | H]. exact H.
Qed.

Lemma patterns_token_last :
  Forall token_last avoid_patterns /\ Forall token_last prefer_patterns.
Proof. split; repeat constructor. Qed.

(** What holds of every name collected from token-last patterns. *)
Lemma collected_name (patterns : list regex) (lp x : string) :
  Forall token_last patterns ->
  In x (collect patterns lp) ->
  x <> "" /\ all_chars is_token_char x = true
  /\ mem x stop_words = false /\ contains x lp = true.
Proof.
  intros Hall H.
  apply collect_In in H as (p & m & Hp & Hm & Hs & ->).
  assert (token_last p) as Htl.
  { rewrite Forall_forall in Hall. apply Hall. now apply list_elem_of_In. }
  apply findall_from_In in Hm as (pre & s' & rest & -> & Hm).
  unfold match_at in Hm.
  apply (token_last_capture p Htl) in Hm as (Hne & Htok & pre' & ->).
  rewrite (StrFacts.strip_token m Htok).
  repeat split; auto.
  rewrite <- app_assoc_str. apply contains_app.
Qed.

(** *** The categorical constraints *)

Lemma startswith_prefix (a b s : string) :
  startswith (a +:+ b) s = true -> startswith a s = true.
Proof.
  revert s. induction a as [|x a IH]; intros s H; [reflexivity|].
  rewrite StrFacts.app_cons in H. destruct s as [|y s]; [discriminate|].
  cbn in *. apply andb_true_iff in H as [-> H]. now apply IH.
Qed.

(** A text that contains a phrase contains every beginning of it. *)
Lemma contains_prefix (a b s : string) :
  contains (a +:+ b) s = true -> contains a s = true.
Proof.
  induction s as [|y s IH]; cbn [contains]; intros H.
  - apply orb_true_iff in H as [H | H]; [|discriminate].
    now rewrite (startswith_prefix a b "" H).
  - apply orb_true_iff in H as [H | H].
    + now rewrite (startswith_prefix a b _ H).
    + rewrite (IH H). apply orb_true_r.
Qed.

(** The six appends, for any outcome of the six tests. *)
Lemma categorical_flags (b1 b2 b3 b4 b5 b6 : bool) :
  let l :=
    append_if b6 "Include comprehensive tests"
      (append_if b5 "Use type hints"
         (append_if b4 "Use asynchronous programming"
            (append_if b3 "Follow security best practices"
               (append_if b2 "Optimize for performance"
                  (append_if b1 "Minimize external dependencies" []))))) in
  l `sublist_of` categorical
  /\ mem "Minimize external dependencies" l = b1
  /\ mem "Optimize for performance" l = b2
  /\ mem "Follow security best practices" l = b3
  /\ mem "Use asynchronous programming" l = b4
  /\ mem "Use type hints" l = b5
  /\ mem "Include comprehensive tests" l = b6.
Proof.
  destruct b1, b2, b3, b4, b5, b6; cbn [append_if app];
    (split;
     [unfold categorical;
      repeat first [apply sublist_nil | apply sublist_skip
                   | apply sublist_cons]
     |vm_compute; repeat split]).
Qed.

End CaptureFacts.

Module ParseProps.
Import PyStr Re SpecGenerator_parse Patterns.

(** X19. Every name [parse_explicit_constraints] puts in
    [libraries_forbidden] or [libraries_preferred] is a non-empty text
    without whitespace, comma or period, is none of the stop-words,
    and occurs in the lower-cased prompt: the parser makes up no
    name. *)
Theorem library_names_are_tokens (prompt x : string) :
  In x (pc_libraries_forbidden (parse_explicit_constraints prompt))
  \/ In x (pc_libraries_preferred (parse_explicit_constraints prompt)) ->
  x <> "" /\ all_chars is_token_char x = true
  /\ mem x stop_words = false /\ contains x (lower prompt) = true.
Proof.
  unfold parse_explicit_constraints.
  cbn [pc_libraries_forbidden pc_libraries_preferred].
  destruct CaptureFacts.patterns_token_last as [Ha Hp].
  intros [H | H];
    [apply (CaptureFacts.collected_name avoid_patterns)
    |apply (CaptureFacts.collected_name prefer_patterns)]; assumption.
Qed.

Lemma library_names_are_tokens_witness :
  all_chars is_token_char "numpy" = true
  /\ contains "numpy" (lower "Don't use NumPy") = true.
Proof.
  destruct (library_names_are_tokens "Don't use NumPy" "numpy")
    as (_ & H1 & _ & H2).
  - left. vm_compute. now left.
  - split; assumption.
Defined.

(** X20. The explicit constraints of a prompt are a selection of
    the six categorical constraints in their fixed order, each present
    exactly when its trigger occurs in the lower-cased prompt: "no
    dependencies" or "no external deps"; "performance"; "security" or
    "secure"; "async" (the test for "asynchronous" adds nothing);
    "type" together with "hint"; "test". *)
Theorem categorical_constraints (prompt : string) :
  let lp := lower prompt in
  let ce := pc_constraints_explicit (parse_explicit_constraints prompt) in
  ce `sublist_of` categorical
  /\ (In "Minimize external dependencies" ce
      <-> contains "no dependencies" lp = true
          \/ contains "no external deps" lp = true)
  /\ (In "Optimize for performance" ce
      <-> contains "performance" lp = true)
  /\ (In "Follow security best practices" ce
      <-> contains "security" lp = true \/ contains "secure" lp = true)
  /\ (In "Use asynchronous programming" ce
      <-> contains "async" lp = true)
  /\ (In "Use type hints" ce
      <-> contains "type" lp = true /\ contains "hint" lp = true)
  /\ (In "Include comprehensive tests" ce
      <-> contains "test" lp = true).
Proof.
  intros lp ce. unfold ce, parse_explicit_constraints.
  cbn [pc_constraints_explicit]. fold lp.
  rewrite <- !QuestionFacts.mem_In.
  match goal with
  | |- context [append_if ?b6 _ (append_if ?b5 _ (append_if ?b4 _
                  (append_if ?b3 _ (append_if ?b2 _
                     (append_if ?b1 _ [])))))] =>
      destruct (CaptureFacts.categorical_flags b1 b2 b3 b4 b5 b6)
        as (Hsub & -> & -> & -> & -> & -> & ->)
  end.
  split; [exact Hsub|].
  rewrite !orb_true_iff, andb_true_iff. repeat split; try tauto.
  intros [H | H]; [exact H|].
  exact (CaptureFacts.contains_prefix "async" "hronous" lp H).
Qed.

Lemma categorical_constraints_witness :
  In "Use asynchronous programming"
    (pc_constraints_explicit
       (parse_explicit_constraints "Write ASYNCHRONOUS code")).
Proof.
  destruct (categorical_constraints "Write ASYNCHRONOUS code")
    as (_ & _ & _ & _ & Ha & _).
  now apply Ha.
Defined.

End ParseProps.


(** ** The transcoder and the TaskSpec class *)

Module SpecFacts.
Import PyStr Model Spec.

Lemma lstrip_spaces (s : string) :
  all_chars is_space s = true -> lstrip s = "".
Proof.
  induction s as [|c s IH]; [reflexivity|]. cbn.
  intros H. apply andb_true_iff in H as [-> H]. now apply IH.
Qed.

Lemma lstrip_cases (s : string) :
  (lstrip s = "" /\ all_chars is_space s = true)
  \/ exists c r, lstrip s = String c r /\ is_space c = false
                 /\ all_chars is_space s = false.
Proof.
  induction s as [|c s IH]; [now left|]. cbn.
  destruct (is_space c) eqn:Hc; [|right; eauto].
  destruct IH as [[-> ->] | (c' & r & -> & Hc' & ->)]; [now left|].
  right. eauto.
Qed.

Lemma rstrip_head (c : ascii) (r : string) :
  is_space c = false -> rstrip (String c r) <> "".
Proof.
  intros Hc. cbn. destruct (rstrip r); [rewrite Hc|]; discriminate.
Qed.

(** [strip] returns the empty text on blank texts only. *)
Lemma strip_empty (s : string) :
  strip s = "" <-> all_chars is_space s = true.
Proof.
  unfold strip.
  destruct (lstrip_cases s) as [[-> ->] | (c & r & -> & Hc & ->)].
  - now split.
  - split; [|discriminate]. intros H.
    now apply rstrip_head in H.
Qed.

(** The constructor accepts every dictionary [generate_spec]
    builds. *)
Lemma of_dict_generate_spec (req : TranscodeRequest) :
  of_dict (generate_spec req)
  = Returns
      {| goal := strip (req_prompt req); inputs := []; outputs := [];
         constraints_explicit := [];
         constraints_inferred :=
           ["follow personal style profile";
            "enforce explicit error handling policy";
            "prefer small, pure functions where possible"];
         libraries_preferred := []; libraries_forbidden := [];
         style_guides :=
           df_style_guides (_infer_defaults (req_style_profile req));
         naming_conventions :=
           df_naming_conventions (_infer_defaults (req_style_profile req));
         design_patterns :=
           df_design_patterns (_infer_defaults (req_style_profile req));
         testing_strategy :=
           df_testing_strategy (_infer_defaults (req_style_profile req));
         edge_cases := []; verbosity := req_verbosity req;
         open_questions := []; risk := "medium"; priority := "medium";
         estimated_cost := "medium" |}.
Proof.
  unfold generate_spec.
  generalize (_infer_defaults (req_style_profile req)). intros d.
  destruct req as [p v sp]. destruct v; reflexivity.
Qed.

End SpecFacts.

Module SpecProps.
Import PyStr Model Spec SpecGenerator RAGEnrichment.

(** X21. The TaskSpec constructor accepts the dictionary
    [generate_spec] builds for any request; the TaskSpec has the
    stripped prompt as goal, the request's verbosity, the three
    built-in inferred constraints, the class defaults "medium" for risk,
    priority and estimated cost, and every other list empty. Without a
    style profile its style fields are those of the generator's default
    profile. *)
Theorem generate_spec_is_taskspec (req : TranscodeRequest) :
  exists t,
    of_dict (generate_spec req) = Returns t
    /\ goal t = strip (req_prompt req)
    /\ verbosity t = req_verbosity req
    /\ length (constraints_inferred t) = 3%nat
    /\ (risk t, priority t, estimated_cost t)
       = ("medium", "medium", "medium")
    /\ (inputs t, outputs t, constraints_explicit t, edge_cases t)
       = ([], [], [], [])
    /\ (libraries_preferred t, libraries_forbidden t, open_questions t)
       = ([], [], [])
    /\ (req_style_profile req = None ->
        Some (style_guides t) = sp_style_guides _get_default_style_profile
        /\ Some (naming_conventions t)
           = sp_naming_conventions _get_default_style_profile
        /\ Some (design_patterns t)
           = sp_design_patterns _get_default_style_profile
        /\ Some (testing_strategy t)
           = sp_testing_strategy _get_default_style_profile).
Proof.
  eexists. split; [apply SpecFacts.of_dict_generate_spec|].
  cbn [goal verbosity constraints_inferred risk priority estimated_cost
       inputs outputs constraints_explicit edge_cases libraries_preferred
       libraries_forbidden open_questions style_guides naming_conventions
       design_patterns testing_strategy].
  do 6 (split; [reflexivity|]). intros ->. repeat split.
Qed.

Lemma generate_spec_is_taskspec_witness :
  exists t,
    of_dict (generate_spec MoreSamples.sort_request) = Returns t
    /\ goal t = "Sort the records by date"
    /\ Some (testing_strategy t)
       = sp_testing_strategy _get_default_style_profile.
Proof.
  destruct (generate_spec_is_taskspec MoreSamples.sort_request)
    as (t & H & Hg & _ & _ & _ & _ & _ & Hs).
  exists t. split; [exact H|]. split; [exact Hg|].
  now apply Hs.
Defined.

(** X22. The goal [generate_spec] writes is empty exactly when the
    prompt consists of whitespace only; such a prompt passes the
    length check of the request, and enrichment then returns the spec
    as it is. *)
Theorem generate_spec_blank_goal (req : TranscodeRequest)
    (store : list Decision) (project_context : string) :
  (generate_spec req !! "goal" = Some (VStr "")
   <-> all_chars is_space (req_prompt req) = true)
  /\ (all_chars is_space (req_prompt req) = true ->
      enrich_taskspec store (generate_spec req) project_context
      = Returns (generate_spec req)).
Proof.
  assert (generate_spec req !! "goal"
          = Some (VStr (strip (req_prompt req)))) as Hg by reflexivity.
  rewrite Hg. split.
  - rewrite <- SpecFacts.strip_empty. split; [|now intros ->].
    intros H. now injection H.
  - intros H. apply SpecFacts.strip_empty in H.
    unfold enrich_taskspec. rewrite Hg, H. reflexivity.
Qed.

Lemma generate_spec_blank_goal_witness :
  (0 < String.length (req_prompt MoreSamples.blank_request))%nat
  /\ enrich_taskspec Samples.store (generate_spec MoreSamples.blank_request)
       "current_project"
     = Returns (generate_spec MoreSamples.blank_request).
Proof.
  split; [cbn; lia|].
  apply (proj2 (generate_spec_blank_goal MoreSamples.blank_request
                  Samples.store "current_project")).
  reflexivity.
Defined.

(** X23. On the TaskSpec of a transcoded prompt
    [generate_clarifying_questions] always asks for inputs, outputs,
    constraints, edge cases and libraries; it asks for more detail
    exactly when the stripped prompt has fewer than 5 words, and for a
    testing approach only when the style profile sets an empty one. *)
Theorem questions_on_transcoded (req : TranscodeRequest) (t : TaskSpec) :
  of_dict (generate_spec req) = Returns t ->
  In q_inputs (generate_clarifying_questions t)
  /\ In q_outputs (generate_clarifying_questions t)
  /\ In q_constraints (generate_clarifying_questions t)
  /\ In q_edge_cases (generate_clarifying_questions t)
  /\ In q_libraries (generate_clarifying_questions t)
  /\ (In q_goal (generate_clarifying_questions t)
      <-> (length (split (strip (req_prompt req))) < 5)%nat)
  /\ (In q_testing (generate_clarifying_questions t)
      <-> exists sp, req_style_profile req = Some sp
                     /\ sp_testing_strategy sp = Some "").
Proof.
  rewrite SpecFacts.of_dict_generate_spec. intros H. injection H as <-.
  rewrite <- !QuestionFacts.mem_In, QuestionFacts.generate_selected.
  match goal with
  | |- context [QuestionSpec.selected ?b1 ?b2 ?b3 ?b4 ?b5 ?b6 ?b7] =>
      destruct (QuestionFacts.selected_mem b1 b2 b3 b4 b5 b6 b7)
        as (-> & -> & -> & -> & -> & -> & ->)
  end.
  cbn [inputs outputs constraints_explicit edge_cases libraries_preferred
       libraries_forbidden goal testing_strategy is_empty andb].
  repeat split; try (intros _; reflexivity).
  - intros H. apply Z.ltb_lt in H. lia.
  - intros H. apply Z.ltb_lt. lia.
  - intros H. apply String.eqb_eq in H. unfold _infer_defaults in H.
    destruct (req_style_profile req) as [sp|]; [|discriminate H].
    exists sp. split; [reflexivity|]. cbn in H.
    destruct (sp_testing_strategy sp) as [s|]; [|discriminate H].
    cbn in H. now subst.
  - intros (sp & -> & Hs). unfold _infer_defaults.
    cbn [df_testing_strategy]. now rewrite Hs.
Qed.

Lemma questions_on_transcoded_witness :
  exists t,
    of_dict (generate_spec MoreSamples.sort_request) = Returns t
    /\ In q_inputs (generate_clarifying_questions t)
    /\ ~ In q_goal (generate_clarifying_questions t).
Proof.
  eexists. split; [apply SpecFacts.of_dict_generate_spec|].
  match goal with
  | |- In _ (generate_clarifying_questions ?t) /\ _ =>
      destruct (questions_on_transcoded MoreSamples.sort_request t
                  (SpecFacts.of_dict_generate_spec _))
        as (Hi & _ & _ & _ & _ & Hg & _)
  end.
  split; [exact Hi|]. intros H. apply Hg in H. vm_compute in H. lia.
Defined.

(** X24. Writing a TaskSpec as a dictionary and constructing a
    TaskSpec from it gives the TaskSpec back; keys that are no fields of
    the class, such as the [examples] enrichment adds, are ignored by
    the constructor. *)
Theorem taskspec_round_trip (t : TaskSpec) (examples : value) :
  of_dict (dict t) = Returns t
  /\ of_dict (<["examples" := examples]> (dict t)) = Returns t.
Proof.
  destruct t as [g i o ce ci lp lf sg nc dp ts ec v oq r p c].
  destruct v; split; reflexivity.
Qed.

End SpecProps.
